(** * moneycure backend: request authorization and follow-up audit trail

    A shallow embedding of [auth/tokens.js], [auth/middleware.js] and
    the follow-up routes of [index.js], together with the parts of
    their environment they rely on: the JavaScript host ([String],
    [Date], [toLocaleDateString]), [jsonwebtoken], Express' route
    chains, and PostgreSQL reached through the [pg] pool of [db.js].

    JavaScript strings are modelled as [string], read as sequences of
    code units below 256. *)

From Stdlib Require Import ZArith String Ascii List Bool Lia.
From Stdlib Require DecimalString.
From stdpp Require Import base gmap strings.

Import ListNotations.
Local Open Scope string_scope.

(** ** JavaScript values and strings *)

Module Js.

(** The values that occur in request bodies and in token payloads:
    [undefined] and the JSON scalars, numbers restricted to safe
    integers (which print in plain decimal). Arrays and objects are
    left out. *)
Inductive value : Type :=
| JUndefined
| JNull
| JBool (b : bool)
| JNum (n : Z)
| JStr (s : string).

Definition value_eqb (a b : value) : bool :=
  match a, b with
  | JUndefined, JUndefined => true
  | JNull, JNull => true
  | JBool x, JBool y => Bool.eqb x y
  | JNum x, JNum y => Z.eqb x y
  | JStr x, JStr y => String.eqb x y
  | _, _ => false
  end.

(** [a === b] *)
Definition strict_eq (a b : value) : bool := value_eqb a b.

(** [a ?? b] *)
Definition nullish (a b : value) : value :=
  match a with
  | JUndefined | JNull => b
  | _ => a
  end.

(** Decimal digits of an integer, as [Number.prototype.toString] prints
    integers. *)
Definition dec (n : Z) : string :=
  DecimalString.NilZero.string_of_int (Z.to_int n).

(** [String(v)] *)
Definition to_String (v : value) : string :=
  match v with
  | JUndefined => "undefined"
  | JNull => "null"
  | JBool true => "true"
  | JBool false => "false"
  | JNum n => dec n
  | JStr s => s
  end.

(** [s.startsWith(p)] *)
Definition startsWith (s p : string) : bool := String.prefix p s.

(** [s.slice(n)] for [0 <= n]. *)
Fixpoint slice_from (n : nat) (s : string) : string :=
  match n, s with
  | O, _ => s
  | S n', String _ s' => slice_from n' s'
  | S _, EmptyString => EmptyString
  end.

(** [s.slice(0, n)] *)
Fixpoint slice_to (n : nat) (s : string) : string :=
  match n, s with
  | O, _ => EmptyString
  | S n', String c s' => String c (slice_to n' s')
  | S _, EmptyString => EmptyString
  end.

(** White space and line terminators stripped by
    [String.prototype.trim], among the code units below 256: TAB, LF,
    VT, FF, CR, SP and NBSP. *)
Definition is_space (c : ascii) : bool :=
  let n := N_of_ascii c in
  ((9 <=? n) && (n <=? 13) || (n =? 32) || (n =? 160))%N.

Fixpoint trimStart (s : string) : string :=
  match s with
  | String c s' => if is_space c then trimStart s' else s
  | EmptyString => EmptyString
  end.

(** Strips trailing white space: a character is kept when it is no
    space or when something is kept after it. *)
Fixpoint trimEnd (s : string) : string :=
  match s with
  | EmptyString => EmptyString
  | String c s' =>
      match trimEnd s' with
      | EmptyString => if is_space c then EmptyString else String c EmptyString
      | t => String c t
      end
  end.

Fixpoint all_space (s : string) : bool :=
  match s with
  | EmptyString => true
  | String c s' => is_space c && all_space s'
  end.

(** [s.trim()] *)
Definition trim (s : string) : string := trimEnd (trimStart s).

(** [\d] *)
Definition is_digit (c : ascii) : bool :=
  let n := N_of_ascii c in ((48 <=? n) && (n <=? 57))%N.

Definition digit_val (c : ascii) : Z := Z.of_N (N_of_ascii c) - 48.

(** The groups of a string matching [/^\d{4}-\d{2}-\d{2}$/], read as
    numbers: year, month and day. *)
Definition match_ymd (s : string) : option (Z * Z * Z) :=
  match s with
  | String y1 (String y2 (String y3 (String y4 (String h1
      (String m1 (String m2 (String h2 (String d1 (String d2 EmptyString))))))))) =>
      if is_digit y1 && is_digit y2 && is_digit y3 && is_digit y4
         && Ascii.eqb h1 "-" && is_digit m1 && is_digit m2
         && Ascii.eqb h2 "-" && is_digit d1 && is_digit d2
      then Some (1000 * digit_val y1 + 100 * digit_val y2
                   + 10 * digit_val y3 + digit_val y4,
                 10 * digit_val m1 + digit_val m2,
                 10 * digit_val d1 + digit_val d2)%Z
      else None
  | _ => None
  end.

(** [/^\d{4}-\d{2}-\d{2}$/.test(s)] *)
Definition test_date_re (s : string) : bool :=
  match match_ymd s with Some _ => true | None => false end.

End Js.

(** ** The host's [Date] *)

Module JsDate.
Local Open Scope Z_scope.

Definition msPerDay : Z := 86400000.

(** What the host supplies: its local time zone adjustment
    [LocalTZA(t, isUTC)] in milliseconds, the zone suffix that
    [Date.prototype.toString] prints, and the implementation-defined
    part of [Date.parse], consulted for strings that are not of the
    date-time form modelled in [parse_utc_midnight]. [None] is [NaN]. *)
Record Host : Type := {
  LocalTZA : Z -> bool -> Z;
  TimeZoneString : Z -> string;
  parse_other : string -> option Z
}.

(** Day number (days since 1970-01-01) of day [d] of month [m], 1..12,
    of year [y] in the proleptic Gregorian calendar; linear in [d],
    also past the end of the month. *)
Definition days_from_civil (y m d : Z) : Z :=
  let y' := if m <=? 2 then y - 1 else y in
  let era := y' / 400 in
  let yoe := y' - era * 400 in
  let mp := (m + 9) mod 12 in
  let doy := (153 * mp + 2) / 5 + d - 1 in
  let doe := yoe * 365 + yoe / 4 - yoe / 100 + doy in
  era * 146097 + doe - 719468.

(** Year, month (1..12) and day of month of a day number:
    [YearFromTime], [MonthFromTime] + 1 and [DateFromTime]. *)
Definition civil_from_days (z : Z) : Z * Z * Z :=
  let z' := z + 719468 in
  let era := z' / 146097 in
  let doe := z' - era * 146097 in
  let yoe := (doe - doe / 1460 + doe / 36524 - doe / 146096) / 365 in
  let doy := doe - (365 * yoe + yoe / 4 - yoe / 100) in
  let mp := (5 * doy + 2) / 153 in
  let d := doy - (153 * mp + 2) / 5 + 1 in
  let m := if mp <? 10 then mp + 3 else mp - 9 in
  (if m <=? 2 then yoe + era * 400 + 1 else yoe + era * 400, m, d).

(** [MakeDay(year, month, date)] with a zero-based month; a day of
    month past the end of the month runs into the next one. *)
Definition MakeDay (year month date : Z) : Z :=
  days_from_civil (year + month / 12) (month mod 12 + 1) 1 + date - 1.

Definition Day (t : Z) : Z := t / msPerDay.
Definition WeekDay (t : Z) : Z := (Day t + 4) mod 7.
Definition HourFromTime (t : Z) : Z := (t / 3600000) mod 24.
Definition MinFromTime (t : Z) : Z := (t / 60000) mod 60.
Definition SecFromTime (t : Z) : Z := (t / 1000) mod 60.

Definition LocalTime (h : Host) (t : Z) : Z := t + LocalTZA h t true.
Definition UTC (h : Host) (t : Z) : Z := t - LocalTZA h t false.

(** [new Date(year, month, day)]: local midnight of that day. *)
Definition Date_local (h : Host) (year month date : Z) : Z :=
  UTC h (MakeDay year month date * msPerDay).

(** The strings [X + 'T00:00:00.000Z'] with [X] matching
    [/^\d{4}-\d{2}-\d{2}$/]: the groups of [X]. *)
Definition parse_utc_midnight (s : string) : option (Z * Z * Z) :=
  if String.eqb (Js.slice_from 10 s) "T00:00:00.000Z"
  then Js.match_ymd (Js.slice_to 10 s)
  else None.

(** [new Date(s).getTime()]. On a date-time string of the form above
    V8 accepts months 01..12 and days 01..31 whatever the month (its
    ISO scanner checks [IsMonth] and [IsDay] only, and the legacy
    scanner it falls back to stops at the [T] that follows a number);
    the day then goes through [MakeDay]. Strings of any other form are
    left to the host. *)
Definition Date_parse (h : Host) (s : string) : option Z :=
  match parse_utc_midnight s with
  | Some (y, m, d) =>
      if (1 <=? m) && (m <=? 12) && (1 <=? d) && (d <=? 31)
      then Some (MakeDay y (m - 1) d * msPerDay)
      else None
  | None => parse_other h s
  end.

Definition pad2 (n : Z) : string :=
  if n <? 10 then "0" ++ Js.dec n else Js.dec n.

Definition pad4 (n : Z) : string :=
  if n <? 10 then "000" ++ Js.dec n
  else if n <? 100 then "00" ++ Js.dec n
  else if n <? 1000 then "0" ++ Js.dec n
  else Js.dec n.

Definition weekday_name (w : Z) : string :=
  match w with
  | 0 => "Sun" | 1 => "Mon" | 2 => "Tue" | 3 => "Wed"
  | 4 => "Thu" | 5 => "Fri" | _ => "Sat"
  end.

(** Month names of [Date.prototype.toString]; [m] in 1..12. *)
Definition month_name (m : Z) : string :=
  match m with
  | 1 => "Jan" | 2 => "Feb" | 3 => "Mar" | 4 => "Apr"
  | 5 => "May" | 6 => "Jun" | 7 => "Jul" | 8 => "Aug"
  | 9 => "Sep" | 10 => "Oct" | 11 => "Nov" | _ => "Dec"
  end.

(** [DateString(tv)] of a local time value. *)
Definition DateString (tl : Z) : string :=
  let '(y, m, d) := civil_from_days (Day tl) in
  weekday_name (WeekDay tl) ++ " " ++ month_name m ++ " " ++ pad2 d
    ++ " " ++ (if y <? 0 then "-" else "") ++ pad4 (Z.abs y).

Definition TimeString (tl : Z) : string :=
  pad2 (HourFromTime tl) ++ ":" ++ pad2 (MinFromTime tl) ++ ":"
    ++ pad2 (SecFromTime tl) ++ " GMT".

(** [String(d)] for a valid [Date] with time value [t]:
    [Date.prototype.toString]. *)
Definition toString (h : Host) (t : Z) : string :=
  let tl := LocalTime h t in
  DateString tl ++ " " ++ TimeString tl ++ TimeZoneString h t.

(** Abbreviated month names of the [en-GB] locale (CLDR; September
    is "Sept" since CLDR 38, "Sep" in older data). *)
Definition en_GB_month_short (m : Z) : string :=
  match m with
  | 1 => "Jan" | 2 => "Feb" | 3 => "Mar" | 4 => "Apr"
  | 5 => "May" | 6 => "Jun" | 7 => "Jul" | 8 => "Aug"
  | 9 => "Sept" | 10 => "Oct" | 11 => "Nov" | _ => "Dec"
  end.

(** [d.toLocaleDateString('en-GB', { day: 'numeric', month: 'short',
    year: 'numeric' })] for a valid date: pattern [d MMM y] over the
    fields of the local time, no [timeZone] option being given; [y]
    is the year of the era. *)
Definition toLocaleDateString_en_GB (h : Host) (t : Z) : string :=
  let '(y, m, d) := civil_from_days (Day (LocalTime h t)) in
  Js.dec d ++ " " ++ en_GB_month_short m ++ " "
    ++ Js.dec (if y <=? 0 then 1 - y else y).

(** A host on UTC whose [Date.parse] knows no other format. *)
Definition utc_host : Host :=
  {| LocalTZA := fun _ _ => 0;
     TimeZoneString := fun _ => "+0000 (Coordinated Universal Time)";
     parse_other := fun _ => None |}.

(** A host five hours west of UTC. *)
Definition utc_minus_5_host : Host :=
  {| LocalTZA := fun _ _ => -18000000;
     TimeZoneString := fun _ => "-0500 (GMT-05:00)";
     parse_other := fun _ => None |}.

End JsDate.

(** ** [jsonwebtoken]: HS256 compact tokens *)

Module Jwt.
Local Open Scope Z_scope.

(** The claims set of a token: the payload given to [jwt.sign] plus
    the issue time and, when [expiresIn] is given, the expiry, both
    in seconds. *)
Record Claims : Type := {
  userId : Js.value;
  role : Js.value;
  customerId : Js.value;
  iat : Z;
  exp : option Z
}.

(** The parts of the library kept abstract: the HMAC-SHA256 signature
    of a signing input under a secret, the signing input of a claims
    set (base64url of header and of JSON payload), and the compact
    form joining signing input and signature, each with its reader. *)
Record Codec : Type := {
  hs256 : string -> string -> string;
  signing_input : Claims -> string;
  read_claims : string -> option Claims;
  compact : string -> string -> string;
  uncompact : string -> option (string * string);
  read_signing_input : forall c, read_claims (signing_input c) = Some c;
  uncompact_compact : forall c secret,
    let b := signing_input c in
    uncompact (compact b (hs256 secret b)) = Some (b, hs256 secret b);
  compact_not_empty : forall b sg, compact b sg <> ""
}.

(** [JsonWebTokenError] with its message class, or [TokenExpiredError]. *)
Inductive Error : Type :=
| MustBeProvided
| Malformed
| InvalidSignature
| Expired.

(** [Math.floor(Date.now() / 1000)] *)
Definition clockTimestamp (now_ms : Z) : Z := now_ms / 1000.

(** [jwt.sign(payload, secret, { expiresIn })], [expiresIn] in seconds,
    at time [now_ms]. *)
(** The claims set that [jwt.sign] builds. *)
Definition claims_at (uid rl cid : Js.value) (expiresIn : Z) (now_ms : Z)
    : Claims :=
  let t := clockTimestamp now_ms in
  {| userId := uid; role := rl; customerId := cid;
     iat := t; exp := Some (t + expiresIn) |}.

Definition sign (k : Codec) (uid rl cid : Js.value) (secret : string)
    (expiresIn : Z) (now_ms : Z) : string :=
  let c := claims_at uid rl cid expiresIn now_ms in
  compact k (signing_input k c) (hs256 k secret (signing_input k c)).

(** [jwt.verify(token, secret)] at time [now_ms]: the token is taken
    apart, then the signature is checked, then the expiry. *)
Definition verify (k : Codec) (token secret : string) (now_ms : Z)
    : Error + Claims :=
  if String.eqb token "" then inl MustBeProvided else
  match uncompact k token with
  | None => inl Malformed
  | Some (b, sg) =>
      match read_claims k b with
      | None => inl Malformed
      | Some c =>
          if negb (String.eqb sg (hs256 k secret b)) then inl InvalidSignature
          else match exp c with
               | Some e => if clockTimestamp now_ms >=? e then inl Expired
                           else inr c
               | None => inr c
               end
      end
  end.

End Jwt.

(** ** [auth/tokens.js] *)

Module Tokens.
Local Open Scope Z_scope.

(** ['7d'] in seconds. *)
Definition ACCESS_TOKEN_EXPIRY : Z := 7 * 24 * 60 * 60.

Inductive Thrown : Type :=
| ConfigError (message : string)
| JwtError (e : Jwt.Error).

(** The payload argument of [createAccessToken]. *)
Record Payload : Type := {
  userId : Js.value;
  role : Js.value;
  customerId : Js.value
}.

(** [ensureJwtSecret()], with [JWT_SECRET = process.env.JWT_SECRET]:
    [None] is [undefined]. [Some e] is the error thrown. *)
Definition ensureJwtSecret (JWT_SECRET : option string) : option Thrown :=
  match JWT_SECRET with
  | None | Some "" =>
      Some (ConfigError "JWT_SECRET environment variable is not set")
  | Some _ => None
  end.

Definition createAccessToken (k : Jwt.Codec) (JWT_SECRET : option string)
    (payload : Payload) (now_ms : Z) : Thrown + string :=
  match ensureJwtSecret JWT_SECRET with
  | Some e => inl e
  | None =>
      inr (Jwt.sign k (userId payload) (role payload)
             (Js.nullish (customerId payload) Js.JNull)
             (default "" JWT_SECRET) ACCESS_TOKEN_EXPIRY now_ms)
  end.

Definition verifyAccessToken (k : Jwt.Codec) (JWT_SECRET : option string)
    (token : string) (now_ms : Z) : Thrown + Jwt.Claims :=
  match ensureJwtSecret JWT_SECRET with
  | Some e => inl e
  | None =>
      match Jwt.verify k token (default "" JWT_SECRET) now_ms with
      | inl e => inl (JwtError e)
      | inr c => inr c
      end
  end.

End Tokens.

(** ** The record store: PostgreSQL through [pg] *)

Module Db.
Local Open Scope Z_scope.

(** A value of SQL type [date]. *)
Record SqlDate : Type := { year : Z; month : Z; day : Z }.

(** A row of [customers] ([id] is the key of the table below;
    [created_at] is left out). *)
Record Customer : Type := {
  name : string;
  phone : string;
  city : option string;
  status : string;
  next_followup_date : option SqlDate
}.

Inductive Statement : Type :=
| SelectFollowup (id : string)
| UpdateFollowup (value : option string) (id : string)
| UpdateFollowupNull (id : string)
| InsertComment (id : string) (comment : string).

(** The tables, and the statements sent to the pool so far, latest
    last. [customer_comments] holds [(customer_id, comment)] in
    insertion order. *)
Record State : Type := {
  customers : gmap string Customer;
  customer_comments : list (string * string);
  sent : list Statement
}.

Definition log (q : Statement) (db : State) : State :=
  {| customers := customers db;
     customer_comments := customer_comments db;
     sent := sent db ++ [q] |}.

Definition is_leap (y : Z) : bool :=
  ((y mod 4 =? 0) && negb (y mod 100 =? 0)) || (y mod 400 =? 0).

Definition days_in_month (y m : Z) : Z :=
  match m with
  | 2 => if is_leap y then 29 else 28
  | 4 | 6 | 9 | 11 => 30
  | _ => 31
  end.

(** A day that exists in the calendar. *)
Definition real_date (y m d : Z) : bool :=
  (1 <=? m) && (m <=? 12) && (1 <=? d) && (d <=? days_in_month y m).

(** The server's reading of a [YYYY-MM-DD] text as a [date]; other
    texts do not reach it from the routes below. There is no year
    zero. *)
Definition date_in (s : string) : option SqlDate :=
  match Js.match_ymd s with
  | Some (y, m, d) =>
      if (1 <=? y) && real_date y m d
      then Some {| year := y; month := m; day := d |}
      else None
  | None => None
  end.

(** The parameter [$1] of the update as a [date]: [null], or the
    reading of the text; [None] when the server rejects the text. *)
Definition date_param (value : option string) : option (option SqlDate) :=
  match value with
  | None => Some None
  | Some s => option_map Some (date_in s)
  end.

Definition set_followup (v : option SqlDate) (c : Customer) : Customer :=
  {| name := name c; phone := phone c; city := city c;
     status := status c; next_followup_date := v |}.

(** What the driver hands to JavaScript for a [date] column, which
    [customers.next_followup_date] is: [null], or a [Date] object at
    local midnight of that day (the pool of [db.js] installs no type
    parser of its own, so the driver's default for [date] applies).
    The result is the time value of the [Date]. *)
Definition date_to_js (h : JsDate.Host) (v : option SqlDate) : option Z :=
  match v with
  | None => None
  | Some dt => Some (JsDate.Date_local h (year dt) (month dt - 1) (day dt))
  end.

Section Pool.
(** Statements that the store fails to carry out, for reasons of its
    own (connection lost, an id that is no uuid, ...). *)
Variable fails : Statement -> bool.

(** [SELECT next_followup_date FROM customers WHERE id = $1]:
    the rows, or an error. *)
Definition select_followup (id : string) (db : State)
    : State * option (list (option SqlDate)) :=
  let db' := log (SelectFollowup id) db in
  if fails (SelectFollowup id) then (db', None)
  else (db', Some match customers db !! id with
                  | Some c => [next_followup_date c]
                  | None => []
                  end).

(** [UPDATE customers SET next_followup_date = $1 WHERE id = $2
    RETURNING ...]: the returned rows, or an error. Each statement
    is its own transaction. *)
Definition update_followup (value : option string) (id : string)
    (db : State) : State * option (list Customer) :=
  let q := UpdateFollowup value id in
  let db' := log q db in
  if fails q then (db', None)
  else
    match date_param value with
    | None => (db', None)
    | Some v =>
        match customers db !! id with
        | None => (db', Some [])
        | Some c =>
            ({| customers := <[id := set_followup v c]> (customers db);
                customer_comments := customer_comments db;
                sent := sent db' |},
             Some [set_followup v c])
        end
    end.

(** [UPDATE customers SET next_followup_date = NULL WHERE id = $1
    RETURNING ...] *)
Definition update_followup_null (id : string) (db : State)
    : State * option (list Customer) :=
  let q := UpdateFollowupNull id in
  let db' := log q db in
  if fails q then (db', None)
  else
    match customers db !! id with
    | None => (db', Some [])
    | Some c =>
        ({| customers := <[id := set_followup None c]> (customers db);
            customer_comments := customer_comments db;
            sent := sent db' |},
         Some [set_followup None c])
    end.

(** [INSERT INTO customer_comments (customer_id, comment) VALUES
    ($1, $2)]; [customer_id] references [customers]. [true] when
    the row was inserted. *)
Definition insert_comment (id comment : string) (db : State)
    : State * bool :=
  let q := InsertComment id comment in
  let db' := log q db in
  if fails q then (db', false)
  else
    match customers db !! id with
    | None => (db', false)
    | Some _ =>
        ({| customers := customers db;
            customer_comments := customer_comments db ++ [(id, comment)];
            sent := sent db' |},
         true)
    end.
End Pool.

End Db.

(** ** Requests, responses and middleware chains (Express) *)

Module Http.
Local Open Scope Z_scope.

(** What the routes modelled here hand to [res.json]: an error
    object, or the row the driver returned (its date a [Date], written
    out as [Json.followup_date] says); [Unhandled] is the body of the
    global error handler. *)
Inductive Body : Type :=
| ErrorBody (error : string)
| CustomerBody (row : Db.Customer)
| Unhandled.

Record Response : Type := { status : Z; body : Body }.

(** [req.user] *)
Record User : Type := {
  userId : Js.value;
  role : Js.value;
  customerId : Js.value
}.

(** The parts of a request the routes read: the [Authorization]
    header, the path parameter [:id], the body field
    [next_followup_date], and [req.user] ([None] while unset). *)
Record Request : Type := {
  authorization : option string;
  id : string;
  next_followup_date : Js.value;
  user : option User
}.

Definition set_user (u : User) (req : Request) : Request :=
  {| authorization := authorization req; id := id req;
     next_followup_date := next_followup_date req; user := Some u |}.

Definition set_body (nfd : Js.value) (req : Request) : Request :=
  {| authorization := authorization req; id := id req;
     next_followup_date := nfd; user := user req |}.

(** How a middleware ends: it calls [next()], it sends a response and
    returns, or it throws. *)
Inductive Outcome : Type :=
| Next (req : Request)
| Send (res : Response)
| Throw.

Definition deny (code : Z) (msg : string) : Outcome :=
  Send {| status := code; body := ErrorBody msg |}.

(** A step of a route: middleware or final handler, with its name. *)
Definition Step : Type :=
  string * (Request -> Db.State -> Db.State * Outcome).

(** A middleware that leaves the store alone. *)
Definition pure_step (nm : string) (f : Request -> Outcome) : Step :=
  (nm, fun req db => (db, f req)).

(** Express runs the steps of a route in order, each one only when
    the one before called [next()]. A thrown error goes to the global
    error handler (500); a request no step answered reaches the final
    404 handler. Returned: the store, the response, and the names of
    the steps that ran. *)
Fixpoint run (steps : list Step) (req : Request) (db : Db.State)
    : Db.State * Response * list string :=
  match steps with
  | [] => (db, {| status := 404; body := ErrorBody "Not found" |}, [])
  | (nm, f) :: rest =>
      match f req db with
      | (db', Next req') =>
          let '(db'', res, ran) := run rest req' db' in (db'', res, nm :: ran)
      | (db', Send res) => (db', res, [nm])
      | (db', Throw) => (db', {| status := 500; body := Unhandled |}, [nm])
      end
  end.

(** The steps all called [next()]: the store and the request they
    hand on, and their names. [None] when one of them ended the
    request. *)
Fixpoint through (steps : list Step)
    (req : Request) (db : Db.State)
    : option (Db.State * Request * list string) :=
  match steps with
  | [] => Some (db, req, [])
  | (nm, f) :: rest =>
      match f req db with
      | (db', Next req') =>
          match through rest req' db' with
          | Some (db'', req'', ran) => Some (db'', req'', nm :: ran)
          | None => None
          end
      | _ => None
      end
  end.

End Http.

(** ** [auth/middleware.js] *)

Module Middleware.
Import Http.
Local Open Scope Z_scope.

(** The four denials, named as the specification names them. *)
Definition MissingCredential : Outcome :=
  deny 401 "Missing or invalid authorization header".
Definition InvalidOrExpiredCredential : Outcome :=
  deny 401 "Invalid or expired token".
Definition InsufficientRole_admin : Outcome :=
  deny 403 "Admin access required".
Definition InsufficientRole_staff : Outcome :=
  deny 403 "Staff or admin access required".
Definition NotSelf : Outcome :=
  deny 403 "Access denied to this customer".

Definition authenticate (k : Jwt.Codec) (JWT_SECRET : option string)
    (now_ms : Z) (req : Request) : Outcome :=
  match authorization req with
  | None => MissingCredential
  | Some authHeader =>
      if String.eqb authHeader "" || negb (Js.startsWith authHeader "Bearer ")
      then MissingCredential
      else
        let token := Js.slice_from 7 authHeader in
        match Tokens.verifyAccessToken k JWT_SECRET token now_ms with
        | inr payload =>
            Next (set_user
                    {| userId := Jwt.userId payload;
                       role := Jwt.role payload;
                       customerId :=
                         Js.nullish (Jwt.customerId payload) Js.JNull |}
                    req)
        | inl _ => InvalidOrExpiredCredential
        end
  end.

(** Reading [req.user.role] throws while [req.user] is unset. *)
Definition requireAdmin (req : Request) : Outcome :=
  match user req with
  | None => Throw
  | Some u =>
      if negb (Js.strict_eq (role u) (Js.JStr "admin"))
      then InsufficientRole_admin
      else Next req
  end.

Definition requireStaffOrAdmin (req : Request) : Outcome :=
  match user req with
  | None => Throw
  | Some u =>
      if negb (Js.strict_eq (role u) (Js.JStr "admin"))
         && negb (Js.strict_eq (role u) (Js.JStr "staff"))
      then InsufficientRole_staff
      else Next req
  end.

Definition requireCustomerSelf (req : Request) : Outcome :=
  let customerId' := id req in
  match user req with
  | None => Throw
  | Some u =>
      if Js.strict_eq (role u) (Js.JStr "admin")
         || Js.strict_eq (role u) (Js.JStr "staff")
      then Next req
      else if Js.strict_eq (role u) (Js.JStr "customer")
              && Js.strict_eq (customerId u) (Js.JStr customerId')
      then Next req
      else NotSelf
  end.

End Middleware.

(** ** The follow-up routes of [index.js] *)

Module Server.
Import Http.
Local Open Scope Z_scope.

(** What a run of the server depends on besides the request and the
    store. *)
Record Env : Type := {
  codec : Jwt.Codec;
  JWT_SECRET : option string;
  host : JsDate.Host;
  now_ms : Z;
  fails : Db.Statement -> bool
}.

(** A value inside a template literal: [null] prints as "null". *)
Definition interpolate (v : option string) : string :=
  match v with
  | None => "null"
  | Some s => s
  end.

(** [formatCommentDate(dateStr)]; [None] is [null]. *)
Definition formatCommentDate (h : JsDate.Host) (dateStr : option string)
    : option string :=
  match dateStr with
  | None | Some "" => None
  | Some s =>
      match JsDate.Date_parse h
              (s ++ (if Nat.eqb (String.length s) 10
                     then "T00:00:00.000Z" else "")) with
      | None => None
      | Some t => Some (JsDate.toLocaleDateString_en_GB h t)
      end
  end.

Definition is_nullish (v : Js.value) : bool :=
  match v with
  | Js.JNull | Js.JUndefined => true
  | _ => false
  end.

(** The checks at the head of the PUT handler: [Some r] is the
    response of a rejected request. *)
Definition validate (h : JsDate.Host) (nfd : Js.value) : option Response :=
  if is_nullish nfd then None
  else
    let dateStr := Js.trim (Js.to_String nfd) in
    if negb (Js.test_date_re dateStr)
    then Some {| status := 400;
                 body := ErrorBody "next_followup_date must be YYYY-MM-DD or null" |}
    else
      match JsDate.Date_parse h (dateStr ++ "T00:00:00.000Z") with
      | None => Some {| status := 400;
                        body := ErrorBody "next_followup_date is not a valid date" |}
      | Some _ => None
      end.

(** [x !== y] on values that are [null] or strings. *)
Definition differs (x y : option string) : bool :=
  match x, y with
  | None, None => false
  | Some a, Some b => negb (String.eqb a b)
  | _, _ => true
  end.

Definition null_or_empty (x : option string) : bool :=
  match x with
  | None | Some "" => true
  | Some _ => false
  end.

(** The narrative for a change of the follow-up date. *)
Definition commentText (h : JsDate.Host) (previousDate newDate : option string)
    : string :=
  if null_or_empty newDate then "Follow-up cleared."
  else if null_or_empty previousDate
  then "Follow-up scheduled for " ++ interpolate (formatCommentDate h newDate) ++ "."
  else "Follow-up date changed from "
         ++ interpolate (formatCommentDate h previousDate)
         ++ " to " ++ interpolate (formatCommentDate h newDate) ++ ".".

Definition server_error (msg : string) : Response :=
  {| status := 500; body := ErrorBody msg |}.
Definition not_found : Response :=
  {| status := 404; body := ErrorBody "Customer not found" |}.
Definition ok (row : Db.Customer) : Response :=
  {| status := 200; body := CustomerBody row |}.

(** [String(row.next_followup_date).slice(0, 10)] when the column is
    not [null]: the first ten characters of [Date.prototype.toString]. *)
Definition previous_date (h : JsDate.Host) (v : option Z) : option string :=
  match v with
  | None => None
  | Some t => Some (Js.slice_to 10 (JsDate.toString h t))
  end.

(** [value]: [null], or the trimmed text of the body field. *)
Definition new_value (nfd : Js.value) : option string :=
  if is_nullish nfd then None else Some (Js.trim (Js.to_String nfd)).

(** The handler of [PUT /customers/:id/followup]. *)
Definition put_followup (e : Env) (req : Request) (db : Db.State)
    : Db.State * Response :=
  let h := host e in
  let nfd := next_followup_date req in
  match validate h nfd with
  | Some rejected => (db, rejected)
  | None =>
      let value := new_value nfd in
      match Db.select_followup (fails e) (id req) db with
      | (db1, None) => (db1, server_error "Failed to update follow-up date")
      | (db1, Some []) => (db1, not_found)
      | (db1, Some (col :: _)) =>
          let previousDate := previous_date h (Db.date_to_js h col) in
          let newDate := value in
          match Db.update_followup (fails e) value (id req) db1 with
          | (db2, None) => (db2, server_error "Failed to update follow-up date")
          | (db2, Some []) => (db2, not_found)
          | (db2, Some (row :: _)) =>
              if differs previousDate newDate
              then
                match Db.insert_comment (fails e) (id req)
                        (commentText h previousDate newDate) db2 with
                | (db3, false) =>
                    (db3, server_error "Failed to update follow-up date")
                | (db3, true) => (db3, ok row)
                end
              else (db2, ok row)
          end
      end
  end.

(** The handler of [POST /customers/:id/followup/done]. *)
Definition post_followup_done (e : Env) (req : Request) (db : Db.State)
    : Db.State * Response :=
  match Db.update_followup_null (fails e) (id req) db with
  | (db1, None) => (db1, server_error "Failed to mark follow-up done")
  | (db1, Some []) => (db1, not_found)
  | (db1, Some (row :: _)) =>
      match Db.insert_comment (fails e) (id req)
              "Follow-up marked as done." db1 with
      | (db2, false) => (db2, server_error "Failed to mark follow-up done")
      | (db2, true) => (db2, ok row)
      end
  end.

Definition handler (nm : string)
    (f : Request -> Db.State -> Db.State * Response) : Step :=
  (nm, fun req db => let '(db', res) := f req db in (db', Send res)).

Definition authenticate_step (e : Env) : Step :=
  pure_step "authenticate"
    (Middleware.authenticate (codec e) (JWT_SECRET e) (now_ms e)).
Definition requireAdmin_step : Step :=
  pure_step "requireAdmin" Middleware.requireAdmin.
Definition requireStaffOrAdmin_step : Step :=
  pure_step "requireStaffOrAdmin" Middleware.requireStaffOrAdmin.
Definition requireCustomerSelf_step : Step :=
  pure_step "requireCustomerSelf" Middleware.requireCustomerSelf.

(** [app.put('/customers/:id/followup', authenticate,
    requireStaffOrAdmin, ...)] *)
Definition route_put_followup (e : Env) : list Step :=
  [authenticate_step e; requireStaffOrAdmin_step;
   handler "put_followup" (put_followup e)].

(** [app.post('/customers/:id/followup/done', authenticate,
    requireStaffOrAdmin, ...)] *)
Definition route_post_followup_done (e : Env) : list Step :=
  [authenticate_step e; requireStaffOrAdmin_step;
   handler "post_followup_done" (post_followup_done e)].

End Server.

(** ** A reference instance of the token codec

    Claims are numbered through their countable encoding and written
    in binary; the signature is the secret followed by the signing
    input. It shows that the laws of [Jwt.Codec] can be met, and gives
    the statements about tokens something to run on. *)

Module ReferenceCodec.

Fixpoint bits_of_pos (p : positive) : string :=
  match p with
  | xH => EmptyString
  | xO q => String "0" (bits_of_pos q)
  | xI q => String "1" (bits_of_pos q)
  end.

Fixpoint pos_of_bits (s : string) : option positive :=
  match s with
  | EmptyString => Some xH
  | String c r =>
      if Ascii.eqb c "0" then option_map xO (pos_of_bits r)
      else if Ascii.eqb c "1" then option_map xI (pos_of_bits r)
      else None
  end.

(** Splits at the first full stop. *)
Fixpoint split_dot (s : string) : option (string * string) :=
  match s with
  | EmptyString => None
  | String c r =>
      if Ascii.eqb c "." then Some (EmptyString, r)
      else option_map (fun '(a, b) => (String c a, b)) (split_dot r)
  end.

Definition value_to_sum (v : Js.value) : unit + unit + bool + Z + string :=
  match v with
  | Js.JUndefined => inl (inl (inl (inl tt)))
  | Js.JNull => inl (inl (inl (inr tt)))
  | Js.JBool b => inl (inl (inr b))
  | Js.JNum n => inl (inr n)
  | Js.JStr s => inr s
  end.

Definition value_of_sum (x : unit + unit + bool + Z + string) : Js.value :=
  match x with
  | inl (inl (inl (inl _))) => Js.JUndefined
  | inl (inl (inl (inr _))) => Js.JNull
  | inl (inl (inr b)) => Js.JBool b
  | inl (inr n) => Js.JNum n
  | inr s => Js.JStr s
  end.

#[local] Instance value_eq_dec : EqDecision Js.value.
Proof. solve_decision. Defined.

#[local] Instance value_countable : Countable Js.value.
Proof.
  apply (inj_countable' value_to_sum value_of_sum).
  intros []; reflexivity.
Defined.

Definition claims_to_tuple (c : Jwt.Claims)
    : Js.value * Js.value * Js.value * Z * option Z :=
  (Jwt.userId c, Jwt.role c, Jwt.customerId c, Jwt.iat c, Jwt.exp c).

Definition claims_of_tuple
    (t : Js.value * Js.value * Js.value * Z * option Z) : Jwt.Claims :=
  let '(u, r, c, i, e) := t in
  {| Jwt.userId := u; Jwt.role := r; Jwt.customerId := c;
     Jwt.iat := i; Jwt.exp := e |}.

#[local] Instance claims_eq_dec : EqDecision Jwt.Claims.
Proof. solve_decision. Defined.

#[local] Instance claims_countable : Countable Jwt.Claims.
Proof.
  apply (inj_countable' claims_to_tuple claims_of_tuple).
  intros []; reflexivity.
Defined.

Definition signing_input (c : Jwt.Claims) : string :=
  bits_of_pos (encode c).

Definition read_claims (s : string) : option Jwt.Claims :=
  match pos_of_bits s with
  | Some p => decode p
  | None => None
  end.

Definition hs256 (secret input : string) : string := secret ++ input.

Definition compact (b sg : string) : string := b ++ "." ++ sg.

Definition codec : Jwt.Codec.
Proof.
  refine {| Jwt.hs256 := hs256;
            Jwt.signing_input := signing_input;
            Jwt.read_claims := read_claims;
            Jwt.compact := compact;
            Jwt.uncompact := split_dot |}.
  - intros c. unfold read_claims, signing_input.
    assert (Hbits : forall p, pos_of_bits (bits_of_pos p) = Some p).
    { induction p as [q IH | q IH |]; simpl; rewrite ?IH; reflexivity. }
    rewrite Hbits. apply decode_encode.
  - intros c secret. simpl. unfold compact, signing_input.
    generalize (encode c) (hs256 secret (bits_of_pos (encode c))).
    induction p as [q IH | q IH |]; intros sg; simpl; rewrite ?IH; reflexivity.
  - intros b sg. unfold compact. destruct b; discriminate.
Defined.

End ReferenceCodec.

(** ** HS256 as the library computes it

    [jwt.sign] and [jwt.verify] sign with HMAC-SHA256 (RFC 2104 over
    FIPS 180-4), keyed with the UTF-8 bytes of the secret. Strings
    stand for byte strings here. *)

Module Sha256.
Local Open Scope N_scope.

Definition word (x : N) : N := x mod 4294967296.
Definition add (x y : N) : N := word (x + y).
Definition rotr (n x : N) : N :=
  N.lor (N.shiftr x n) (word (N.shiftl x (32 - n))).
Definition shr (n x : N) : N := N.shiftr x n.
Definition not32 (x : N) : N := N.lxor x 4294967295.

Definition Ch (x y z : N) : N := N.lxor (N.land x y) (N.land (not32 x) z).
Definition Maj (x y z : N) : N :=
  N.lxor (N.lxor (N.land x y) (N.land x z)) (N.land y z).
Definition Sigma0 (x : N) : N :=
  N.lxor (N.lxor (rotr 2 x) (rotr 13 x)) (rotr 22 x).
Definition Sigma1 (x : N) : N :=
  N.lxor (N.lxor (rotr 6 x) (rotr 11 x)) (rotr 25 x).
Definition sigma0 (x : N) : N :=
  N.lxor (N.lxor (rotr 7 x) (rotr 18 x)) (shr 3 x).
Definition sigma1 (x : N) : N :=
  N.lxor (N.lxor (rotr 17 x) (rotr 19 x)) (shr 10 x).

Definition is_prime (n : N) : bool :=
  (2 <=? n)
  && forallb (fun d => negb (n mod N.of_nat d =? 0))
       (List.seq 2 (N.to_nat (N.sqrt n) - 1)).

(** The primes up to 311: the first 64. *)
Definition primes : list N :=
  List.filter is_prime (map N.of_nat (List.seq 2 310)).

(** The integer cube root, found bit by bit from above. *)
Fixpoint cube_root (bits : nat) (n root : N) : N :=
  match bits with
  | O => root
  | S b =>
      let r := root + 2 ^ N.of_nat b in
      if r * r * r <=? n then cube_root b n r else cube_root b n root
  end.

(** The round constants: the first 32 bits of the fractional part of
    the cube root of each of the first 64 primes. *)
Definition K : list N :=
  map (fun p => cube_root 36 (p * 2 ^ 96) 0 mod 2 ^ 32) primes.

(** The initial hash value: the first 32 bits of the fractional part
    of the square root of each of the first eight primes. *)
Definition H0 : list N :=
  map (fun p => N.sqrt (p * 2 ^ 64) mod 2 ^ 32) (firstn 8 primes).

Fixpoint bytes_of (s : string) : list N :=
  match s with
  | EmptyString => []
  | String c r => N_of_ascii c :: bytes_of r
  end.

Fixpoint string_of (l : list N) : string :=
  match l with
  | [] => EmptyString
  | b :: r => String (ascii_of_N b) (string_of r)
  end.

(** The [n] low bytes of [x], most significant first. *)
Fixpoint big_endian (n : nat) (x : N) : list N :=
  match n with
  | O => []
  | S m => app (big_endian m (x / 256)) [x mod 256]
  end.

(** The message followed by the byte 0x80, zeros up to 56 modulo 64
    bytes, and the length in bits on 8 bytes. *)
Definition pad (m : list N) : list N :=
  let len := N.of_nat (List.length m) in
  let zeros := N.to_nat ((119 - len mod 64) mod 64) in
  app m (128 :: app (List.repeat 0 zeros) (big_endian 8 (8 * len))).

(** The first [n] words of a block, four bytes each. *)
Fixpoint words (n : nat) (bytes : list N) : list N :=
  match n with
  | O => []
  | S m =>
      match bytes with
      | a :: b :: c :: d :: r =>
          (((a * 256 + b) * 256 + c) * 256 + d) :: words m r
      | _ => []
      end
  end.

(** The message schedule, latest word first: [past] holds
    [W(t-1), W(t-2), ...]. *)
Fixpoint schedule (n : nat) (past : list N) : list N :=
  match n with
  | O => past
  | S m =>
      let w := add (add (sigma1 (nth 1 past 0)) (nth 6 past 0))
                 (add (sigma0 (nth 14 past 0)) (nth 15 past 0)) in
      schedule m (w :: past)
  end.

Definition round (st : list N) (kw : N * N) : list N :=
  match st with
  | [a; b; c; d; e; f; g; h] =>
      let t1 := add (add (add h (Sigma1 e)) (add (Ch e f g) (fst kw)))
                  (snd kw) in
      let t2 := add (Sigma0 a) (Maj a b c) in
      [add t1 t2; a; b; c; add d t1; e; f; g]
  | _ => st
  end.

Fixpoint add_all (x y : list N) : list N :=
  match x, y with
  | a :: x', b :: y' => add a b :: add_all x' y'
  | _, _ => []
  end.

Definition compress (st : list N) (block : list N) : list N :=
  let w := List.rev (schedule 48 (List.rev (words 16 block))) in
  add_all st (fold_left round (combine K w) st).

Fixpoint blocks (n : nat) (st : list N) (bytes : list N) : list N :=
  match n with
  | O => st
  | S m => blocks m (compress st (firstn 64 bytes)) (skipn 64 bytes)
  end.

(** SHA-256 of a string of bytes, as a string of 32 bytes. *)
Definition digest (m : string) : string :=
  let p := pad (bytes_of m) in
  string_of
    (List.concat (map (big_endian 4) (blocks (List.length p / 64) H0 p))).

(** Two lower-case hexadecimal digits per byte. *)
Fixpoint hex (s : string) : string :=
  match s with
  | EmptyString => EmptyString
  | String c r =>
      let n := N_of_ascii c in
      let digit (d : N) : ascii :=
        ascii_of_N (if d <? 10 then 48 + d else 87 + d) in
      String (digit (n / 16)) (String (digit (n mod 16)) (hex r))
  end.

End Sha256.

Module Hmac.

Definition block_size : nat := 64.

Fixpoint xor_with (b : N) (s : string) : string :=
  match s with
  | EmptyString => EmptyString
  | String c r => String (ascii_of_N (N.lxor (N_of_ascii c) b)) (xor_with b r)
  end.

Fixpoint zeros (n : nat) : string :=
  match n with
  | O => EmptyString
  | S m => String Ascii.zero (zeros m)
  end.

(** The key as HMAC uses it: a key longer than a block is hashed
    first, and zero bytes fill the block. *)
Definition key_block (H : string -> string) (key : string) : string :=
  let k := if (block_size <? String.length key)%nat then H key else key in
  k ++ zeros (block_size - String.length k).

Definition hmac (H : string -> string) (key message : string) : string :=
  let k := key_block H key in
  H (xor_with 0x5c k ++ H (xor_with 0x36 k ++ message)).

End Hmac.

Module Hs256.

(** The UTF-8 bytes of a string of code units below 256. *)
Fixpoint utf8 (s : string) : string :=
  match s with
  | EmptyString => EmptyString
  | String c r =>
      let n := N_of_ascii c in
      if (n <? 128)%N then String c (utf8 r)
      else String (ascii_of_N (192 + n / 64))
             (String (ascii_of_N (128 + n mod 64)) (utf8 r))
  end.

(** The signature of a signing input under a secret, before its
    base64url encoding. *)
Definition hs256 (secret input : string) : string :=
  Hmac.hmac Sha256.digest (utf8 secret) (utf8 input).

(** The reference codec, signing with HS256. *)
Definition codec : Jwt.Codec.
Proof.
  refine {| Jwt.hs256 := hs256;
            Jwt.signing_input := ReferenceCodec.signing_input;
            Jwt.read_claims := ReferenceCodec.read_claims;
            Jwt.compact := ReferenceCodec.compact;
            Jwt.uncompact := ReferenceCodec.split_dot |}.
  - exact (Jwt.read_signing_input ReferenceCodec.codec).
  - intros c secret. cbv zeta.
    unfold ReferenceCodec.compact, ReferenceCodec.signing_input.
    generalize (hs256 secret (ReferenceCodec.bits_of_pos
                                (encode (A := Jwt.Claims)
                                   (Countable := ReferenceCodec.claims_countable) c))).
    generalize (encode (A := Jwt.Claims)
                  (Countable := ReferenceCodec.claims_countable) c).
    induction p as [q IH | q IH |]; intros sg; simpl; rewrite ?IH; reflexivity.
  - exact (Jwt.compact_not_empty ReferenceCodec.codec).
Defined.

End Hs256.

(** * Vocabulary of the properties and sample data *)

Section Vocabulary.
Import Http Middleware Server.

(** The role is admin or staff. *)
Definition elevated (u : User) : Prop :=
  role u = Js.JStr "admin" \/ role u = Js.JStr "staff".

(** The role is customer and the customer id is the target, as a
    string and to the letter. *)
Definition owns (u : User) (target : string) : Prop :=
  role u = Js.JStr "customer" /\ customerId u = Js.JStr target.

(** A request for the customer [target], authenticated as the
    customer [cid]. *)
Definition customer_request (cid target : string) : Request :=
  {| authorization := None; id := target;
     next_followup_date := Js.JUndefined;
     user := Some {| userId := Js.JStr "u1"; role := Js.JStr "customer";
                     customerId := Js.JStr cid |} |}.

(** [JWT_SECRET] is unset or empty. *)
Definition not_configured (secret : option string) : Prop :=
  secret = None \/ secret = Some "".

(** The header has the shape [Bearer <token>]. *)
Definition bearer_shape (header : option string) : bool :=
  match header with
  | Some h => Js.startsWith h "Bearer "
  | None => false
  end.

(** The token of a header of that shape. *)
Definition bearer_token (header : option string) : string :=
  match header with
  | Some h => Js.slice_from 7 h
  | None => ""
  end.

(** A request carrying the token in its [Authorization] header. *)
Definition with_bearer (token : string) (req : Request) : Request :=
  {| authorization := Some ("Bearer " ++ token); id := id req;
     next_followup_date := next_followup_date req; user := user req |}.

(** The identity a payload stands for, [customerId] defaulting to
    [null]. *)
Definition identity_of (C : Tokens.Payload) : User :=
  {| userId := Tokens.userId C; role := Tokens.role C;
     customerId := Js.nullish (Tokens.customerId C) Js.JNull |}.

(** The claims set of the token that [createAccessToken] makes of a
    payload at time [now_ms]. *)
Definition issued_claims (C : Tokens.Payload) (now_ms : Z) : Jwt.Claims :=
  Jwt.claims_at (Tokens.userId C) (Tokens.role C)
    (Js.nullish (Tokens.customerId C) Js.JNull)
    Tokens.ACCESS_TOKEN_EXPIRY now_ms.

(** The payload of a staff user. *)
Definition staff_payload : Tokens.Payload :=
  {| Tokens.userId := Js.JStr "u1"; Tokens.role := Js.JStr "staff";
     Tokens.customerId := Js.JNull |}.

(** A request with the given [Authorization] header and nothing
    else. *)
Definition bare_request (header : option string) : Request :=
  {| authorization := header; id := "c1";
     next_followup_date := Js.JUndefined; user := None |}.

(** The token of [staff_payload] made at second 1 under the secret
    "k". *)
Definition staff_token : string :=
  Jwt.sign ReferenceCodec.codec (Js.JStr "u1") (Js.JStr "staff") Js.JNull "k"
    Tokens.ACCESS_TOKEN_EXPIRY 1000.

(** The three guards of [auth/middleware.js] with their names. *)
Definition guards : list (string * (Request -> Outcome)) :=
  [("requireAdmin", requireAdmin);
   ("requireStaffOrAdmin", requireStaffOrAdmin);
   ("requireCustomerSelf", requireCustomerSelf)].

(** A customer whose follow-up date is [d]. *)
Definition sample_customer (d : option Db.SqlDate) : Db.Customer :=
  {| Db.name := "Asha"; Db.phone := "0000000000"; Db.city := None;
     Db.status := "followup"; Db.next_followup_date := d |}.

(** A store with the one customer "c1" and no comments. *)
Definition sample_db (d : option Db.SqlDate) : Db.State :=
  {| Db.customers := {[ "c1" := sample_customer d ]};
     Db.customer_comments := [];
     Db.sent := [] |}.

Definition june_15 : Db.SqlDate :=
  {| Db.year := 2026; Db.month := 6; Db.day := 15 |}.

(** A server on host [h] whose store fails the statements [bad]. *)
Definition sample_env (h : JsDate.Host) (bad : Db.Statement -> bool) : Env :=
  {| codec := ReferenceCodec.codec; JWT_SECRET := Some "k"; host := h;
     now_ms := 2000; fails := bad |}.

(** The store carries out every statement. *)
Definition no_failure (q : Db.Statement) : bool := false.

(** The store fails every insert into [customer_comments]. *)
Definition insert_fails (q : Db.Statement) : bool :=
  match q with
  | Db.InsertComment _ _ => true
  | _ => false
  end.

(** A request for customer "c1" with the given body field, already
    authenticated as staff. *)
Definition staff_request (nfd : Js.value) : Request :=
  {| authorization := None; id := "c1"; next_followup_date := nfd;
     user := Some {| userId := Js.JStr "u1"; role := Js.JStr "staff";
                     customerId := Js.JNull |} |}.

(** The token of the customer "c1", made at second 1 under the secret
    "k". *)
Definition customer_token : string :=
  Jwt.sign ReferenceCodec.codec (Js.JStr "u2") (Js.JStr "customer")
    (Js.JStr "c1") "k" Tokens.ACCESS_TOKEN_EXPIRY 1000.

(** The same request as sent by the customer "c1", token attached. *)
Definition customer_put (nfd : Js.value) : Request :=
  {| authorization := Some ("Bearer " ++ customer_token); id := "c1";
     next_followup_date := nfd; user := None |}.

(** The host's local time is at or ahead of UTC, by less than a day, at
    midnight UTC of the given day. *)
Definition at_or_east_of_utc (h : JsDate.Host) (y m d : Z) : Prop :=
  (0 <= JsDate.LocalTZA h (JsDate.MakeDay y (m - 1) d * JsDate.msPerDay) true
     < JsDate.msPerDay)%Z.

(** The text printed for a day: day of month, short month name and
    year, as in "15 Jun 2026". *)
Definition rendered (y m d : Z) : string :=
  (Js.dec d ++ " " ++ JsDate.en_GB_month_short m ++ " " ++ Js.dec y)%string.

(** The update and the comment of one request: both written, or
    neither. *)
Definition both_or_neither (before after : Db.State) : Prop :=
  (Db.customers after = Db.customers before
   /\ Db.customer_comments after = Db.customer_comments before)
  \/ (Db.customers after <> Db.customers before
      /\ Db.customer_comments after <> Db.customer_comments before).

(** The months and days that [new Date] lets through on V8. *)
Definition v8_day (m d : Z) : bool :=
  ((1 <=? m) && (m <=? 12) && (1 <=? d) && (d <=? 31))%Z.

End Vocabulary.

(** ** Vocabulary of the further properties *)

Section FurtherVocabulary.
Import Http Middleware Server.

(** The token of the header verifies to [payload]. *)
Definition token_verified (e : Env) (req : Request) (payload : Jwt.Claims)
    : Prop :=
  bearer_shape (authorization req) = true
  /\ Tokens.verifyAccessToken (codec e) (JWT_SECRET e)
       (bearer_token (authorization req)) (now_ms e) = inr payload.

(** The identity that [authenticate] makes of a verified payload. *)
Definition identity_of_claims (payload : Jwt.Claims) : User :=
  {| userId := Jwt.userId payload; role := Jwt.role payload;
     customerId := Js.nullish (Jwt.customerId payload) Js.JNull |}.

(** The token of a customer user whose payload has no customer id,
    made at second 1 under the secret "k". *)
Definition orphan_customer_token : string :=
  Jwt.sign ReferenceCodec.codec (Js.JStr "u3") (Js.JStr "customer") Js.JNull
    "k" Tokens.ACCESS_TOKEN_EXPIRY 1000.

(** Where a route guarded by [authenticate] and [requireStaffOrAdmin]
    can end: in its handler, run on behalf of a verified admin or staff
    token, or in a 401 or 403 with the store untouched. *)
Definition reached_only_by_staff (e : Env) (route : list Step) (nm : string)
    (f : Request -> Db.State -> Db.State * Response) : Prop :=
  forall req db,
    (exists payload,
        token_verified e req payload
        /\ (Jwt.role payload = Js.JStr "admin"
            \/ Jwt.role payload = Js.JStr "staff")
        /\ run route req db
           = (fst (f (set_user (identity_of_claims payload) req) db),
              snd (f (set_user (identity_of_claims payload) req) db),
              ["authenticate"; "requireStaffOrAdmin"; nm]))
    \/ (exists res ran,
          run route req db = (db, res, ran)
          /\ (status res = 401%Z \/ status res = 403%Z)
          /\ (ran = ["authenticate"]
              \/ ran = ["authenticate"; "requireStaffOrAdmin"])).

(** Every character is a decimal digit. *)
Fixpoint all_digits (s : string) : bool :=
  match s with
  | EmptyString => true
  | String c r => Js.is_digit c && all_digits r
  end.


(** How a handler for the customer [i] may change the store: the
    comments grow by at most one, for [i]; the customers are as before,
    or [i] has its date replaced. *)
Definition touches_only (i : string) (before after : Db.State) : Prop :=
  (Db.customer_comments after = Db.customer_comments before
   \/ exists t,
        Db.customer_comments after
        = (Db.customer_comments before ++ [(i, t)])%list)
  /\ (Db.customers after = Db.customers before
      \/ exists c v,
           Db.customers before !! i = Some c
           /\ Db.customers after
              = <[i := Db.set_followup v c]> (Db.customers before)).

End FurtherVocabulary.

(** Closes the comparison of two stores that differ in how the list of
    sent statements is bracketed. *)
Ltac same_store :=
  unfold Db.log; cbn [Db.customers Db.customer_comments Db.sent];
  rewrite <- ?app_assoc; reflexivity.

(** * The other routes

    The login route of [routes/auth.js] and the customer, comment and
    seed routes and the CORS options of [index.js]. *)

(** ** More of JavaScript's strings and values *)

Module JsText.

(** [!v] is [negb (truthy v)]. *)
Definition truthy (v : Js.value) : bool :=
  match v with
  | Js.JUndefined | Js.JNull => false
  | Js.JBool b => b
  | Js.JNum n => negb (Z.eqb n 0)
  | Js.JStr s => negb (String.eqb s "")
  end.

(** The lower-case mapping of a code unit below 256: A..Z, and the
    capital letters U+00C0..U+00DE but for the multiplication sign
    U+00D7, move up by 32. *)
Definition lower (c : ascii) : ascii :=
  let n := N_of_ascii c in
  if ((65 <=? n) && (n <=? 90)
      || (192 <=? n) && (n <=? 222) && negb (n =? 215))%N
  then ascii_of_N (n + 32)
  else c.

(** [s.toLowerCase()] *)
Fixpoint toLowerCase (s : string) : string :=
  match s with
  | EmptyString => EmptyString
  | String c r => String (lower c) (toLowerCase r)
  end.

(** [s.split(c)] for a one-character separator: the pieces between the
    separators, one more than there are separators. *)
Fixpoint split (sep : ascii) (s : string) : list string :=
  match s with
  | EmptyString => [EmptyString]
  | String c r =>
      if Ascii.eqb c sep then EmptyString :: split sep r
      else match split sep r with
           | piece :: pieces => String c piece :: pieces
           | [] => [String c EmptyString]
           end
  end.

(** [s.replace(/\/+$/, '')]: without the slashes at its end. A
    character is kept when it is no slash or when something is kept
    after it. *)
Fixpoint strip_trailing_slashes (s : string) : string :=
  match s with
  | EmptyString => EmptyString
  | String c r =>
      match strip_trailing_slashes r with
      | EmptyString => if Ascii.eqb c "/" then EmptyString
                       else String c EmptyString
      | t => String c t
      end
  end.

(** [s.endsWith(suffix)] *)
Fixpoint endsWith (s suffix : string) : bool :=
  String.eqb s suffix
  || match s with
     | EmptyString => false
     | String _ r => endsWith r suffix
     end.

(** [l.includes(x)] on an array of strings. *)
Definition includes (l : list string) (x : string) : bool :=
  existsb (String.eqb x) l.

(** The property [k] of a JSON object, [undefined] when absent. *)
Definition field (o : gmap string Js.value) (k : string) : Js.value :=
  default Js.JUndefined (o !! k).

End JsText.

(** ** The store and the replies of the other routes *)

Module Api.
Local Open Scope Z_scope.

(** A row of [users], but for its [email], which is the key of the
    table below ([email] is [UNIQUE]), and [created_at]. In a table
    that got its [password_hash] and [auth_provider] columns by the
    migration, either can be [NULL]: [None]. *)
Record UserRow : Type := {
  uid : string;
  password_hash : option string;
  role : string;
  customer_id : option string;
  auth_provider : option string
}.

(** The statements of the other routes. The update of [PATCH] is kept
    as it is sent: its text and its values. *)
Inductive Query : Type :=
| SelectLocalUser (email : string)
| SelectComments (id : string)
| InsertCommentReturning (id : string) (comment : Js.value)
| UpdateCustomer (text : string) (values : list Js.value)
| InsertCustomer (values : list Js.value).

(** The store of the follow-up routes, the table [users], and the
    statements of the other routes sent so far, latest last. *)
Record World : Type := {
  db : Db.State;
  users : gmap string UserRow;
  asked : list Query
}.

Definition ask (q : Query) (w : World) : World :=
  {| db := db w; users := users w; asked := asked w ++ [q] |}.

Definition with_db (d : Db.State) (w : World) : World :=
  {| db := d; users := users w; asked := asked w |}.

(** JSON bodies of the other routes. A customer comes with its [id];
    generated ids of comments and the [created_at] columns are left
    out. *)
Inductive Content : Type :=
| Failure (error : string)
| Session (accessToken : string) (role : string) (customerId : option string)
| CommentRows (rows : list (string * string))
| CommentRow (customer_id comment : string)
| CustomerRow (id : string) (row : Db.Customer).

Record Reply : Type := { code : Z; content : Content }.

Definition failure (c : Z) (msg : string) : Reply :=
  {| code := c; content := Failure msg |}.

(** What the other routes depend on besides request and store: the
    environment of the follow-up routes, [bcrypt.compare] on a
    password and a hash, the statements the store fails to carry out,
    the server's reading as a [date] of a text that has not the shape
    [YYYY-MM-DD], and the value [gen_random_uuid()] gives next. *)
Record Ctx : Type := {
  env : Server.Env;
  bcrypt_compare : string -> string -> bool;
  refuses : Query -> bool;
  date_of_other_text : string -> option Db.SqlDate;
  next_uuid : string
}.

(** The guards of a route, in order: the request they hand to the
    handler, or the response of the one that ended the request (500
    when it threw). *)
Fixpoint pass_guards (gs : list (Http.Request -> Http.Outcome))
    (req : Http.Request) : Http.Response + Http.Request :=
  match gs with
  | [] => inr req
  | g :: rest =>
      match g req with
      | Http.Next req' => pass_guards rest req'
      | Http.Send res => inl res
      | Http.Throw => inl {| Http.status := 500; Http.body := Http.Unhandled |}
      end
  end.

(** A route: its guards, then its handler. The handler runs, and the
    store is touched, only when every guard called [next()]. *)
Definition guarded {S R : Type} (gs : list (Http.Request -> Http.Outcome))
    (h : Http.Request -> S -> S * R) (req : Http.Request) (s : S)
    : S * (Http.Response + R) :=
  match pass_guards gs req with
  | inl res => (s, inl res)
  | inr req' => let '(s', r) := h req' s in (s', inr r)
  end.

End Api.

(** ** [routes/auth.js] *)

Module AuthRoutes.
Import Api.
Local Open Scope Z_scope.

(** The row stored under [email] when its provider is ['local']. *)
Definition local_account (w : World) (email : string) : option UserRow :=
  match users w !! email with
  | Some u =>
      match auth_provider u with
      | Some provider => if String.eqb provider "local" then Some u else None
      | None => None
      end
  | None => None
  end.

(** [SELECT id, email, password_hash, role, customer_id FROM users
    WHERE email = $1 AND auth_provider = 'local']: the rows, or an
    error. *)
Definition select_local_user (x : Ctx) (email : string) (w : World)
    : World * option (list UserRow) :=
  let q := SelectLocalUser email in
  if refuses x q then (ask q w, None)
  else (ask q w,
        Some match local_account w email with
             | Some u => [u]
             | None => []
             end).

(** [await bcrypt.compare(password, user.password_hash)]: [None] when
    the promise is rejected, which it is unless both arguments are
    strings. *)
Definition compare (x : Ctx) (password : Js.value) (hash : option string)
    : option bool :=
  match password, hash with
  | Js.JStr p, Some h => Some (bcrypt_compare x p h)
  | _, _ => None
  end.

(** The handler of [POST /auth/login]. A truthy [email] that is no
    string has no [trim], and a rejected [bcrypt.compare] throws: both
    end in the [catch]. *)
Definition login (x : Ctx) (body : gmap string Js.value) (w : World)
    : World * Reply :=
  let email := JsText.field body "email" in
  let password := JsText.field body "password" in
  if negb (JsText.truthy email) || negb (JsText.truthy password)
  then (w, failure 400 "email and password are required")
  else
    match email with
    | Js.JStr e =>
        match select_local_user x (JsText.toLowerCase (Js.trim e)) w with
        | (w1, None) => (w1, failure 500 "Login failed")
        | (w1, Some []) => (w1, failure 401 "Invalid email or password")
        | (w1, Some (user :: _)) =>
            match compare x password (password_hash user) with
            | None => (w1, failure 500 "Login failed")
            | Some false => (w1, failure 401 "Invalid email or password")
            | Some true =>
                match Tokens.createAccessToken (Server.codec (env x))
                        (Server.JWT_SECRET (env x))
                        {| Tokens.userId := Js.JStr (uid user);
                           Tokens.role := Js.JStr (role user);
                           Tokens.customerId :=
                             match customer_id user with
                             | Some c => Js.JStr c
                             | None => Js.JNull
                             end |}
                        (Server.now_ms (env x)) with
                | inl _ => (w1, failure 500 "Login failed")
                | inr accessToken =>
                    (w1, {| code := 200;
                            content := Session accessToken (role user)
                                         (customer_id user) |})
                end
            end
        end
    | _ => (w, failure 500 "Login failed")
    end.

End AuthRoutes.

(** ** The customer and comment routes of [index.js] *)

Module CustomerRoutes.
Import Api.
Local Open Scope Z_scope.

(** [SELECT id, customer_id, comment, created_at FROM customer_comments
    WHERE customer_id = $1 ORDER BY created_at ASC]: the comments of
    the customer, oldest first ([created_at] is taken to grow from one
    insert to the next). *)
Definition comments_of (i : string) (d : Db.State) : list (string * string) :=
  filter (fun r => fst r = i) (Db.customer_comments d).

(** The handler of [GET /customers/:id/comments]. *)
Definition get_comments (x : Ctx) (req : Http.Request) (w : World)
    : World * Reply :=
  let q := SelectComments (Http.id req) in
  if refuses x q
  then (ask q w, failure 500 "Failed to fetch customer comments")
  else (ask q w,
        {| code := 200; content := CommentRows (comments_of (Http.id req) (db w)) |}).

(** The values whose text [Js.to_String] has as the driver sends it:
    a string as it is, a boolean, and a whole number that a double
    holds exactly, which prints in plain decimal. Other numbers (1e21
    prints as "1e+21") are outside the model. *)
Definition exact_text (v : Js.value) : bool :=
  match v with
  | Js.JNum n => (Z.abs n <=? 9007199254740991)%Z
  | _ => true
  end.

(** The handler of [POST /customers/:id/comments]. The driver sends a
    string, a number or a boolean as its text ([exact_text] says for
    which values the text below is that text); [customer_id]
    references [customers]. *)
Definition post_comment (x : Ctx) (body : gmap string Js.value)
    (req : Http.Request) (w : World) : World * Reply :=
  let i := Http.id req in
  let comment := JsText.field body "comment" in
  if negb (JsText.truthy comment)
  then (w, failure 400 "comment is required")
  else
    let q := InsertCommentReturning i comment in
    if refuses x q then (ask q w, failure 500 "Failed to add customer comment")
    else
      match Db.customers (db w) !! i with
      | None => (ask q w, failure 500 "Failed to add customer comment")
      | Some _ =>
          (ask q
             (with_db
                {| Db.customers := Db.customers (db w);
                   Db.customer_comments :=
                     Db.customer_comments (db w) ++ [(i, Js.to_String comment)];
                   Db.sent := Db.sent (db w) |}
                w),
           {| code := 201; content := CommentRow i (Js.to_String comment) |})
      end.

(** The values that [status] may take: its [CHECK] constraint. *)
Definition statuses : list string := ["new"; "followup"; "converted"; "lost"].

(** A value bound to the column [status], which is [NOT NULL]: the
    text stored, or [None] when a constraint refuses it. *)
Definition status_column (v : Js.value) : option string :=
  match v with
  | Js.JStr s => if JsText.includes statuses s then Some s else None
  | _ => None
  end.

(** A value bound to the column [next_followup_date]: [NULL] for
    [null], the server's reading of its text otherwise; [None] when
    the server rejects the text. *)
Definition date_column (x : Ctx) (v : Js.value) : option (option Db.SqlDate) :=
  match v with
  | Js.JNull | Js.JUndefined => Some None
  | _ =>
      let text := Js.to_String v in
      option_map Some
        match Js.match_ymd text with
        | Some _ => Db.date_in text
        | None => date_of_other_text x text
        end
  end.

(** The text and the values of the update that [PATCH] builds, or
    [None] when the body names neither field. *)
Definition set_field (column : string) (v : Js.value)
    (acc : list string * list Js.value * Z) : list string * list Js.value * Z :=
  let '(updates, values, paramIndex) := acc in
  match v with
  | Js.JUndefined => acc
  | _ => (app updates [column ++ " = $" ++ Js.dec paramIndex],
          app values [v], paramIndex + 1)
  end.

Definition patch_statement (status nfd : Js.value) (i : string)
    : option (string * list Js.value) :=
  let '(updates, values, paramIndex) :=
    set_field "next_followup_date" nfd (set_field "status" status ([], [], 1)) in
  match updates with
  | [] => None
  | _ =>
      Some ("UPDATE customers SET " ++ String.concat ", " updates
              ++ " WHERE id = $" ++ Js.dec paramIndex ++ "
       RETURNING id, name, phone, city, status, next_followup_date, created_at",
            app values [Js.JStr i])
  end.

Definition patched (status : option string) (nfd : option (option Db.SqlDate))
    (c : Db.Customer) : Db.Customer :=
  {| Db.name := Db.name c; Db.phone := Db.phone c; Db.city := Db.city c;
     Db.status := default (Db.status c) status;
     Db.next_followup_date := default (Db.next_followup_date c) nfd |}.

(** A field of the patch bound to its column: [Some None] when the
    body does not name it, [None] when the column refuses the value. *)
Definition patch_field {A : Type} (column : Js.value -> option A)
    (v : Js.value) : option (option A) :=
  match v with
  | Js.JUndefined => Some None
  | _ => option_map Some (column v)
  end.

(** The handler of [PATCH /customers/:id]. A date the server cannot
    read fails the statement whatever the rows; the constraints on
    [status] are checked on the row that is updated. *)
Definition patch_customer (x : Ctx) (body : gmap string Js.value)
    (req : Http.Request) (w : World) : World * Reply :=
  let i := Http.id req in
  let status := JsText.field body "status" in
  let nfd := JsText.field body "next_followup_date" in
  match patch_statement status nfd i with
  | None => (w, failure 400 "No fields to update")
  | Some (text, values) =>
      let q := UpdateCustomer text values in
      if refuses x q then (ask q w, failure 500 "Failed to update customer")
      else
        match patch_field (date_column x) nfd with
        | None => (ask q w, failure 500 "Failed to update customer")
        | Some new_date =>
            match Db.customers (db w) !! i with
            | None => (ask q w, failure 404 "Customer not found")
            | Some c =>
                match patch_field status_column status with
                | None => (ask q w, failure 500 "Failed to update customer")
                | Some new_status =>
                    let row := patched new_status new_date c in
                    (ask q
                       (with_db
                          {| Db.customers := <[i := row]> (Db.customers (db w));
                             Db.customer_comments := Db.customer_comments (db w);
                             Db.sent := Db.sent (db w) |}
                          w),
                     {| code := 200; content := CustomerRow i row |})
                end
            end
        end
  end.

(** [v || null] *)
Definition or_null (v : Js.value) : Js.value :=
  if JsText.truthy v then v else Js.JNull.

(** A value bound to a [text] column: [NULL], or its text. *)
Definition text_column (v : Js.value) : option string :=
  match v with
  | Js.JNull | Js.JUndefined => None
  | _ => Some (Js.to_String v)
  end.

(** The handler of [POST /customers]: [INSERT INTO customers (name,
    phone, city, status, next_followup_date) VALUES ($1, $2, $3,
    COALESCE($4, 'new'), $5) RETURNING ...]. The new row gets the next
    generated id, which must be free. *)
Definition create_customer (x : Ctx) (body : gmap string Js.value)
    (w : World) : World * Reply :=
  let name := JsText.field body "name" in
  let phone := JsText.field body "phone" in
  let city := JsText.field body "city" in
  let status := JsText.field body "status" in
  let nfd := JsText.field body "next_followup_date" in
  if negb (JsText.truthy name) || negb (JsText.truthy phone)
  then (w, failure 400 "name and phone are required")
  else
    let q := InsertCustomer [name; phone; or_null city; or_null status;
                             or_null nfd] in
    if refuses x q then (ask q w, failure 500 "Failed to create customer")
    else
      match date_column x (or_null nfd),
            match or_null status with
            | Js.JNull => Some "new"
            | v => status_column v
            end,
            Db.customers (db w) !! next_uuid x with
      | Some new_date, Some new_status, None =>
          let row := {| Db.name := Js.to_String name;
                        Db.phone := Js.to_String phone;
                        Db.city := text_column (or_null city);
                        Db.status := new_status;
                        Db.next_followup_date := new_date |} in
          (ask q
             (with_db
                {| Db.customers := <[next_uuid x := row]> (Db.customers (db w));
                   Db.customer_comments := Db.customer_comments (db w);
                   Db.sent := Db.sent (db w) |}
                w),
           {| code := 201; content := CustomerRow (next_uuid x) row |})
      | _, _, _ => (ask q w, failure 500 "Failed to create customer")
      end.

(** The follow-up handlers, on the store of the other routes. *)
Definition on_db {R : Type} (f : Db.State -> Db.State * R) (w : World)
    : World * R :=
  let '(d, r) := f (db w) in (with_db d w, r).

(** The routes with their guards. *)
Definition route_get_comments (x : Ctx)
    : Http.Request -> World -> World * (Http.Response + Reply) :=
  guarded
    [Middleware.authenticate (Server.codec (env x)) (Server.JWT_SECRET (env x))
       (Server.now_ms (env x));
     Middleware.requireCustomerSelf]
    (get_comments x).

Definition route_post_comment (x : Ctx) (body : gmap string Js.value)
    : Http.Request -> World -> World * (Http.Response + Reply) :=
  guarded
    [Middleware.authenticate (Server.codec (env x)) (Server.JWT_SECRET (env x))
       (Server.now_ms (env x));
     Middleware.requireCustomerSelf]
    (post_comment x body).

Definition route_patch_customer (x : Ctx) (body : gmap string Js.value)
    : Http.Request -> World -> World * (Http.Response + Reply) :=
  guarded
    [Middleware.authenticate (Server.codec (env x)) (Server.JWT_SECRET (env x))
       (Server.now_ms (env x));
     Middleware.requireStaffOrAdmin]
    (patch_customer x body).

Definition route_create_customer (x : Ctx) (body : gmap string Js.value)
    : Http.Request -> World -> World * (Http.Response + Reply) :=
  guarded
    [Middleware.authenticate (Server.codec (env x)) (Server.JWT_SECRET (env x))
       (Server.now_ms (env x));
     Middleware.requireAdmin]
    (fun _ => create_customer x body).

End CustomerRoutes.

(** ** The seed route and the CORS options of [index.js] *)

Module Seed.
Import Api.

(** The answer of the final handler to a request no route took. *)
Definition unknown_route : Reply := failure 404 "Not found".

(** [req.headers['x-seed-secret'] || req.query.secret]; [None] is
    [undefined]. *)
Definition provided (header query_secret : option string) : option string :=
  match header with
  | None | Some "" => query_secret
  | Some h => Some h
  end.

(** The head of the handler of [POST /seed]: [Some r] when the request
    is answered at once, [None] when the handler goes on to
    [runSeed]. *)
Definition seed_gate (SEED_SECRET header query_secret : option string)
    : option Reply :=
  match SEED_SECRET with
  | None | Some "" => Some (failure 404 "Not found")
  | Some secret =>
      match provided header query_secret with
      | Some p => if String.eqb p secret then None
                  else Some (failure 404 "Not found")
      | None => Some (failure 404 "Not found")
      end
  end.

End Seed.

Module Cors.

(** [allowedOrigins], from [process.env.FRONTEND_URL]. *)
Definition allowedOrigins (FRONTEND_URL : option string) : list string :=
  filter (fun o => o <> "")
    (map (fun o => JsText.strip_trailing_slashes (Js.trim o))
       (JsText.split ","
          match FRONTEND_URL with
          | None | Some "" => ""
          | Some u => u
          end)).

(** [corsOptions.origin]: the second argument given to the callback
    (the first is always [null]). [hostname o] is [new URL(o).hostname],
    [None] when the constructor throws. *)
Definition origin (hostname : string -> option string)
    (FRONTEND_URL : option string) (o : option string) : bool :=
  match o with
  | None | Some "" => true
  | Some o =>
      if JsText.includes (allowedOrigins FRONTEND_URL) o then true
      else match hostname o with
           | Some hn => JsText.endsWith hn ".vercel.app"
           | None => false
           end
  end.

End Cors.

(** ** The follow-up date in a JSON answer

    [res.json(row)] serialises the driver's row: its
    [next_followup_date] is a [Date], which [JSON.stringify] writes
    through [Date.prototype.toISOString]. *)

Module Json.
Local Open Scope Z_scope.

Definition pad3 (n : Z) : string :=
  if n <? 10 then "00" ++ Js.dec n
  else if n <? 100 then "0" ++ Js.dec n
  else Js.dec n.

Definition pad6 (n : Z) : string :=
  if n <? 10 then "00000" ++ Js.dec n
  else if n <? 100 then "0000" ++ Js.dec n
  else if n <? 1000 then "000" ++ Js.dec n
  else if n <? 10000 then "00" ++ Js.dec n
  else if n <? 100000 then "0" ++ Js.dec n
  else Js.dec n.

(** The date part of an ISO timestamp; a year outside 0..9999 takes a
    sign and six digits. *)
Definition iso_date (y m d : Z) : string :=
  (if (0 <=? y) && (y <=? 9999) then JsDate.pad4 y
   else (if y <? 0 then "-" else "+") ++ pad6 (Z.abs y))
    ++ "-" ++ JsDate.pad2 m ++ "-" ++ JsDate.pad2 d.

(** The date part for a day number. *)
Definition iso_day (z : Z) : string :=
  let '(y, m, d) := JsDate.civil_from_days z in iso_date y m d.

(** [Date.prototype.toISOString] of a time value. *)
Definition toISOString (t : Z) : string :=
  iso_day (JsDate.Day t)
    ++ "T" ++ JsDate.pad2 (JsDate.HourFromTime t)
    ++ ":" ++ JsDate.pad2 (JsDate.MinFromTime t)
    ++ ":" ++ JsDate.pad2 (JsDate.SecFromTime t)
    ++ "." ++ pad3 (t mod 1000) ++ "Z".

(** The [next_followup_date] of the JSON text sent for a row: [None]
    is [null]. *)
Definition followup_date (h : JsDate.Host) (row : Db.Customer)
    : option string :=
  option_map toISOString (Db.date_to_js h (Db.next_followup_date row)).

End Json.

(** ** Vocabulary of the properties of the other routes *)

Section RouteVocabulary.
Import Api.

(** The body of a login request. *)
Definition credentials (email password : string) : gmap string Js.value :=
  {[ "email" := Js.JStr email; "password" := Js.JStr password ]}.

(** The key under which [login] looks an email up. *)
Definition login_key (email : string) : string :=
  JsText.toLowerCase (Js.trim email).

(** The identity in the token of a row of [users]. *)
Definition identity_of_row (u : UserRow) : Http.User :=
  {| Http.userId := Js.JStr (uid u);
     Http.role := Js.JStr (role u);
     Http.customerId := match customer_id u with
                        | Some c => Js.JStr c
                        | None => Js.JNull
                        end |}.

(** The world without the account stored under [email]. *)
Definition without_user (email : string) (w : World) : World :=
  {| db := db w; users := delete email (users w); asked := asked w |}.

(** A staff account whose password is "pw", under a stand-in for
    [bcrypt]: the hash of [p] is "hash-of-" followed by [p]. *)
Definition sample_user : UserRow :=
  {| uid := "u1"; password_hash := Some "hash-of-pw"; role := "staff";
     customer_id := None; auth_provider := Some "local" |}.

Definition sample_ctx : Ctx :=
  {| env := sample_env JsDate.utc_host no_failure;
     bcrypt_compare := fun p h => String.eqb h ("hash-of-" ++ p);
     refuses := fun _ => false;
     date_of_other_text := fun _ => None;
     next_uuid := "c2" |}.

(** A host five and a half hours east of UTC. *)
Definition utc_plus_530_host : JsDate.Host :=
  {| JsDate.LocalTZA := fun _ _ => 19800000%Z;
     JsDate.TimeZoneString := fun _ => "+0530 (India Standard Time)";
     JsDate.parse_other := fun _ => None |}.

(** The customer "c1" without follow-up date, the account
    "asha@example.com", and nothing asked yet. *)
Definition sample_world : World :=
  {| db := sample_db None;
     users := {[ "asha@example.com" := sample_user ]};
     asked := [] |}.

(** Where a guarded route can end: in its handler, run on behalf of a
    verified token whose identity is allowed, or in a 401 or 403 with
    the world untouched. *)
Definition reached_only_when {R : Type} (x : Ctx)
    (allowed : Http.User -> Http.Request -> Prop)
    (route : Http.Request -> World -> World * (Http.Response + R))
    (h : Http.Request -> World -> World * R) : Prop :=
  forall req w,
    (exists payload,
        token_verified (env x) req payload
        /\ allowed (identity_of_claims payload) req
        /\ route req w
           = (fst (h (Http.set_user (identity_of_claims payload) req) w),
              inr (snd (h (Http.set_user (identity_of_claims payload) req) w))))
    \/ (exists res,
          route req w = (w, inl res)
          /\ (Http.status res = 401%Z \/ Http.status res = 403%Z)).

(** The role is admin. *)
Definition is_admin (u : Http.User) : Prop := Http.role u = Js.JStr "admin".

(** A customer without follow-up date, as [POST /customers] makes it
    of a name and a phone number alone. *)
Definition new_customer (name phone : string) : Db.Customer :=
  {| Db.name := name; Db.phone := phone; Db.city := None;
     Db.status := "new"; Db.next_followup_date := None |}.

(** [n] slashes. *)
Fixpoint slashes (n : nat) : string :=
  match n with
  | O => ""
  | S n => String "/" (slashes n)
  end.

(** An origin as it may be written in [FRONTEND_URL]: white space
    around it and slashes after it. *)
Record Entry : Type := {
  left_pad : string;
  origin_text : string;
  trailing : nat;
  right_pad : string
}.

Definition written (e : Entry) : string :=
  left_pad e ++ origin_text e ++ slashes (trailing e) ++ right_pad e.

Fixpoint no_comma (s : string) : bool :=
  match s with
  | EmptyString => true
  | String c r => negb (Ascii.eqb c ",") && no_comma r
  end.

(** The last character of [s] satisfies [P]; false for the empty
    string. *)
Fixpoint last_is (P : ascii -> bool) (s : string) : bool :=
  match s with
  | EmptyString => false
  | String c EmptyString => P c
  | String _ r => last_is P r
  end.

Definition first_is (P : ascii -> bool) (s : string) : bool :=
  match s with
  | EmptyString => false
  | String c _ => P c
  end.

(** The origin has no comma, starts with no white space and ends with
    neither white space nor a slash; the pads are white space. *)
Definition well_written (e : Entry) : bool :=
  Js.all_space (left_pad e) && Js.all_space (right_pad e)
  && no_comma (origin_text e)
  && first_is (fun c => negb (Js.is_space c)) (origin_text e)
  && last_is (fun c => negb (Js.is_space c) && negb (Ascii.eqb c "/"))
       (origin_text e).

End RouteVocabulary.

(** * Properties *)

(** ** Sanity checks of the embedded library functions *)

Example sha256_constants_ex :
  List.length Sha256.K = 64%nat
  /\ nth 0 Sha256.K 0%N = 0x428a2f98%N /\ nth 63 Sha256.K 0%N = 0xc67178f2%N
  /\ nth 0 Sha256.H0 0%N = 0x6a09e667%N /\ nth 7 Sha256.H0 0%N = 0x5be0cd19%N.
Proof. vm_compute. repeat split. Qed.

Example sha256_ex :
  Sha256.hex (Sha256.digest "abc")
  = "ba7816bf8f01cfea414140de5dae2223b00361a396177a9cb410ff61f20015ad"
  /\ Sha256.hex (Sha256.digest
       "abcdbcdecdefdefgefghfghighijhijkijkljklmklmnlmnomnopnopq")
     = "248d6a61d20638b8e5c026930c3e6039a33ce45964ff2167f6ecedd419db06c1".
Proof. split; vm_compute; reflexivity. Qed.

Example hmac_ex :
  Sha256.hex (Hmac.hmac Sha256.digest "Jefe" "what do ya want for nothing?")
  = "5bdcc146bf60754e6a042426089575c75a003f089d2739839dec58b964ec3843"
  /\ Sha256.hex
       (Hmac.hmac Sha256.digest
          (Sha256.string_of (List.repeat 170%N 131))
          "Test Using Larger Than Block-Size Key - Hash Key First")
     = "60e431591ee0b67f0d8a26aacbf5b77f8e0bc6213728c5140546040f0ee37f54".
Proof. split; vm_compute; reflexivity. Qed.

Example trim_ex : Js.trim "  2026-06-15 " = "2026-06-15".
Proof. reflexivity. Qed.

Example dec_ex : Js.dec 2026 = "2026" /\ Js.dec 0 = "0" /\ Js.dec 7 = "7".
Proof. repeat split; reflexivity. Qed.

Example match_ex : Js.match_ymd "2026-06-15" = Some (2026, 6, 15)%Z.
Proof. reflexivity. Qed.

Example civil_ex :
  JsDate.days_from_civil 1970 1 1 = 0%Z
  /\ JsDate.civil_from_days 20619 = (2026, 6, 15)%Z
  /\ JsDate.days_from_civil 2026 6 15 = 20619%Z
  /\ JsDate.civil_from_days (JsDate.MakeDay 2026 1 30) = (2026, 3, 2)%Z.
Proof. repeat split; reflexivity. Qed.

Example toString_ex :
  JsDate.toString JsDate.utc_host (JsDate.Date_local JsDate.utc_host 2026 5 15)
  = "Mon Jun 15 2026 00:00:00 GMT+0000 (Coordinated Universal Time)".
Proof. reflexivity. Qed.

Example locale_ex :
  option_map (JsDate.toLocaleDateString_en_GB JsDate.utc_host)
    (JsDate.Date_parse JsDate.utc_host "2026-07-01T00:00:00.000Z")
  = Some "1 Jul 2026".
Proof. reflexivity. Qed.

(** ** Strict equality *)

Lemma value_eqb_eq (a b : Js.value) : Js.value_eqb a b = true <-> a = b.
Proof.
  destruct a, b; simpl; split; intros H; try discriminate; try reflexivity.
  - apply Bool.eqb_prop in H. congruence.
  - inversion H. apply Bool.eqb_reflx.
  - apply Z.eqb_eq in H. congruence.
  - inversion H. apply Z.eqb_refl.
  - apply String.eqb_eq in H. congruence.
  - inversion H. apply String.eqb_refl.
Qed.

Lemma strict_eq_true (a b : Js.value) : Js.strict_eq a b = true <-> a = b.
Proof. apply value_eqb_eq. Qed.

Lemma strict_eq_false (a b : Js.value) : Js.strict_eq a b = false <-> a <> b.
Proof.
  rewrite <- strict_eq_true. destruct (Js.strict_eq a b); split; congruence.
Qed.

(** ** Capability guards *)

Section Guards.
Import Http Middleware.

(** C2. [requireCustomerSelf] lets the request through exactly when the
    role is admin or staff, or the role is customer and
    [req.user.customerId] is the very string of the path parameter
    [:id]; every other identity gets 403 "Access denied to this
    customer" (NotSelf). *)
Theorem requireCustomerSelf_verdict (req : Request) (u : User) :
  user req = Some u ->
  (elevated u -> requireCustomerSelf req = Next req)
  /\ (owns u (id req) -> requireCustomerSelf req = Next req)
  /\ (~ elevated u -> ~ owns u (id req) ->
      requireCustomerSelf req
      = Send {| status := 403;
                body := ErrorBody "Access denied to this customer" |}).
Proof.
  intros Hu. unfold requireCustomerSelf, elevated, owns. rewrite Hu.
  destruct (Js.strict_eq (role u) (Js.JStr "admin")) eqn:Ha;
    destruct (Js.strict_eq (role u) (Js.JStr "staff")) eqn:Hs;
    destruct (Js.strict_eq (role u) (Js.JStr "customer")) eqn:Hc;
    destruct (Js.strict_eq (customerId u) (Js.JStr (id req))) eqn:Hi;
    simpl; repeat split; intros; try reflexivity;
    rewrite ?strict_eq_true, ?strict_eq_false in *;
    try tauto; try (exfalso; intuition congruence).
Qed.

Lemma requireCustomerSelf_verdict_witness :
  requireCustomerSelf (customer_request "c1" "c1")
    = Next (customer_request "c1" "c1")
  /\ requireCustomerSelf (customer_request "c1" "C1")
    = Send {| status := 403;
              body := ErrorBody "Access denied to this customer" |}.
Proof.
  split.
  - apply (requireCustomerSelf_verdict (customer_request "c1" "c1") _ eq_refl).
    split; reflexivity.
  - apply (requireCustomerSelf_verdict (customer_request "c1" "C1") _ eq_refl).
    + intros [H | H]; discriminate H.
    + intros [_ H]; discriminate H.
Defined.

End Guards.

(** ** Token operations and the signing secret *)

Section Secret.
Import Tokens.

Lemma ensureJwtSecret_throws (secret : option string) :
  not_configured secret ->
  ensureJwtSecret secret
  = Some (ConfigError "JWT_SECRET environment variable is not set").
Proof. intros [-> | ->]; reflexivity. Qed.

Lemma ensureJwtSecret_passes (s : string) :
  s <> "" -> ensureJwtSecret (Some s) = None.
Proof. intros Hs. destruct s; [congruence | reflexivity]. Qed.

(** C9. Without a signing secret (unset, or set to the empty string)
    both token operations throw the configuration error, whatever their
    arguments; with a non-empty secret [createAccessToken] returns a
    token and [verifyAccessToken] never fails with a configuration
    error. *)
Theorem secret_checked_at_each_use (k : Jwt.Codec) (secret : option string)
    (payload : Payload) (token : string) (now_ms : Z) :
  (not_configured secret ->
     createAccessToken k secret payload now_ms
       = inl (ConfigError "JWT_SECRET environment variable is not set")
     /\ verifyAccessToken k secret token now_ms
       = inl (ConfigError "JWT_SECRET environment variable is not set"))
  /\ (forall s, secret = Some s -> s <> "" ->
        (exists tok, createAccessToken k secret payload now_ms = inr tok)
        /\ forall msg, verifyAccessToken k secret token now_ms
                       <> inl (ConfigError msg)).
Proof.
  split.
  - intros H. unfold createAccessToken, verifyAccessToken.
    rewrite (ensureJwtSecret_throws _ H). split; reflexivity.
  - intros s -> Hs. unfold createAccessToken, verifyAccessToken.
    rewrite (ensureJwtSecret_passes _ Hs). split.
    + eexists. reflexivity.
    + intros msg. destruct (Jwt.verify _ _ _ _); discriminate.
Qed.

End Secret.

(** ** The identity resolver *)

Section Resolver.
Import Http Middleware.

Lemma startsWith_not_empty (h p : string) :
  p <> "" -> Js.startsWith h p = true -> String.eqb h "" = false.
Proof.
  intros Hp H. destruct h; [| reflexivity].
  destruct p; [congruence | discriminate H].
Qed.

(** C4. [authenticate] decides in this order: a header that is absent
    or does not start with "Bearer " gets 401 "Missing or invalid
    authorization header" (MissingCredential); otherwise, whatever error
    [verifyAccessToken] throws on the token, the response is the one
    401 "Invalid or expired token" (InvalidOrExpiredCredential);
    otherwise [next()] is called on a request whose [user] is the
    user id, role and customer id of the payload ([null] for a customer
    id that is absent) and whose other fields are as they came. *)
Theorem authenticate_rules (k : Jwt.Codec) (secret : option string)
    (now_ms : Z) (req : Request) :
  (bearer_shape (authorization req) = false ->
     authenticate k secret now_ms req
     = Send {| status := 401;
               body := ErrorBody "Missing or invalid authorization header" |})
  /\ (bearer_shape (authorization req) = true ->
      forall err,
        Tokens.verifyAccessToken k secret (bearer_token (authorization req)) now_ms
          = inl err ->
        authenticate k secret now_ms req
        = Send {| status := 401; body := ErrorBody "Invalid or expired token" |})
  /\ (bearer_shape (authorization req) = true ->
      forall payload,
        Tokens.verifyAccessToken k secret (bearer_token (authorization req)) now_ms
          = inr payload ->
        exists req',
          authenticate k secret now_ms req = Next req'
          /\ user req'
             = Some {| userId := Jwt.userId payload;
                       role := Jwt.role payload;
                       customerId :=
                         Js.nullish (Jwt.customerId payload) Js.JNull |}
          /\ authorization req' = authorization req
          /\ id req' = id req
          /\ next_followup_date req' = next_followup_date req).
Proof.
  unfold authenticate, bearer_shape, bearer_token.
  destruct (authorization req) as [h |] eqn:Eh; simpl.
  - destruct (Js.startsWith h "Bearer ") eqn:Hp.
    + rewrite (startsWith_not_empty h "Bearer ") by (congruence || exact Hp).
      simpl. split; [discriminate |]. split.
      * intros _ x Hx. rewrite Hx. reflexivity.
      * intros _ x Hx. rewrite Hx. eexists. split; [reflexivity |].
        cbn [user authorization id next_followup_date set_user].
        repeat split. exact Eh.
    + rewrite orb_true_r. repeat split; try discriminate; reflexivity.
  - repeat split; try discriminate; reflexivity.
Qed.

End Resolver.

(** ** The token codec *)

Section Codec.
Import Http Middleware.
Variable k : Jwt.Codec.

Lemma verify_signed (uid rl cid : Js.value) (secret : string) (ttl now_ms t_ms : Z) :
  Jwt.verify k (Jwt.sign k uid rl cid secret ttl now_ms) secret t_ms
  = if (Jwt.clockTimestamp t_ms >=? Jwt.clockTimestamp now_ms + ttl)%Z
    then inl Jwt.Expired
    else inr (Jwt.claims_at uid rl cid ttl now_ms).
Proof.
  unfold Jwt.verify, Jwt.sign.
  set (c := Jwt.claims_at uid rl cid ttl now_ms).
  destruct (String.eqb_spec
              (Jwt.compact k (Jwt.signing_input k c)
                 (Jwt.hs256 k secret (Jwt.signing_input k c))) "") as [E | _].
  { exfalso. exact (Jwt.compact_not_empty k _ _ E). }
  rewrite (Jwt.uncompact_compact k c secret), Jwt.read_signing_input.
  rewrite String.eqb_refl. reflexivity.
Qed.

Lemma verify_other_secret (uid rl cid : Js.value) (secret secret' : string)
    (ttl now_ms t_ms : Z) :
  let b := Jwt.signing_input k (Jwt.claims_at uid rl cid ttl now_ms) in
  Jwt.hs256 k secret' b <> Jwt.hs256 k secret b ->
  Jwt.verify k (Jwt.sign k uid rl cid secret ttl now_ms) secret' t_ms
  = inl Jwt.InvalidSignature.
Proof.
  intros b Hne. unfold Jwt.verify, Jwt.sign.
  set (c := Jwt.claims_at uid rl cid ttl now_ms) in *.
  destruct (String.eqb_spec
              (Jwt.compact k (Jwt.signing_input k c)
                 (Jwt.hs256 k secret (Jwt.signing_input k c))) "") as [E | _].
  { exfalso. exact (Jwt.compact_not_empty k _ _ E). }
  rewrite (Jwt.uncompact_compact k c secret), Jwt.read_signing_input.
  destruct (String.eqb_spec (Jwt.hs256 k secret (Jwt.signing_input k c))
              (Jwt.hs256 k secret' (Jwt.signing_input k c))) as [E | _].
  - exfalso. apply Hne. symmetry. exact E.
  - reflexivity.
Qed.

Lemma authenticate_with_bearer (secret : option string) (t_ms : Z)
    (token : string) (req : Request) :
  authenticate k secret t_ms (with_bearer token req)
  = match Tokens.verifyAccessToken k secret token t_ms with
    | inr payload =>
        Next (set_user {| userId := Jwt.userId payload;
                          role := Jwt.role payload;
                          customerId :=
                            Js.nullish (Jwt.customerId payload) Js.JNull |}
                       (with_bearer token req))
    | inl _ => InvalidOrExpiredCredential
    end.
Proof.
  assert (Hp : Js.startsWith ("Bearer " ++ token) "Bearer " = true).
  { unfold Js.startsWith. destruct token; reflexivity. }
  unfold authenticate. cbn [authorization with_bearer].
  rewrite Hp. reflexivity.
Qed.

Lemma verify_same_signature (uid rl cid : Js.value) (secret secret' : string)
    (ttl now_ms t_ms : Z) :
  let b := Jwt.signing_input k (Jwt.claims_at uid rl cid ttl now_ms) in
  Jwt.hs256 k secret' b = Jwt.hs256 k secret b ->
  Jwt.verify k (Jwt.sign k uid rl cid secret ttl now_ms) secret' t_ms
  = Jwt.verify k (Jwt.sign k uid rl cid secret ttl now_ms) secret t_ms.
Proof.
  intros b Heq. unfold Jwt.verify, Jwt.sign.
  set (c := Jwt.claims_at uid rl cid ttl now_ms) in *.
  destruct (String.eqb_spec
              (Jwt.compact k (Jwt.signing_input k c)
                 (Jwt.hs256 k secret (Jwt.signing_input k c))) "") as [E | _].
  { exfalso. exact (Jwt.compact_not_empty k _ _ E). }
  rewrite (Jwt.uncompact_compact k c secret), Jwt.read_signing_input.
  fold b. rewrite Heq. reflexivity.
Qed.

(** A time at most seven days less one second after the issue time
    falls in a second before the expiry. *)
Lemma before_expiry (now_ms t_ms : Z) :
  (t_ms <= now_ms + (Tokens.ACCESS_TOKEN_EXPIRY - 1) * 1000)%Z ->
  (Jwt.clockTimestamp t_ms
   < Jwt.clockTimestamp now_ms + Tokens.ACCESS_TOKEN_EXPIRY)%Z.
Proof.
  unfold Jwt.clockTimestamp, Tokens.ACCESS_TOKEN_EXPIRY. intros H.
  Z.div_mod_to_equations. lia.
Qed.

(** C3. With a non-empty secret [S], [createAccessToken] returns a token
    which, presented at a time whose whole second is before the issue
    second plus seven days (every time up to seven days less one second
    after issue is such a time), verifies under [S] to the user id, role
    and customer id it was made from ([customerId] unchanged unless it
    was [undefined]), and on which [authenticate] calls [next()] with
    [req.user] set to exactly that identity and the rest of the request
    as it came; from that second on verification throws
    [TokenExpiredError]; presented under another secret it throws
    "invalid signature" when HS256 under that secret signs the token's
    signing input differently, and is treated exactly as under [S] when
    it signs it alike; and [authenticate] answers both failures with
    the same 401 "Invalid or expired token". *)
Theorem token_round_trip (S : string) (C : Tokens.Payload) (now_ms t_ms : Z)
    (req : Request) :
  S <> "" ->
  exists tok,
    Tokens.createAccessToken k (Some S) C now_ms = inr tok
    /\ ((Jwt.clockTimestamp t_ms
         < Jwt.clockTimestamp now_ms + Tokens.ACCESS_TOKEN_EXPIRY)%Z ->
        (exists c, Tokens.verifyAccessToken k (Some S) tok t_ms = inr c
                   /\ Jwt.userId c = Tokens.userId C
                   /\ Jwt.role c = Tokens.role C
                   /\ Jwt.customerId c = customerId (identity_of C))
        /\ (exists req',
              authenticate k (Some S) t_ms (with_bearer tok req) = Next req'
              /\ user req' = Some (identity_of C)
              /\ authorization req' = Some ("Bearer " ++ tok)
              /\ id req' = id req
              /\ next_followup_date req' = next_followup_date req)
        /\ (Tokens.customerId C <> Js.JUndefined ->
            customerId (identity_of C) = Tokens.customerId C))
    /\ ((t_ms <= now_ms + (Tokens.ACCESS_TOKEN_EXPIRY - 1) * 1000)%Z ->
        (Jwt.clockTimestamp t_ms
         < Jwt.clockTimestamp now_ms + Tokens.ACCESS_TOKEN_EXPIRY)%Z)
    /\ ((Jwt.clockTimestamp now_ms + Tokens.ACCESS_TOKEN_EXPIRY
         <= Jwt.clockTimestamp t_ms)%Z ->
        Tokens.verifyAccessToken k (Some S) tok t_ms
          = inl (Tokens.JwtError Jwt.Expired)
        /\ authenticate k (Some S) t_ms (with_bearer tok req)
           = InvalidOrExpiredCredential)
    /\ (forall S',
          S' <> "" ->
          (Jwt.hs256 k S' (Jwt.signing_input k (issued_claims C now_ms))
           <> Jwt.hs256 k S (Jwt.signing_input k (issued_claims C now_ms)) ->
           Tokens.verifyAccessToken k (Some S') tok t_ms
             = inl (Tokens.JwtError Jwt.InvalidSignature)
           /\ authenticate k (Some S') t_ms (with_bearer tok req)
              = InvalidOrExpiredCredential)
          /\ (Jwt.hs256 k S' (Jwt.signing_input k (issued_claims C now_ms))
              = Jwt.hs256 k S (Jwt.signing_input k (issued_claims C now_ms)) ->
              Tokens.verifyAccessToken k (Some S') tok t_ms
              = Tokens.verifyAccessToken k (Some S) tok t_ms
              /\ authenticate k (Some S') t_ms (with_bearer tok req)
                 = authenticate k (Some S) t_ms (with_bearer tok req))).
Proof.
  intros HS. eexists. split.
  { unfold Tokens.createAccessToken. rewrite (ensureJwtSecret_passes _ HS).
    reflexivity. }
  simpl default. split; [| split; [| split]].
  - intros Hlt.
    assert (Hv : Tokens.verifyAccessToken k (Some S)
                   (Jwt.sign k (Tokens.userId C) (Tokens.role C)
                      (Js.nullish (Tokens.customerId C) Js.JNull) S
                      Tokens.ACCESS_TOKEN_EXPIRY now_ms) t_ms
                 = inr (Jwt.claims_at (Tokens.userId C) (Tokens.role C)
                          (Js.nullish (Tokens.customerId C) Js.JNull)
                          Tokens.ACCESS_TOKEN_EXPIRY now_ms)).
    { unfold Tokens.verifyAccessToken. rewrite (ensureJwtSecret_passes _ HS).
      simpl default. rewrite verify_signed.
      destruct (Z.geb_spec (Jwt.clockTimestamp t_ms)
                  (Jwt.clockTimestamp now_ms + Tokens.ACCESS_TOKEN_EXPIRY));
        [lia | reflexivity]. }
    split; [| split].
    + eexists. split; [exact Hv |]. repeat split.
    + rewrite authenticate_with_bearer, Hv. eexists. split; [reflexivity |].
      cbn [user authorization id next_followup_date set_user with_bearer].
      unfold identity_of. cbn [Jwt.userId Jwt.role Jwt.customerId Jwt.claims_at].
      repeat split. destruct (Tokens.customerId C); reflexivity.
    + intros Hc. unfold identity_of. cbn [customerId].
      destruct (Tokens.customerId C); simpl; congruence.
  - apply before_expiry.
  - intros Hge.
    assert (Hv : Tokens.verifyAccessToken k (Some S)
                   (Jwt.sign k (Tokens.userId C) (Tokens.role C)
                      (Js.nullish (Tokens.customerId C) Js.JNull) S
                      Tokens.ACCESS_TOKEN_EXPIRY now_ms) t_ms
                 = inl (Tokens.JwtError Jwt.Expired)).
    { unfold Tokens.verifyAccessToken. rewrite (ensureJwtSecret_passes _ HS).
      simpl default. rewrite verify_signed.
      destruct (Z.geb_spec (Jwt.clockTimestamp t_ms)
                  (Jwt.clockTimestamp now_ms + Tokens.ACCESS_TOKEN_EXPIRY));
        [reflexivity | lia]. }
    split; [exact Hv |]. rewrite authenticate_with_bearer, Hv. reflexivity.
  - intros S' HS'. split.
    + intros Hne.
      assert (Hv : Tokens.verifyAccessToken k (Some S')
                     (Jwt.sign k (Tokens.userId C) (Tokens.role C)
                        (Js.nullish (Tokens.customerId C) Js.JNull) S
                        Tokens.ACCESS_TOKEN_EXPIRY now_ms) t_ms
                   = inl (Tokens.JwtError Jwt.InvalidSignature)).
      { unfold Tokens.verifyAccessToken. rewrite (ensureJwtSecret_passes _ HS').
        simpl default. rewrite verify_other_secret; [reflexivity | exact Hne]. }
      split; [exact Hv |]. rewrite authenticate_with_bearer, Hv. reflexivity.
    + intros Heq.
      assert (Hv : Tokens.verifyAccessToken k (Some S')
                     (Jwt.sign k (Tokens.userId C) (Tokens.role C)
                        (Js.nullish (Tokens.customerId C) Js.JNull) S
                        Tokens.ACCESS_TOKEN_EXPIRY now_ms) t_ms
                   = Tokens.verifyAccessToken k (Some S)
                       (Jwt.sign k (Tokens.userId C) (Tokens.role C)
                          (Js.nullish (Tokens.customerId C) Js.JNull) S
                          Tokens.ACCESS_TOKEN_EXPIRY now_ms) t_ms).
      { unfold Tokens.verifyAccessToken.
        rewrite (ensureJwtSecret_passes _ HS), (ensureJwtSecret_passes _ HS').
        simpl default. rewrite (verify_same_signature _ _ _ S S' _ _ _ Heq).
        reflexivity. }
      split; [exact Hv |]. rewrite !authenticate_with_bearer, Hv. reflexivity.
Qed.

End Codec.

(** Secrets with the same key block sign alike. *)
Lemma hs256_same_key_block (secret secret' input : string) :
  Hmac.key_block Sha256.digest (Hs256.utf8 secret')
  = Hmac.key_block Sha256.digest (Hs256.utf8 secret) ->
  Jwt.hs256 Hs256.codec secret' input = Jwt.hs256 Hs256.codec secret input.
Proof.
  intros H. cbn [Jwt.hs256 Hs256.codec]. unfold Hs256.hs256, Hmac.hmac.
  rewrite H. reflexivity.
Qed.

(** ** The token properties on the reference codec *)

Section CodecInstances.
Import Http Middleware.

(** A token made at second 1 under the secret "k", on HS256: it is
    accepted one second later with the identity attached, refused under
    the secret "z", and refused in the same words seven days after it
    was made. *)
Lemma token_round_trip_witness :
  exists tok,
    Tokens.createAccessToken Hs256.codec (Some "k") staff_payload 1000
      = inr tok
    /\ (exists req',
          authenticate Hs256.codec (Some "k") 2000
            (with_bearer tok (bare_request None))
          = Next req'
          /\ user req' = Some (identity_of staff_payload))
    /\ authenticate Hs256.codec (Some "z") 2000
         (with_bearer tok (bare_request None))
       = InvalidOrExpiredCredential
    /\ authenticate Hs256.codec (Some "k") 604801000
         (with_bearer tok (bare_request None))
       = InvalidOrExpiredCredential.
Proof.
  destruct (token_round_trip Hs256.codec "k" staff_payload 1000 2000
              (bare_request None) ltac:(discriminate))
    as (tok & Htok & Hbefore & _ & _ & Hother).
  destruct (token_round_trip Hs256.codec "k" staff_payload 1000 604801000
              (bare_request None) ltac:(discriminate))
    as (tok' & Htok' & _ & _ & Hafter & _).
  assert (E : tok' = tok) by congruence. subst tok'.
  exists tok. split; [exact Htok |]. split; [| split].
  - destruct Hbefore as (_ & (req' & Hnext & Huser & _) & _).
    + vm_compute. reflexivity.
    + exists req'. split; assumption.
  - apply (proj1 (Hother "z" ltac:(discriminate))).
    vm_compute. discriminate.
  - apply Hafter. vm_compute. discriminate.
Defined.

(** C3 as stated fails twice on HS256. A token signed under the
    secret "k" followed by a zero byte verifies under the secret "k":
    HMAC fills both keys with zero bytes to the same block. And a
    token made 1999 ms after a full second is refused 604799001 ms
    later, 999 ms before seven days have passed. *)
Lemma other_secret_accepted_and_expiry_early :
  String "k" (String Ascii.zero "") <> "k"
  /\ Tokens.verifyAccessToken Hs256.codec (Some "k")
       (Jwt.sign Hs256.codec (Js.JStr "u1") (Js.JStr "staff") Js.JNull
          (String "k" (String Ascii.zero "")) Tokens.ACCESS_TOKEN_EXPIRY 1000)
       2000
     = inr (Jwt.claims_at (Js.JStr "u1") (Js.JStr "staff") Js.JNull
              Tokens.ACCESS_TOKEN_EXPIRY 1000)
  /\ (604801000 - 1999 < Tokens.ACCESS_TOKEN_EXPIRY * 1000)%Z
  /\ exists tok,
       Tokens.createAccessToken Hs256.codec (Some "k") staff_payload 1999
       = inr tok
       /\ Tokens.verifyAccessToken Hs256.codec (Some "k") tok 604801000
          = inl (Tokens.JwtError Jwt.Expired).
Proof.
  split; [discriminate |]. split; [| split].
  - change (Tokens.verifyAccessToken Hs256.codec (Some "k")
              (Jwt.sign Hs256.codec (Js.JStr "u1") (Js.JStr "staff") Js.JNull
                 (String "k" (String Ascii.zero ""))
                 Tokens.ACCESS_TOKEN_EXPIRY 1000) 2000)
      with (match Jwt.verify Hs256.codec
                    (Jwt.sign Hs256.codec (Js.JStr "u1") (Js.JStr "staff")
                       Js.JNull (String "k" (String Ascii.zero ""))
                       Tokens.ACCESS_TOKEN_EXPIRY 1000) "k" 2000 with
            | inl e => inl (Tokens.JwtError e)
            | inr c => inr c
            end).
    rewrite (verify_same_signature Hs256.codec (Js.JStr "u1") (Js.JStr "staff")
               Js.JNull (String "k" (String Ascii.zero "")) "k"
               Tokens.ACCESS_TOKEN_EXPIRY 1000 2000).
    + rewrite verify_signed. reflexivity.
    + apply hs256_same_key_block. vm_compute. reflexivity.
  - vm_compute. reflexivity.
  - exists (Jwt.sign Hs256.codec (Js.JStr "u1") (Js.JStr "staff") Js.JNull "k"
              Tokens.ACCESS_TOKEN_EXPIRY 1999).
    split; [reflexivity |].
    change (Tokens.verifyAccessToken Hs256.codec (Some "k")
              (Jwt.sign Hs256.codec (Js.JStr "u1") (Js.JStr "staff") Js.JNull
                 "k" Tokens.ACCESS_TOKEN_EXPIRY 1999) 604801000)
      with (match Jwt.verify Hs256.codec
                    (Jwt.sign Hs256.codec (Js.JStr "u1") (Js.JStr "staff")
                       Js.JNull "k" Tokens.ACCESS_TOKEN_EXPIRY 1999)
                    "k" 604801000 with
            | inl e => inl (Tokens.JwtError e)
            | inr c => inr c
            end).
    rewrite verify_signed. reflexivity.
Defined.

Lemma secret_checked_at_each_use_witness :
  Tokens.verifyAccessToken ReferenceCodec.codec None "abc" 0
    = inl (Tokens.ConfigError "JWT_SECRET environment variable is not set")
  /\ exists tok,
       Tokens.createAccessToken ReferenceCodec.codec (Some "k") staff_payload 0
       = inr tok.
Proof.
  split.
  - apply (secret_checked_at_each_use ReferenceCodec.codec None staff_payload "abc" 0).
    left. reflexivity.
  - apply (proj2 (secret_checked_at_each_use ReferenceCodec.codec (Some "k")
                    staff_payload "abc" 0) "k"); [reflexivity | discriminate].
Defined.

Lemma authenticate_rules_witness :
  authenticate ReferenceCodec.codec (Some "k") 0 (bare_request (Some "Basic abc"))
    = MissingCredential
  /\ authenticate ReferenceCodec.codec (Some "k") 0 (bare_request (Some "Bearer abc"))
    = InvalidOrExpiredCredential
  /\ exists req',
       authenticate ReferenceCodec.codec (Some "k") 2000
         (bare_request (Some ("Bearer " ++ staff_token)))
       = Next req'
       /\ user req'
          = Some {| userId := Js.JStr "u1"; role := Js.JStr "staff";
                    customerId := Js.JNull |}
       /\ authorization req' = Some ("Bearer " ++ staff_token)
       /\ id req' = "c1"
       /\ next_followup_date req' = Js.JUndefined.
Proof.
  split; [| split].
  - apply (authenticate_rules ReferenceCodec.codec (Some "k") 0
             (bare_request (Some "Basic abc"))).
    reflexivity.
  - apply (proj1 (proj2 (authenticate_rules ReferenceCodec.codec (Some "k") 0
                           (bare_request (Some "Bearer abc"))))
             eq_refl (Tokens.JwtError Jwt.Malformed)).
    vm_compute. reflexivity.
  - apply (proj2 (proj2 (authenticate_rules ReferenceCodec.codec (Some "k") 2000
                           (bare_request (Some ("Bearer " ++ staff_token)))))
             ltac:(vm_compute; reflexivity)
             {| Jwt.userId := Js.JStr "u1"; Jwt.role := Js.JStr "staff";
                Jwt.customerId := Js.JNull; Jwt.iat := 1;
                Jwt.exp := Some 604801%Z |}).
    vm_compute. reflexivity.
Defined.

End CodecInstances.

(** ** Guard chains *)

Section Chains.
Import Http Middleware Server.

Lemma run_after_through (pre rest : list Step) :
  forall req db db' req' ran,
    through pre req db = Some (db', req', ran) ->
    run (pre ++ rest) req db
    = let '(db'', res, ran') := run rest req' db' in (db'', res, (ran ++ ran')%list).
Proof.
  induction pre as [| [nm f] pre IH]; intros req db db' req' ran H; simpl in *.
  - inversion H; subst. destruct (run rest req' db') as [[? ?] ?]. reflexivity.
  - destruct (f req db) as [db1 [req1 | res1 |]]; try discriminate.
    destruct (through pre req1 db1) as [[[db2 req2] ran2] |] eqn:E;
      try discriminate.
    inversion H; subst. rewrite (IH _ _ _ _ _ E).
    destruct (run rest req' db') as [[? ?] ?]. reflexivity.
Qed.

Lemma guard_sends_403 (nm : string) (g : Request -> Outcome) (req : Request)
    (res : Response) :
  In (nm, g) guards -> g req = Send res -> status res = 403%Z.
Proof.
  intros Hin Hg. simpl in Hin.
  destruct Hin as [E | [E | [E | []]]]; inversion E; subst; clear E.
  - unfold requireAdmin in Hg. destruct (user req); [| discriminate].
    destruct (negb _); inversion Hg; reflexivity.
  - unfold requireStaffOrAdmin in Hg. destruct (user req); [| discriminate].
    destruct (_ && _); inversion Hg; reflexivity.
  - unfold requireCustomerSelf in Hg. destruct (user req); [| discriminate].
    destruct (_ || _); [discriminate |].
    destruct (_ && _); inversion Hg; reflexivity.
Qed.

(** C8. In a route, when the steps before a guard have all called
    [next()] and the guard ([requireAdmin], [requireStaffOrAdmin] or
    [requireCustomerSelf]) sends its denial, the run ends there: the
    response is the guard's 403, the store is as the earlier steps left
    it, the guard is the last step that ran, and none of this depends
    on the steps that follow. *)
Theorem denied_guard_ends_the_chain (pre rest : list Step) (nm : string)
    (g : Request -> Outcome) (req req' : Request) (db db' : Db.State)
    (ran : list string) (res : Response) :
  In (nm, g) guards ->
  through pre req db = Some (db', req', ran) ->
  g req' = Send res ->
  run (pre ++ pure_step nm g :: rest) req db = (db', res, (ran ++ [nm])%list)
  /\ status res = 403%Z.
Proof.
  intros Hin Hpre Hg. split; [| exact (guard_sends_403 nm g req' res Hin Hg)].
  rewrite (run_after_through pre _ _ _ _ _ _ Hpre).
  simpl. rewrite Hg. reflexivity.
Qed.

(** A customer asking to change a follow-up date is stopped by
    [requireStaffOrAdmin]: the handler does not run and the store sees
    no statement. *)
Lemma denied_guard_ends_the_chain_witness :
  run (route_put_followup (sample_env JsDate.utc_host no_failure))
      (customer_put (Js.JStr "2026-06-15")) (sample_db None)
  = (sample_db None,
     {| status := 403; body := ErrorBody "Staff or admin access required" |},
     ["authenticate"; "requireStaffOrAdmin"]).
Proof.
  refine (proj1 (denied_guard_ends_the_chain
                   [authenticate_step (sample_env JsDate.utc_host no_failure)]
                   [handler "put_followup"
                      (put_followup (sample_env JsDate.utc_host no_failure))]
                   "requireStaffOrAdmin" Middleware.requireStaffOrAdmin
                   (customer_put (Js.JStr "2026-06-15"))
                   (set_user {| userId := Js.JStr "u2"; role := Js.JStr "customer";
                                customerId := Js.JStr "c1" |}
                      (customer_put (Js.JStr "2026-06-15")))
                   (sample_db None) (sample_db None) ["authenticate"]
                   {| status := 403;
                      body := ErrorBody "Staff or admin access required" |}
                   _ _ _)).
  - right. left. reflexivity.
  - vm_compute. reflexivity.
  - vm_compute. reflexivity.
Defined.

End Chains.

(** ** Trimming *)

Lemma trimStart_spaces (l s : string) :
  Js.all_space l = true -> Js.trimStart (l ++ s) = Js.trimStart s.
Proof.
  induction l as [| c l IH]; simpl; intros H; [reflexivity |].
  apply andb_true_iff in H as [Hc Hl]. rewrite Hc. exact (IH Hl).
Qed.

Lemma trimEnd_all_space (r : string) :
  Js.all_space r = true -> Js.trimEnd r = "".
Proof.
  induction r as [| c r IH]; simpl; intros H; [reflexivity |].
  apply andb_true_iff in H as [Hc Hr]. rewrite (IH Hr), Hc. reflexivity.
Qed.

Lemma trimEnd_spaces (s r : string) :
  Js.all_space r = true -> Js.trimEnd (s ++ r) = Js.trimEnd s.
Proof.
  intros Hr. induction s as [| c s IH]; simpl.
  - exact (trimEnd_all_space r Hr).
  - rewrite IH. reflexivity.
Qed.

Lemma trimStart_all_space (r : string) :
  Js.all_space r = true -> Js.trimStart r = "".
Proof.
  induction r as [| c r IH]; simpl; intros H; [reflexivity |].
  apply andb_true_iff in H as [Hc Hr]. rewrite Hc. exact (IH Hr).
Qed.

Lemma trim_right_pad (s r : string) :
  Js.all_space r = true -> Js.trim (s ++ r) = Js.trim s.
Proof.
  intros Hr. unfold Js.trim. induction s as [| c s IH].
  - change ("" ++ r) with r. rewrite (trimStart_all_space r Hr). reflexivity.
  - change (String c s ++ r) with (String c (s ++ r)).
    cbn [Js.trimStart]. destruct (Js.is_space c); [exact IH |].
    exact (trimEnd_spaces (String c s) r Hr).
Qed.

(** White space around a string does not survive [trim]. *)
Lemma trim_pad (l s r : string) :
  Js.all_space l = true -> Js.all_space r = true ->
  Js.trim (l ++ s ++ r) = Js.trim s.
Proof.
  intros Hl Hr. rewrite <- (trim_right_pad s r Hr).
  unfold Js.trim. rewrite (trimStart_spaces l _ Hl). reflexivity.
Qed.

(** ** The calendar

    Day numbers and dates of the proleptic Gregorian calendar determine
    each other; so the day printed for a [YYYY-MM-DD] text is its own
    day when the local time is at or ahead of UTC by less than a day. *)

Section Calendar.
Local Open Scope Z_scope.

Lemma year_of_era_recovered (yoe doy : Z) :
  0 <= yoe <= 399 -> 0 <= doy <= 365 ->
  (doy = 365 -> (yoe + 1) mod 4 = 0 /\ ((yoe + 1) mod 100 <> 0 \/ yoe = 399)) ->
  let doe := yoe * 365 + yoe / 4 - yoe / 100 + doy in
  0 <= doe < 146097
  /\ (doe - doe / 1460 + doe / 36524 - doe / 146096) / 365 = yoe.
Proof.
  intros Hy Hd Hl doe. subst doe. split; Z.div_mod_to_equations; lia.
Qed.

Lemma civil_from_days_from_civil (y m d : Z) :
  Db.real_date y m d = true ->
  JsDate.civil_from_days (JsDate.days_from_civil y m d) = (y, m, d).
Proof.
  unfold Db.real_date. intros H.
  apply andb_true_iff in H as [H Hd2]. apply andb_true_iff in H as [H Hd1].
  apply andb_true_iff in H as [Hm1 Hm2].
  apply Z.leb_le in Hm1, Hm2, Hd1, Hd2.
  unfold JsDate.days_from_civil, JsDate.civil_from_days.
  set (y' := if m <=? 2 then y - 1 else y).
  set (era := y' / 400).
  set (yoe := y' - era * 400).
  set (mp := (m + 9) mod 12).
  set (doy := (153 * mp + 2) / 5 + d - 1).
  assert (Hyoe : 0 <= yoe <= 399) by (subst yoe era; Z.div_mod_to_equations; lia).
  assert (Hmp : (m <= 2 /\ mp = m + 9 /\ y' = y - 1) \/ (3 <= m /\ mp = m - 3 /\ y' = y)).
  { subst mp y'. destruct (Z.leb_spec m 2); [left | right];
      repeat split; try lia; Z.div_mod_to_equations; lia. }
  assert (Hdoy : 0 <= doy <= 365
                 /\ (doy = 365 -> (yoe + 1) mod 4 = 0
                                  /\ ((yoe + 1) mod 100 <> 0 \/ yoe = 399))
                 /\ (5 * doy + 2) / 153 = mp
                 /\ doy - (153 * mp + 2) / 5 + 1 = d).
  { assert (Hlen : d <= 28
                   \/ (m = 2 /\ d = 29
                       /\ (y mod 4 = 0 /\ y mod 100 <> 0 \/ y mod 400 = 0))
                   \/ (m <> 2 /\ d <= 30)
                   \/ (d <= 31 /\ m <> 2 /\ m <> 4 /\ m <> 6 /\ m <> 9 /\ m <> 11)).
    { unfold Db.days_in_month, Db.is_leap in Hd2.
      assert (Hm : m = 1 \/ m = 2 \/ m = 3 \/ m = 4 \/ m = 5 \/ m = 6 \/ m = 7
                   \/ m = 8 \/ m = 9 \/ m = 10 \/ m = 11 \/ m = 12) by lia.
      destruct Hm as [-> | [-> | [-> | [-> | [-> | [-> | [-> | [-> | [-> | [-> | [-> | ->]]]]]]]]]]];
        cbv iota beta in Hd2; try lia.
      destruct ((y mod 4 =? 0) && negb (y mod 100 =? 0) || (y mod 400 =? 0)) eqn:L;
        [| lia].
      apply orb_true_iff in L.
      rewrite andb_true_iff, negb_true_iff, !Z.eqb_eq, Z.eqb_neq in L.
      lia. }
    subst doy.
    destruct Hmp as [(? & Emp & Ey) | (? & Emp & Ey)]; rewrite Emp;
      (split; [| split; [| split]]); subst yoe era; rewrite ?Ey;
      Z.div_mod_to_equations; lia. }
  destruct Hdoy as (Hdoy & Hleap & Emp & Ed).
  destruct (year_of_era_recovered yoe doy Hyoe Hdoy Hleap) as [Hdoe Eyoe].
  set (doe := yoe * 365 + yoe / 4 - yoe / 100 + doy) in *.
  replace (era * 146097 + doe - 719468 + 719468) with (doe + era * 146097) by lia.
  rewrite Z.div_add by lia. rewrite (Z.div_small doe 146097) by lia.
  replace (doe + era * 146097 - (0 + era) * 146097) with doe by lia.
  rewrite Eyoe.
  replace (doe - (365 * yoe + yoe / 4 - yoe / 100)) with doy by (subst doe; lia).
  rewrite Emp, Ed.
  destruct Hmp as [(? & Emp' & Ey) | (? & Emp' & Ey)]; rewrite Emp'.
  - destruct (Z.ltb_spec (m + 9) 10); [lia |].
    replace (m + 9 - 9) with m by lia.
    destruct (Z.leb_spec m 2); [| lia].
    f_equal. f_equal. subst yoe. lia.
  - destruct (Z.ltb_spec (m - 3) 10); [| lia].
    replace (m - 3 + 3) with m by lia.
    destruct (Z.leb_spec m 2); [lia |].
    f_equal. f_equal. subst yoe. lia.
Qed.

Lemma MakeDay_of_month (y m d : Z) :
  1 <= m <= 12 -> JsDate.MakeDay y (m - 1) d = JsDate.days_from_civil y m d.
Proof.
  intros Hm. unfold JsDate.MakeDay.
  replace ((m - 1) / 12) with 0 by (Z.div_mod_to_equations; lia).
  replace ((m - 1) mod 12 + 1) with m by (Z.div_mod_to_equations; lia).
  replace (y + 0) with y by lia.
  unfold JsDate.days_from_civil. lia.
Qed.

Lemma real_date_v8_day (y m d : Z) :
  Db.real_date y m d = true ->
  ((1 <=? m) && (m <=? 12) && (1 <=? d) && (d <=? 31)) = true.
Proof.
  unfold Db.real_date. intros H.
  apply andb_true_iff in H as [H Hd2]. rewrite H. cbn [andb].
  apply Z.leb_le in Hd2. apply Z.leb_le.
  unfold Db.days_in_month in Hd2.
  repeat match type of Hd2 with
         | context [match ?x with _ => _ end] => destruct x
         end; lia.
Qed.

Lemma toLocaleDateString_of_day (h : JsDate.Host) (y m d : Z) :
  Db.real_date y m d = true -> 1 <= y ->
  at_or_east_of_utc h y m d ->
  JsDate.toLocaleDateString_en_GB h (JsDate.MakeDay y (m - 1) d * JsDate.msPerDay)
  = rendered y m d.
Proof.
  intros Hreal Hy Htz. unfold JsDate.toLocaleDateString_en_GB, JsDate.LocalTime.
  unfold at_or_east_of_utc in Htz.
  set (off := JsDate.LocalTZA h _ true) in *.
  assert (Hday : JsDate.Day (JsDate.MakeDay y (m - 1) d * JsDate.msPerDay + off)
                 = JsDate.days_from_civil y m d).
  { unfold JsDate.Day. rewrite <- MakeDay_of_month.
    - unfold JsDate.msPerDay in *. Z.div_mod_to_equations. lia.
    - pose proof (real_date_v8_day y m d Hreal) as Hv.
      rewrite !andb_true_iff, !Z.leb_le in Hv. lia. }
  rewrite Hday, (civil_from_days_from_civil y m d Hreal).
  destruct (Z.leb_spec y 0); [lia | reflexivity].
Qed.

End Calendar.

(** ** The follow-up update *)

Section FollowUp.
Import Http Server.

(** What the handler does once the checks have passed, the customer
    exists, and the select and the update go through: the row is
    written; a comment is attempted exactly when the previous and the
    new text differ, and its failure leaves the written row in place. *)
Lemma put_followup_run (e : Env) (req : Request) (db : Db.State)
    (c : Db.Customer) (v : option Db.SqlDate) :
  let h := host e in
  let value := new_value (next_followup_date req) in
  let q1 := Db.SelectFollowup (id req) in
  let q2 := Db.UpdateFollowup value (id req) in
  let prev := previous_date h (Db.date_to_js h (Db.next_followup_date c)) in
  let q3 := Db.InsertComment (id req) (commentText h prev value) in
  let row := Db.set_followup v c in
  let written := <[id req := row]> (Db.customers db) in
  validate h (next_followup_date req) = None ->
  Db.customers db !! id req = Some c ->
  fails e q1 = false ->
  fails e q2 = false ->
  Db.date_param value = Some v ->
  put_followup e req db
  = if differs prev value
    then if fails e q3
         then ({| Db.customers := written;
                  Db.customer_comments := Db.customer_comments db;
                  Db.sent := Db.sent db ++ [q1; q2; q3] |},
               server_error "Failed to update follow-up date")
         else ({| Db.customers := written;
                  Db.customer_comments :=
                    Db.customer_comments db ++ [(id req, commentText h prev value)];
                  Db.sent := Db.sent db ++ [q1; q2; q3] |},
               ok row)
    else ({| Db.customers := written;
             Db.customer_comments := Db.customer_comments db;
             Db.sent := Db.sent db ++ [q1; q2] |},
          ok row).
Proof.
  intros h value q1 q2 prev q3 row written Hval Hc Hf1 Hf2 Hv.
  unfold put_followup. fold h. rewrite Hval. fold value.
  unfold Db.select_followup. fold q1. rewrite Hf1, Hc.
  unfold Db.update_followup. fold q2. rewrite Hf2, Hv.
  cbn [Db.log Db.customers Db.customer_comments Db.sent].
  rewrite Hc. fold prev row written.
  destruct (differs prev value).
  - unfold Db.insert_comment. fold q3.
    cbn [Db.log Db.customers Db.customer_comments Db.sent].
    destruct (fails e q3).
    + same_store.
    + unfold written. rewrite lookup_insert_eq. same_store.
  - same_store.
Qed.

(** The update failing: nothing is written. *)
Lemma put_followup_update_fails (e : Env) (req : Request) (db : Db.State)
    (c : Db.Customer) :
  let h := host e in
  let value := new_value (next_followup_date req) in
  let q1 := Db.SelectFollowup (id req) in
  let q2 := Db.UpdateFollowup value (id req) in
  validate h (next_followup_date req) = None ->
  Db.customers db !! id req = Some c ->
  fails e q1 = false ->
  fails e q2 = true \/ Db.date_param value = None ->
  put_followup e req db
  = ({| Db.customers := Db.customers db;
        Db.customer_comments := Db.customer_comments db;
        Db.sent := Db.sent db ++ [q1; q2] |},
     server_error "Failed to update follow-up date").
Proof.
  intros h value q1 q2 Hval Hc Hf1 Hf2.
  unfold put_followup. fold h. rewrite Hval. fold value.
  unfold Db.select_followup. fold q1. rewrite Hf1, Hc.
  unfold Db.update_followup. fold q2.
  cbn [Db.log Db.customers Db.customer_comments Db.sent].
  destruct (fails e q2) eqn:E.
  - same_store.
  - destruct Hf2 as [Hf2 | Hf2]; [discriminate |]. rewrite Hf2. same_store.
Qed.

(** A request the checks reject is answered at once. *)
Lemma put_followup_rejected (e : Env) (req : Request) (db : Db.State)
    (res : Response) :
  validate (host e) (next_followup_date req) = Some res ->
  put_followup e req db = (db, res) /\ status res = 400%Z.
Proof.
  intros H. unfold put_followup. rewrite H. split; [reflexivity |].
  unfold validate in H. destruct (is_nullish _); [discriminate |].
  destruct (negb _); [inversion H; reflexivity |].
  destruct (JsDate.Date_parse _ _); [discriminate | inversion H; reflexivity].
Qed.

(** C5, as stated, fails: scheduling a first follow-up while the insert
    into [customer_comments] fails answers 500 and leaves the new date
    written without a comment. *)
Lemma update_survives_failed_comment :
  let r := put_followup (sample_env JsDate.utc_host insert_fails)
             (staff_request (Js.JStr "2026-06-15")) (sample_db None) in
  status (snd r) = 500%Z
  /\ Db.customers (fst r) !! "c1" = Some (sample_customer (Some june_15))
  /\ Db.customer_comments (fst r) = []
  /\ ~ both_or_neither (sample_db None) (fst r).
Proof.
  cbv zeta. split; [reflexivity |]. split; [reflexivity |].
  split; [reflexivity |].
  intros [[H _] | [_ H]].
  - apply (f_equal (fun m => Db.next_followup_date <$> m !! "c1")) in H.
    vm_compute in H. discriminate H.
  - apply H. reflexivity.
Qed.

(** C5, amended. For a request that passes the checks, finds the
    customer and changes the text of the date, the update and the
    comment are two statements, each committed on its own: when the
    update fails nothing is written; when the update goes through and
    the insert of the comment fails, the new date stays written and no
    comment is added; both cases answer 500 "Failed to update follow-up
    date"; when neither fails both are written and the answer is 200. *)
Theorem update_and_comment_commit_separately (e : Env) (req : Request)
    (db : Db.State) (c : Db.Customer) (v : option Db.SqlDate) :
  let h := host e in
  let value := new_value (next_followup_date req) in
  let q1 := Db.SelectFollowup (id req) in
  let q2 := Db.UpdateFollowup value (id req) in
  let prev := previous_date h (Db.date_to_js h (Db.next_followup_date c)) in
  let q3 := Db.InsertComment (id req) (commentText h prev value) in
  let row := Db.set_followup v c in
  let written := <[id req := row]> (Db.customers db) in
  validate h (next_followup_date req) = None ->
  Db.customers db !! id req = Some c ->
  fails e q1 = false ->
  differs prev value = true ->
  Db.date_param value = Some v ->
  (fails e q2 = true ->
   put_followup e req db
   = ({| Db.customers := Db.customers db;
         Db.customer_comments := Db.customer_comments db;
         Db.sent := Db.sent db ++ [q1; q2] |},
      server_error "Failed to update follow-up date"))
  /\ (fails e q2 = false -> fails e q3 = true ->
      put_followup e req db
      = ({| Db.customers := written;
            Db.customer_comments := Db.customer_comments db;
            Db.sent := Db.sent db ++ [q1; q2; q3] |},
         server_error "Failed to update follow-up date"))
  /\ (fails e q2 = false -> fails e q3 = false ->
      put_followup e req db
      = ({| Db.customers := written;
            Db.customer_comments :=
              Db.customer_comments db ++ [(id req, commentText h prev value)];
            Db.sent := Db.sent db ++ [q1; q2; q3] |},
         ok row)).
Proof.
  intros h value q1 q2 prev q3 row written Hval Hc Hf1 Hd Hv.
  split; [| split].
  - intros Hf2.
    exact (put_followup_update_fails e req db c Hval Hc Hf1 (or_introl Hf2)).
  - intros Hf2 Hf3.
    rewrite (put_followup_run e req db c v Hval Hc Hf1 Hf2 Hv).
    fold h value prev. rewrite Hd. fold q3. rewrite Hf3. reflexivity.
  - intros Hf2 Hf3.
    rewrite (put_followup_run e req db c v Hval Hc Hf1 Hf2 Hv).
    fold h value prev. rewrite Hd. fold q3. rewrite Hf3. reflexivity.
Qed.

Lemma update_and_comment_commit_separately_witness :
  put_followup (sample_env JsDate.utc_host insert_fails)
    (staff_request (Js.JStr "2026-06-15")) (sample_db None)
  = ({| Db.customers :=
          <["c1" := sample_customer (Some june_15)]> (Db.customers (sample_db None));
        Db.customer_comments := [];
        Db.sent := [Db.SelectFollowup "c1";
                    Db.UpdateFollowup (Some "2026-06-15") "c1";
                    Db.InsertComment "c1" "Follow-up scheduled for 15 Jun 2026."] |},
     server_error "Failed to update follow-up date").
Proof.
  refine (proj1 (proj2 (update_and_comment_commit_separately
                          (sample_env JsDate.utc_host insert_fails)
                          (staff_request (Js.JStr "2026-06-15"))
                          (sample_db None) (sample_customer None)
                          (Some june_15) _ _ _ _ _)) _ _);
    vm_compute; reflexivity.
Defined.

(** C6, as stated, fails: marking done a customer whose follow-up is
    already [NULL] still adds a comment. *)
Lemma done_on_null_still_comments :
  let r := post_followup_done (sample_env JsDate.utc_host no_failure)
             (staff_request Js.JUndefined) (sample_db None) in
  status (snd r) = 200%Z
  /\ Db.customer_comments (fst r) = [("c1", "Follow-up marked as done.")]
  /\ Db.customer_comments (fst r) <> Db.customer_comments (sample_db None).
Proof. vm_compute. repeat split. discriminate. Qed.

(** C6, amended. Marking done does not go through the comparison of
    the update route and never reads the previous value: for an
    existing customer, when its two statements go through, it sets the
    date to [NULL] and adds exactly one comment "Follow-up marked as
    done.", whatever the date was, also when it was [NULL] already. *)
Theorem done_always_comments (e : Env) (req : Request) (db : Db.State)
    (c : Db.Customer) :
  Db.customers db !! id req = Some c ->
  fails e (Db.UpdateFollowupNull (id req)) = false ->
  fails e (Db.InsertComment (id req) "Follow-up marked as done.") = false ->
  post_followup_done e req db
  = ({| Db.customers := <[id req := Db.set_followup None c]> (Db.customers db);
        Db.customer_comments :=
          Db.customer_comments db ++ [(id req, "Follow-up marked as done.")];
        Db.sent := Db.sent db
                   ++ [Db.UpdateFollowupNull (id req);
                       Db.InsertComment (id req) "Follow-up marked as done."] |},
     ok (Db.set_followup None c)).
Proof.
  intros Hc Hf1 Hf2.
  unfold post_followup_done, Db.update_followup_null.
  rewrite Hf1, Hc. unfold Db.insert_comment. rewrite Hf2.
  cbn [Db.log Db.customers Db.customer_comments Db.sent].
  rewrite lookup_insert_eq. same_store.
Qed.

Lemma done_always_comments_witness :
  Db.customer_comments
    (fst (post_followup_done (sample_env JsDate.utc_host no_failure)
            (staff_request Js.JUndefined) (sample_db None)))
  = [("c1", "Follow-up marked as done.")].
Proof.
  rewrite (done_always_comments (sample_env JsDate.utc_host no_failure)
             (staff_request Js.JUndefined) (sample_db None)
             (sample_customer None) eq_refl eq_refl eq_refl).
  reflexivity.
Defined.

(** *** Which texts pass the checks *)

Lemma match_ymd_length (X : string) (ymd : Z * Z * Z) :
  Js.match_ymd X = Some ymd -> String.length X = 10.
Proof.
  unfold Js.match_ymd. intros H.
  do 10 (destruct X as [| ? X]; [discriminate H |]).
  destruct X; [reflexivity | discriminate H].
Qed.

Lemma parse_utc_midnight_of_date (X : string) (ymd : Z * Z * Z) :
  Js.match_ymd X = Some ymd ->
  JsDate.parse_utc_midnight (X ++ "T00:00:00.000Z") = Some ymd.
Proof.
  intros H. pose proof H as H'. unfold Js.match_ymd in H'.
  do 10 (destruct X as [| ? X]; [discriminate H' |]).
  destruct X; [| discriminate H'].
  unfold JsDate.parse_utc_midnight. cbn [String.append Js.slice_from Js.slice_to].
  rewrite String.eqb_refl. exact H.
Qed.

(** The checks on a string: the trimmed text must have the shape
    [YYYY-MM-DD], its month must be 1..12 and its day 1..31. Nothing
    relates the day to the month. *)
Lemma validate_string (h : JsDate.Host) (s : string) :
  validate h (Js.JStr s)
  = match Js.match_ymd (Js.trim s) with
    | None =>
        Some {| status := 400;
                body := ErrorBody "next_followup_date must be YYYY-MM-DD or null" |}
    | Some (y, m, d) =>
        if v8_day m d then None
        else Some {| status := 400;
                     body := ErrorBody "next_followup_date is not a valid date" |}
    end.
Proof.
  unfold validate, Js.test_date_re. cbn [is_nullish Js.to_String].
  destruct (Js.match_ymd (Js.trim s)) as [[[y m] d] |] eqn:E; cbn [negb].
  - unfold JsDate.Date_parse. rewrite (parse_utc_midnight_of_date _ _ E).
    unfold v8_day. destruct (_ && _); reflexivity.
  - reflexivity.
Qed.

(** What does hold of C7: a text of the wrong shape, or with a month
    outside 1..12 or a day outside 1..31, is answered 400 with the store
    untouched: no statement is sent. *)
Lemma malformed_rejected_before_store (e : Env) (req : Request)
    (db : Db.State) (s : string) :
  next_followup_date req = Js.JStr s ->
  match Js.match_ymd (Js.trim s) with
  | None => True
  | Some (_, m, d) => v8_day m d = false
  end ->
  exists res, put_followup e req db = (db, res) /\ status res = 400%Z.
Proof.
  intros Hs Hbad.
  assert (Hv : exists res, validate (host e) (next_followup_date req) = Some res).
  { rewrite Hs, validate_string.
    destruct (Js.match_ymd (Js.trim s)) as [[[y m] d] |]; [| eauto].
    rewrite Hbad. eauto. }
  destruct Hv as [res Hv]. exists res.
  exact (put_followup_rejected e req db res Hv).
Qed.

Example malformed_examples :
  put_followup (sample_env JsDate.utc_host no_failure)
    (staff_request (Js.JStr "15-06-2026")) (sample_db None)
  = (sample_db None,
     {| status := 400;
        body := ErrorBody "next_followup_date must be YYYY-MM-DD or null" |})
  /\ put_followup (sample_env JsDate.utc_host no_failure)
       (staff_request (Js.JStr "2026-13-40")) (sample_db None)
     = (sample_db None,
        {| status := 400;
           body := ErrorBody "next_followup_date is not a valid date" |}).
Proof. split; reflexivity. Qed.

(** C7 at "2026-02-30". The thirtieth of February is no day of the
    calendar, yet on every host the checks let it pass, and on every
    store the handler goes on to send its select, so the answer is not
    the 400 of a rejected input; on the sample store the update is
    sent as well, the server refuses the date, and the answer is 500. *)
Theorem february_30_reaches_the_store :
  Db.real_date 2026 2 30 = false
  /\ (forall h, validate h (Js.JStr "2026-02-30") = None)
  /\ (forall e db,
        exists rest,
          Db.sent (fst (put_followup e (staff_request (Js.JStr "2026-02-30")) db))
          = (Db.sent db ++ Db.SelectFollowup "c1" :: rest)%list)
  /\ put_followup (sample_env JsDate.utc_host no_failure)
       (staff_request (Js.JStr "2026-02-30")) (sample_db None)
     = ({| Db.customers := Db.customers (sample_db None);
           Db.customer_comments := [];
           Db.sent := [Db.SelectFollowup "c1";
                       Db.UpdateFollowup (Some "2026-02-30") "c1"] |},
        server_error "Failed to update follow-up date").
Proof.
  split; [reflexivity |]. split; [intros h; reflexivity |]. split.
  - intros e db. unfold put_followup.
    change (validate (host e) (next_followup_date (staff_request (Js.JStr "2026-02-30"))))
      with (@None Response).
    cbv iota beta.
    unfold Db.select_followup.
    cbn [id staff_request].
    destruct (fails e (Db.SelectFollowup "c1")).
    + exists []. reflexivity.
    + destruct (Db.customers db !! "c1") as [c |].
      * destruct (Db.update_followup _ _ _ _) as [db2 [[| row rows] |]] eqn:E.
        all: assert (Hs : exists rest,
                       Db.sent db2
                       = (Db.sent db ++ Db.SelectFollowup "c1" :: rest)%list)
          by (unfold Db.update_followup in E;
              repeat match type of E with
                     | context [if ?b then _ else _] => destruct b
                     | context [match ?x with _ => _ end] => destruct x
                     end;
              inversion E; subst;
              cbn [Db.log Db.customers Db.customer_comments Db.sent];
              rewrite <- app_assoc; eexists; reflexivity).
        all: destruct Hs as [rest Hs].
        -- exists rest. exact Hs.
        -- destruct (differs _ _).
           ++ unfold Db.insert_comment.
              repeat match goal with
                     | |- context [if ?b then _ else _] => destruct b
                     | |- context [match ?x with _ => _ end] => destruct x
                     end;
                cbn [fst Db.log Db.customers Db.customer_comments Db.sent];
                rewrite Hs, <- app_assoc; eexists; reflexivity.
           ++ exists rest. exact Hs.
        -- exists rest. exact Hs.
      * exists []. reflexivity.
  - reflexivity.
Qed.

(** *** The previous date as the handler sees it *)

Lemma weekday_name_head (w : Z) :
  exists c r, JsDate.weekday_name w = String c r /\ Js.is_digit c = false.
Proof.
  unfold JsDate.weekday_name.
  destruct w as [| p | p]; [| do 3 (try destruct p as [p | p |]) |];
    eexists; eexists; split; reflexivity.
Qed.

(** [String(d).slice(0, 10)] of a [Date] begins with the name of a day
    of the week. *)
Lemma toString_head (h : JsDate.Host) (t : Z) :
  exists c r,
    Js.slice_to 10 (JsDate.toString h t) = String c r /\ Js.is_digit c = false.
Proof.
  unfold JsDate.toString, JsDate.DateString.
  destruct (JsDate.civil_from_days _) as [[y m] d].
  destruct (weekday_name_head (JsDate.WeekDay (JsDate.LocalTime h t)))
    as (c & r & -> & Hc).
  cbn [String.append Js.slice_to]. eauto.
Qed.

Lemma date_text_head (s : string) (ymd : Z * Z * Z) :
  Js.match_ymd s = Some ymd ->
  exists c r, s = String c r /\ Js.is_digit c = true.
Proof.
  unfold Js.match_ymd. intros H.
  do 10 (destruct s as [| ? s]; [discriminate H |]).
  destruct s; [| discriminate H].
  match type of H with
  | context [Js.is_digit ?c && Js.is_digit _ && Js.is_digit _ && Js.is_digit _
             && Ascii.eqb _ _] =>
      destruct (Js.is_digit c) eqn:E; [eauto | discriminate H]
  end.
Qed.

(** Whatever date the row holds and whatever date is asked for, the
    handler finds them different. *)
Lemma stored_date_differs_from_any_text (h : JsDate.Host)
    (dt : Db.SqlDate) (s : string) (ymd : Z * Z * Z) :
  Js.match_ymd s = Some ymd ->
  differs (previous_date h (Db.date_to_js h (Some dt))) (Some s) = true.
Proof.
  intros Hs. cbn [Db.date_to_js previous_date differs].
  destruct (toString_head h
              (JsDate.Date_local h (Db.year dt) (Db.month dt - 1) (Db.day dt)))
    as (c & r & -> & Hc).
  destruct (date_text_head s ymd Hs) as (c' & r' & -> & Hc').
  apply negb_true_iff, String.eqb_neq. intros E. inversion E; subst.
  congruence.
Qed.

(** Every update of a customer that has a date to a date, the same one
    or another, is recorded as a change of date; the previous date in
    the comment is what [formatCommentDate] makes of the day-of-week
    text. *)
Lemma date_to_date_is_always_a_change (e : Env) (req : Request)
    (db : Db.State) (c : Db.Customer) (dt new : Db.SqlDate) (s : string) :
  let h := host e in
  let prev := previous_date h (Db.date_to_js h (Some dt)) in
  let text := ("Follow-up date changed from "
               ++ interpolate (formatCommentDate h prev) ++ " to "
               ++ interpolate (formatCommentDate h (Some (Js.trim s)))
               ++ ".")%string in
  next_followup_date req = Js.JStr s ->
  Db.customers db !! id req = Some c ->
  Db.next_followup_date c = Some dt ->
  Db.date_in (Js.trim s) = Some new ->
  validate h (Js.JStr s) = None ->
  (forall q, fails e q = false) ->
  put_followup e req db
  = ({| Db.customers := <[id req := Db.set_followup (Some new) c]> (Db.customers db);
        Db.customer_comments := Db.customer_comments db ++ [(id req, text)];
        Db.sent := Db.sent db
                   ++ [Db.SelectFollowup (id req);
                       Db.UpdateFollowup (Some (Js.trim s)) (id req);
                       Db.InsertComment (id req) text] |},
     ok (Db.set_followup (Some new) c)).
Proof.
  intros h prev text Hs Hc Hdt Hnew Hval Hf.
  assert (Hymd : exists ymd, Js.match_ymd (Js.trim s) = Some ymd).
  { unfold Db.date_in in Hnew.
    destruct (Js.match_ymd (Js.trim s)); [eauto | discriminate]. }
  destruct Hymd as [ymd Hymd].
  assert (Hd : differs prev (Some (Js.trim s)) = true)
    by exact (stored_date_differs_from_any_text h dt _ ymd Hymd).
  assert (Htext : commentText h prev (Some (Js.trim s)) = text).
  { unfold commentText.
    destruct (date_text_head _ _ Hymd) as (c1 & r1 & E1 & _).
    destruct (toString_head h
                (JsDate.Date_local h (Db.year dt) (Db.month dt - 1) (Db.day dt)))
      as (c2 & r2 & E2 & _).
    unfold text, prev. cbn [Db.date_to_js previous_date].
    rewrite E1, E2. reflexivity. }
  rewrite (put_followup_run e req db c (Some new)).
  - rewrite Hs, Hdt. cbn [new_value is_nullish Js.to_String].
    fold h prev. rewrite Hd, Htext, Hf. reflexivity.
  - rewrite Hs. exact Hval.
  - exact Hc.
  - apply Hf.
  - apply Hf.
  - rewrite Hs. cbn [new_value is_nullish Js.to_String Db.date_param].
    rewrite Hnew. reflexivity.
Qed.

(** *** The rows of the table that do hold *)

Lemma formatCommentDate_of_date (h : JsDate.Host) (s : string) (y m d : Z) :
  Js.match_ymd s = Some (y, m, d) ->
  Db.real_date y m d = true -> (1 <= y)%Z ->
  at_or_east_of_utc h y m d ->
  formatCommentDate h (Some s) = Some (rendered y m d).
Proof.
  intros Hs Hreal Hy Htz. unfold formatCommentDate.
  rewrite (match_ymd_length s _ Hs). cbn [Nat.eqb].
  destruct (date_text_head s _ Hs) as (c & r & E & _).
  destruct s as [| c' s']; [discriminate E |].
  unfold JsDate.Date_parse. rewrite (parse_utc_midnight_of_date _ _ Hs).
  rewrite (real_date_v8_day y m d Hreal).
  rewrite (toLocaleDateString_of_day h y m d Hreal Hy Htz). reflexivity.
Qed.

(** No date before, none asked for: nothing is recorded. *)
Lemma null_to_null_records_nothing (e : Env) (req : Request) (db : Db.State)
    (c : Db.Customer) :
  is_nullish (next_followup_date req) = true ->
  Db.customers db !! id req = Some c ->
  Db.next_followup_date c = None ->
  (forall q, fails e q = false) ->
  Db.customer_comments (fst (put_followup e req db)) = Db.customer_comments db
  /\ status (snd (put_followup e req db)) = 200%Z.
Proof.
  intros Hn Hc Hnone Hf.
  rewrite (put_followup_run e req db c None).
  - unfold new_value. rewrite Hn, Hnone. split; reflexivity.
  - unfold validate. rewrite Hn. reflexivity.
  - exact Hc.
  - apply Hf.
  - apply Hf.
  - unfold new_value. rewrite Hn. reflexivity.
Qed.

(** A date before, none asked for: "Follow-up cleared." *)
Lemma date_to_null_is_cleared (e : Env) (req : Request) (db : Db.State)
    (c : Db.Customer) (dt : Db.SqlDate) :
  is_nullish (next_followup_date req) = true ->
  Db.customers db !! id req = Some c ->
  Db.next_followup_date c = Some dt ->
  (forall q, fails e q = false) ->
  Db.customer_comments (fst (put_followup e req db))
  = (Db.customer_comments db ++ [(id req, "Follow-up cleared.")])%list
  /\ status (snd (put_followup e req db)) = 200%Z.
Proof.
  intros Hn Hc Hdt Hf.
  rewrite (put_followup_run e req db c None).
  - unfold new_value. rewrite Hn, Hdt, Hf. split; reflexivity.
  - unfold validate. rewrite Hn. reflexivity.
  - exact Hc.
  - apply Hf.
  - apply Hf.
  - unfold new_value. rewrite Hn. reflexivity.
Qed.

(** No date before, a day of the calendar asked for, on a host at or
    east of UTC: "Follow-up scheduled for", then day, short month and
    year. *)
Lemma null_to_date_is_scheduled (e : Env) (req : Request) (db : Db.State)
    (c : Db.Customer) (s : string) (y m d : Z) :
  next_followup_date req = Js.JStr s ->
  Js.match_ymd (Js.trim s) = Some (y, m, d) ->
  Db.real_date y m d = true -> (1 <= y)%Z ->
  at_or_east_of_utc (host e) y m d ->
  Db.customers db !! id req = Some c ->
  Db.next_followup_date c = None ->
  (forall q, fails e q = false) ->
  Db.customer_comments (fst (put_followup e req db))
  = (Db.customer_comments db
     ++ [(id req, ("Follow-up scheduled for " ++ rendered y m d ++ ".")%string)])%list
  /\ status (snd (put_followup e req db)) = 200%Z.
Proof.
  intros Hs Hymd Hreal Hy Htz Hc Hnone Hf.
  assert (Hin : Db.date_in (Js.trim s)
                = Some {| Db.year := y; Db.month := m; Db.day := d |}).
  { unfold Db.date_in. rewrite Hymd, Hreal.
    destruct (Z.leb_spec 1 y); [reflexivity | lia]. }
  rewrite (put_followup_run e req db c
             (Some {| Db.year := y; Db.month := m; Db.day := d |})).
  - rewrite Hs, Hnone. cbn [new_value is_nullish Js.to_String Db.date_to_js
                              previous_date differs].
    rewrite Hf. unfold commentText.
    destruct (date_text_head _ _ Hymd) as (c1 & r1 & E1 & _).
    rewrite E1. cbn [null_or_empty]. rewrite <- E1.
    rewrite (formatCommentDate_of_date _ _ y m d Hymd Hreal Hy Htz).
    split; reflexivity.
  - rewrite Hs, validate_string, Hymd. unfold v8_day.
    rewrite (real_date_v8_day y m d Hreal). reflexivity.
  - exact Hc.
  - apply Hf.
  - apply Hf.
  - rewrite Hs. cbn [new_value is_nullish Js.to_String Db.date_param].
    rewrite Hin. reflexivity.
Qed.

(** C1 at a customer whose follow-up is 15 June 2026, on a host on
    UTC. Asked to set it to "2026-06-15" again, the handler compares
    "Mon Jun 15" with "2026-06-15", so the update counts as a change and
    a comment is added, where the table says NoChange and no entry.
    Asked to set it to "2026-07-01", the comment names no previous date:
    "changed from null to 1 Jul 2026." *)
Theorem same_date_is_recorded_as_change :
  previous_date JsDate.utc_host
    (Db.date_to_js JsDate.utc_host (Some june_15)) = Some "Mon Jun 15"
  /\ Db.customer_comments
       (fst (put_followup (sample_env JsDate.utc_host no_failure)
               (staff_request (Js.JStr "2026-07-01")) (sample_db (Some june_15))))
     = [("c1", "Follow-up date changed from null to 1 Jul 2026.")]
  /\ put_followup (sample_env JsDate.utc_host no_failure)
       (staff_request (Js.JStr "2026-06-15")) (sample_db (Some june_15))
     = ({| Db.customers := Db.customers (sample_db (Some june_15));
           Db.customer_comments :=
             [("c1", "Follow-up date changed from null to 15 Jun 2026.")];
           Db.sent :=
             [Db.SelectFollowup "c1";
              Db.UpdateFollowup (Some "2026-06-15") "c1";
              Db.InsertComment "c1"
                "Follow-up date changed from null to 15 Jun 2026."] |},
        ok (sample_customer (Some june_15))).
Proof. repeat split; reflexivity. Qed.

(** The date of a comment is printed in the zone of the host: west of
    UTC it is the day before. *)
Example scheduled_west_of_utc :
  Db.customer_comments
    (fst (put_followup (sample_env JsDate.utc_minus_5_host no_failure)
            (staff_request (Js.JStr "2026-06-15")) (sample_db None)))
  = [("c1", "Follow-up scheduled for 14 Jun 2026.")].
Proof. reflexivity. Qed.

(** The rows of the table that start from no date, and the clearing of
    a date, on a host on UTC. *)
Example table_rows_from_null :
  Db.customer_comments
    (fst (put_followup (sample_env JsDate.utc_host no_failure)
            (staff_request Js.JNull) (sample_db None))) = []
  /\ Db.customer_comments
       (fst (put_followup (sample_env JsDate.utc_host no_failure)
               (staff_request (Js.JStr "2026-06-15")) (sample_db None)))
     = [("c1", "Follow-up scheduled for 15 Jun 2026.")]
  /\ Db.customer_comments
       (fst (put_followup (sample_env JsDate.utc_host no_failure)
               (staff_request Js.JNull) (sample_db (Some june_15))))
     = [("c1", "Follow-up cleared.")].
Proof. repeat split; reflexivity. Qed.

(** C10. A string value of [next_followup_date] with white space before
    and after it is treated as the string without it: the checks give
    the same verdict, so a padded date that passes them unpadded is
    accepted; the handler returns the same store and the same response
    for both; and what it validates, compares and stores is the trimmed
    text: once the checks have passed, the customer exists and select
    and update go through, the update carries the trimmed text, the row
    is written with the date the server reads from it, the comment is
    attempted exactly when the previous text differs from it, and the
    comment names it. *)
Theorem put_followup_trims (e : Env) (req : Request) (db : Db.State)
    (l D r : string) :
  Js.all_space l = true -> Js.all_space r = true ->
  (validate (host e) (Js.JStr D) = None ->
   validate (host e) (Js.JStr (l ++ D ++ r)) = None)
  /\ put_followup e (set_body (Js.JStr (l ++ D ++ r)) req) db
     = put_followup e (set_body (Js.JStr D) req) db
  /\ forall (c : Db.Customer) (v : Db.SqlDate),
       validate (host e) (Js.JStr D) = None ->
       Db.customers db !! id req = Some c ->
       fails e (Db.SelectFollowup (id req)) = false ->
       fails e (Db.UpdateFollowup (Some (Js.trim D)) (id req)) = false ->
       Db.date_in (Js.trim D) = Some v ->
       let prev := previous_date (host e)
                     (Db.date_to_js (host e) (Db.next_followup_date c)) in
       let text := commentText (host e) prev (Some (Js.trim D)) in
       let row := Db.set_followup (Some v) c in
       let written := <[id req := row]> (Db.customers db) in
       let q1 := Db.SelectFollowup (id req) in
       let q2 := Db.UpdateFollowup (Some (Js.trim D)) (id req) in
       let q3 := Db.InsertComment (id req) text in
       put_followup e (set_body (Js.JStr (l ++ D ++ r)) req) db
       = if differs prev (Some (Js.trim D))
         then if fails e q3
              then ({| Db.customers := written;
                       Db.customer_comments := Db.customer_comments db;
                       Db.sent := (Db.sent db ++ [q1; q2; q3])%list |},
                    server_error "Failed to update follow-up date")
              else ({| Db.customers := written;
                       Db.customer_comments :=
                         (Db.customer_comments db ++ [(id req, text)])%list;
                       Db.sent := (Db.sent db ++ [q1; q2; q3])%list |},
                    ok row)
         else ({| Db.customers := written;
                  Db.customer_comments := Db.customer_comments db;
                  Db.sent := (Db.sent db ++ [q1; q2])%list |},
               ok row).
Proof.
  intros Hl Hr.
  assert (Hv : validate (host e) (Js.JStr (l ++ D ++ r))
               = validate (host e) (Js.JStr D)).
  { unfold validate. simpl. rewrite (trim_pad l D r Hl Hr). reflexivity. }
  split; [intros H; rewrite Hv; exact H |]. split.
  - unfold put_followup, new_value. cbn [next_followup_date set_body id].
    rewrite Hv. cbn [is_nullish Js.to_String].
    rewrite (trim_pad l D r Hl Hr). reflexivity.
  - intros c v Hval Hc Hf1 Hf2 Hdate prev text row written q1 q2 q3.
    assert (Hnew : new_value
                     (next_followup_date (set_body (Js.JStr (l ++ D ++ r)) req))
                   = Some (Js.trim D)).
    { unfold new_value. cbn [next_followup_date set_body is_nullish Js.to_String].
      rewrite (trim_pad l D r Hl Hr). reflexivity. }
    pose proof (put_followup_run e (set_body (Js.JStr (l ++ D ++ r)) req) db
                  c (Some v)) as Hrun.
    cbv zeta in Hrun. rewrite Hnew in Hrun.
    cbn [id next_followup_date set_body] in Hrun.
    apply Hrun.
    + rewrite Hv. exact Hval.
    + exact Hc.
    + exact Hf1.
    + exact Hf2.
    + unfold Db.date_param. rewrite Hdate. reflexivity.
Qed.

Lemma put_followup_trims_witness :
  validate JsDate.utc_host (Js.JStr "  2026-06-15 ") = None
  /\ put_followup (sample_env JsDate.utc_host no_failure)
       (set_body (Js.JStr "  2026-06-15 ") (staff_request Js.JNull))
       (sample_db None)
     = ({| Db.customers := {[ "c1" := sample_customer (Some june_15) ]};
           Db.customer_comments :=
             [("c1", "Follow-up scheduled for 15 Jun 2026.")];
           Db.sent :=
             [Db.SelectFollowup "c1";
              Db.UpdateFollowup (Some "2026-06-15") "c1";
              Db.InsertComment "c1" "Follow-up scheduled for 15 Jun 2026."] |},
        ok (sample_customer (Some june_15))).
Proof.
  pose proof (put_followup_trims (sample_env JsDate.utc_host no_failure)
                (staff_request Js.JNull) (sample_db None)
                "  " "2026-06-15" " " eq_refl eq_refl) as (Hv & _ & Hrun).
  split; [apply Hv; reflexivity |].
  refine (eq_trans (Hrun (sample_customer None) june_15
                      eq_refl eq_refl eq_refl eq_refl eq_refl) _).
  vm_compute. reflexivity.
Defined.

End FollowUp.

(** * Further properties of the guards and of the follow-up routes *)

Section MoreGuards.
Import Http Middleware Server.

(** X1. The guards are nested: an identity that [requireAdmin] lets
    through is let through by [requireStaffOrAdmin], and one that
    [requireStaffOrAdmin] lets through is let through by
    [requireCustomerSelf] whatever the customer in the path. *)
Theorem guards_are_nested (req req' : Request) :
  user req' = user req ->
  (requireAdmin req = Next req -> requireStaffOrAdmin req' = Next req')
  /\ (requireStaffOrAdmin req = Next req -> requireCustomerSelf req' = Next req').
Proof.
  intros Hu. unfold requireAdmin, requireStaffOrAdmin, requireCustomerSelf.
  rewrite Hu. destruct (user req) as [u |]; [| split; discriminate].
  destruct (Js.strict_eq (role u) (Js.JStr "admin"));
    destruct (Js.strict_eq (role u) (Js.JStr "staff"));
    simpl; split; intros H; try reflexivity; discriminate H.
Qed.

Lemma guards_are_nested_witness :
  requireCustomerSelf (staff_request (Js.JStr "2026-06-15"))
  = Next (staff_request (Js.JStr "2026-06-15")).
Proof.
  exact (proj2 (guards_are_nested (staff_request Js.JNull)
                  (staff_request (Js.JStr "2026-06-15")) eq_refl) eq_refl).
Defined.

(** X2. A guard placed in a route without [authenticate] before it
    does not deny: reading [req.user.role] throws, the route answers
    500 through the error handler, and no later step runs. *)
Theorem guard_without_identity_throws (nm : string) (g : Request -> Outcome)
    (req : Request) (db : Db.State) (rest : list Step) :
  In (nm, g) guards ->
  user req = None ->
  g req = Throw
  /\ run (pure_step nm g :: rest) req db
     = (db, {| status := 500; body := Unhandled |}, [nm]).
Proof.
  intros Hin Hu.
  assert (Hg : g req = Throw).
  { simpl in Hin. destruct Hin as [E | [E | [E | []]]]; inversion E; subst.
    - unfold requireAdmin. rewrite Hu. reflexivity.
    - unfold requireStaffOrAdmin. rewrite Hu. reflexivity.
    - unfold requireCustomerSelf. rewrite Hu. reflexivity. }
  split; [exact Hg |]. simpl. rewrite Hg. reflexivity.
Qed.

Lemma guard_without_identity_throws_witness :
  run [requireAdmin_step;
       handler "put_followup"
         (put_followup (sample_env JsDate.utc_host no_failure))]
      (bare_request None) (sample_db None)
  = (sample_db None, {| status := 500; body := Unhandled |}, ["requireAdmin"]).
Proof.
  exact (proj2 (guard_without_identity_throws "requireAdmin" requireAdmin
                  (bare_request None) (sample_db None)
                  [handler "put_followup"
                     (put_followup (sample_env JsDate.utc_host no_failure))]
                  (or_introl eq_refl) eq_refl)).
Defined.

(** X3. When [authenticate] calls [next()], the identity it attached
    has a customer id that is a value or [null], never [undefined];
    the rest of the request is as it came; and the identity depends on
    the header alone: any request with the same [Authorization] header
    gets the same one, whatever [req.user] held before. *)
Theorem authenticate_attaches_identity (k : Jwt.Codec) (secret : option string)
    (now_ms : Z) (req req' : Request) :
  authenticate k secret now_ms req = Next req' ->
  exists u,
    req' = set_user u req
    /\ customerId u <> Js.JUndefined
    /\ forall req2,
         authorization req2 = authorization req ->
         authenticate k secret now_ms req2 = Next (set_user u req2).
Proof.
  unfold authenticate. intros H.
  destruct (authorization req) as [h |] eqn:Eh; [| discriminate H].
  destruct (String.eqb h "" || negb (Js.startsWith h "Bearer ")) eqn:Es;
    [discriminate H |].
  destruct (Tokens.verifyAccessToken k secret (Js.slice_from 7 h) now_ms)
    as [err | payload] eqn:Ev; [discriminate H |].
  inversion H; subst req'; clear H.
  eexists. split; [reflexivity |]. split.
  - cbn [customerId]. destruct (Jwt.customerId payload); discriminate.
  - intros req2 E2. rewrite E2, Es, Ev. reflexivity.
Qed.

Lemma authenticate_attaches_identity_witness :
  exists u,
    customerId u <> Js.JUndefined
    /\ authenticate ReferenceCodec.codec (Some "k") 2000
         (with_bearer staff_token (staff_request Js.JNull))
       = Next (set_user u (with_bearer staff_token (staff_request Js.JNull))).
Proof.
  destruct (authenticate_attaches_identity ReferenceCodec.codec (Some "k") 2000
              (with_bearer staff_token (bare_request None))
              (set_user (identity_of staff_payload)
                 (with_bearer staff_token (bare_request None))))
    as (u & _ & Hu & Hall).
  - vm_compute. reflexivity.
  - exists u. split; [exact Hu |]. apply Hall. reflexivity.
Defined.

Lemma authenticate_cases (e : Env) (req : Request) :
  (exists payload,
      token_verified e req payload
      /\ authenticate (codec e) (JWT_SECRET e) (now_ms e) req
         = Next (set_user (identity_of_claims payload) req))
  \/ (exists res,
        authenticate (codec e) (JWT_SECRET e) (now_ms e) req = Send res
        /\ status res = 401%Z).
Proof.
  unfold token_verified, authenticate, bearer_shape, bearer_token.
  destruct (authorization req) as [h |].
  - destruct (Js.startsWith h "Bearer ") eqn:Hp.
    + rewrite (startsWith_not_empty h "Bearer ") by (congruence || exact Hp).
      cbn [negb orb].
      destruct (Tokens.verifyAccessToken _ _ _ _) as [err | payload].
      * right. eexists. split; reflexivity.
      * left. exists payload. repeat split.
    + rewrite orb_true_r. right. eexists. split; reflexivity.
  - right. eexists. split; reflexivity.
Qed.

Lemma authenticate_verified (e : Env) (req : Request) (payload : Jwt.Claims) :
  token_verified e req payload ->
  authenticate (codec e) (JWT_SECRET e) (now_ms e) req
  = Next (set_user (identity_of_claims payload) req).
Proof.
  unfold token_verified, authenticate, bearer_shape, bearer_token.
  intros [Hshape Hv]. destruct (authorization req) as [h |]; [| discriminate].
  rewrite (startsWith_not_empty h "Bearer ") by (congruence || exact Hshape).
  rewrite Hshape, Hv. reflexivity.
Qed.

(** X4. A customer token whose payload carries no customer id
    ([null] or absent) opens no customer: on a route guarded by
    [requireCustomerSelf] it is answered 403 whatever the id in the
    path, and the handler does not run. *)
Theorem customer_without_customer_id_is_denied (e : Env) (req : Request)
    (db : Db.State) (payload : Jwt.Claims) (nm : string)
    (f : Request -> Db.State -> Db.State * Response) :
  token_verified e req payload ->
  Jwt.role payload = Js.JStr "customer" ->
  is_nullish (Jwt.customerId payload) = true ->
  run [authenticate_step e; requireCustomerSelf_step; handler nm f] req db
  = (db,
     {| status := 403; body := ErrorBody "Access denied to this customer" |},
     ["authenticate"; "requireCustomerSelf"]).
Proof.
  intros Hv Hrole Hcid.
  cbn [run authenticate_step requireCustomerSelf_step pure_step handler].
  rewrite (authenticate_verified e req payload Hv).
  unfold requireCustomerSelf, identity_of_claims.
  cbn [user set_user role customerId id].
  rewrite Hrole. cbn [Js.strict_eq Js.value_eqb String.eqb orb].
  destruct (Jwt.customerId payload); try discriminate Hcid; reflexivity.
Qed.

Lemma customer_without_customer_id_is_denied_witness :
  run [authenticate_step (sample_env JsDate.utc_host no_failure);
       requireCustomerSelf_step;
       handler "put_followup"
         (put_followup (sample_env JsDate.utc_host no_failure))]
      (with_bearer orphan_customer_token (bare_request None)) (sample_db None)
  = (sample_db None,
     {| status := 403; body := ErrorBody "Access denied to this customer" |},
     ["authenticate"; "requireCustomerSelf"]).
Proof.
  refine (customer_without_customer_id_is_denied
            (sample_env JsDate.utc_host no_failure)
            (with_bearer orphan_customer_token (bare_request None))
            (sample_db None)
            {| Jwt.userId := Js.JStr "u3"; Jwt.role := Js.JStr "customer";
               Jwt.customerId := Js.JNull; Jwt.iat := 1;
               Jwt.exp := Some 604801%Z |}
            "put_followup"
            (put_followup (sample_env JsDate.utc_host no_failure)) _ eq_refl eq_refl).
  split; vm_compute; reflexivity.
Defined.

Lemma staff_route_cases (e : Env) (nm : string)
    (f : Request -> Db.State -> Db.State * Response) :
  reached_only_by_staff e
    [authenticate_step e; requireStaffOrAdmin_step; handler nm f] nm f.
Proof.
  intros req db.
  cbn [run authenticate_step requireStaffOrAdmin_step pure_step handler].
  destruct (authenticate_cases e req) as [(payload & Hv & Ha) | (res & Ha & Hs)];
    rewrite Ha.
  - unfold requireStaffOrAdmin. cbn [user set_user].
    change (role (identity_of_claims payload)) with (Jwt.role payload).
    destruct (Js.strict_eq (Jwt.role payload) (Js.JStr "admin")) eqn:Eadmin;
      [| destruct (Js.strict_eq (Jwt.role payload) (Js.JStr "staff")) eqn:Estaff];
      cbn [negb andb].
    + left. exists payload. split; [exact Hv |]. split.
      * left. apply strict_eq_true. exact Eadmin.
      * destruct (f _ db). reflexivity.
    + left. exists payload. split; [exact Hv |]. split.
      * right. apply strict_eq_true. exact Estaff.
      * destruct (f _ db). reflexivity.
    + right. eexists. eexists. split; [reflexivity |]. split.
      * right. reflexivity.
      * right. reflexivity.
  - right. exists res, ["authenticate"]. split; [reflexivity |]. split.
    + left. exact Hs.
    + left. reflexivity.
Qed.

(** X5. The two follow-up routes change nothing for a caller without a
    verified admin or staff token: every request either reaches the
    handler with the identity of such a token, or is answered 401 or
    403 by [authenticate] or [requireStaffOrAdmin] with the store
    untouched and the handler not run. *)
Theorem followup_routes_reached_only_by_staff (e : Env) :
  reached_only_by_staff e (route_put_followup e) "put_followup" (put_followup e)
  /\ reached_only_by_staff e (route_post_followup_done e) "post_followup_done"
       (post_followup_done e).
Proof. split; apply staff_route_cases. Qed.

End MoreGuards.

Section MoreFollowUp.
Import Http Server.



(** X7. A body whose [next_followup_date] is [null] or absent clears
    the date: the row is written with no date, and the comment
    "Follow-up cleared." is added exactly when the row had one. *)
Theorem put_followup_clears (e : Env) (req : Request) (db : Db.State)
    (c : Db.Customer) :
  is_nullish (next_followup_date req) = true ->
  Db.customers db !! id req = Some c ->
  (forall q, fails e q = false) ->
  let had_date := match Db.next_followup_date c with
                  | Some _ => true
                  | None => false
                  end in
  put_followup e req db
  = ({| Db.customers :=
          <[id req := Db.set_followup None c]> (Db.customers db);
        Db.customer_comments :=
          Db.customer_comments db
          ++ (if had_date then [(id req, "Follow-up cleared.")] else []);
        Db.sent :=
          Db.sent db
          ++ [Db.SelectFollowup (id req); Db.UpdateFollowup None (id req)]
          ++ (if had_date
              then [Db.InsertComment (id req) "Follow-up cleared."]
              else []) |},
     {| status := 200; body := CustomerBody (Db.set_followup None c) |}).
Proof.
  intros Hn Hc Hf had_date.
  rewrite (put_followup_run e req db c None).
  - unfold new_value. rewrite Hn. subst had_date.
    destruct (Db.next_followup_date c) as [dt |].
    + cbn [Db.date_to_js previous_date differs commentText null_or_empty].
      rewrite Hf. reflexivity.
    + cbn [Db.date_to_js previous_date differs]. rewrite app_nil_r.
      reflexivity.
  - unfold validate. rewrite Hn. reflexivity.
  - exact Hc.
  - apply Hf.
  - apply Hf.
  - unfold new_value. rewrite Hn. reflexivity.
Qed.

Lemma put_followup_clears_witness :
  Db.customer_comments
    (fst (put_followup (sample_env JsDate.utc_host no_failure)
            (staff_request Js.JUndefined) (sample_db (Some june_15))))
  = [("c1", "Follow-up cleared.")].
Proof.
  rewrite (put_followup_clears (sample_env JsDate.utc_host no_failure)
             (staff_request Js.JUndefined) (sample_db (Some june_15))
             (sample_customer (Some june_15)) eq_refl eq_refl
             (fun _ => eq_refl)).
  reflexivity.
Defined.

(** X8. A first date, on a host at or east of UTC: for a customer
    without a date and a text that, trimmed, is a day of the calendar,
    the date is written and the comment "Follow-up scheduled for",
    followed by the day of month, the short month name and the year,
    is added. *)
Theorem put_followup_schedules (e : Env) (req : Request) (db : Db.State)
    (c : Db.Customer) (s : string) (y m d : Z) :
  next_followup_date req = Js.JStr s ->
  Js.match_ymd (Js.trim s) = Some (y, m, d) ->
  Db.real_date y m d = true -> (1 <= y)%Z ->
  at_or_east_of_utc (host e) y m d ->
  Db.customers db !! id req = Some c ->
  Db.next_followup_date c = None ->
  (forall q, fails e q = false) ->
  let dt := {| Db.year := y; Db.month := m; Db.day := d |} in
  let text := ("Follow-up scheduled for " ++ rendered y m d ++ ".")%string in
  put_followup e req db
  = ({| Db.customers :=
          <[id req := Db.set_followup (Some dt) c]> (Db.customers db);
        Db.customer_comments := Db.customer_comments db ++ [(id req, text)];
        Db.sent :=
          Db.sent db
          ++ [Db.SelectFollowup (id req);
              Db.UpdateFollowup (Some (Js.trim s)) (id req);
              Db.InsertComment (id req) text] |},
     {| status := 200; body := CustomerBody (Db.set_followup (Some dt) c) |}).
Proof.
  intros Hs Hymd Hreal Hy Htz Hc Hnone Hf dt text.
  assert (Hin : Db.date_in (Js.trim s) = Some dt).
  { unfold Db.date_in. rewrite Hymd, Hreal.
    destruct (Z.leb_spec 1 y); [reflexivity | lia]. }
  rewrite (put_followup_run e req db c (Some dt)).
  - rewrite Hs, Hnone.
    cbn [new_value is_nullish Js.to_String Db.date_to_js previous_date differs].
    assert (Ht : commentText (host e) None (Some (Js.trim s)) = text).
    { unfold commentText.
      destruct (date_text_head _ _ Hymd) as (c1 & r1 & E1 & _).
      rewrite E1. cbn [null_or_empty]. rewrite <- E1.
      rewrite (formatCommentDate_of_date _ _ y m d Hymd Hreal Hy Htz).
      reflexivity. }
    rewrite Ht, Hf. reflexivity.
  - rewrite Hs, validate_string, Hymd. unfold v8_day.
    rewrite (real_date_v8_day y m d Hreal). reflexivity.
  - exact Hc.
  - apply Hf.
  - apply Hf.
  - rewrite Hs. cbn [new_value is_nullish Js.to_String Db.date_param].
    rewrite Hin. reflexivity.
Qed.

Lemma put_followup_schedules_witness :
  Db.customer_comments
    (fst (put_followup (sample_env JsDate.utc_host no_failure)
            (staff_request (Js.JStr " 2026-07-01")) (sample_db None)))
  = [("c1", "Follow-up scheduled for 1 Jul 2026.")].
Proof.
  rewrite (put_followup_schedules (sample_env JsDate.utc_host no_failure)
             (staff_request (Js.JStr " 2026-07-01")) (sample_db None)
             (sample_customer None) " 2026-07-01" 2026 7 1
             eq_refl eq_refl eq_refl ltac:(lia)
             ltac:(vm_compute; split; [discriminate | reflexivity])
             eq_refl eq_refl (fun _ => eq_refl)).
  reflexivity.
Defined.

End MoreFollowUp.

(** ** What reaches the store through the checks *)

Section Checks.
Import Http Server.

Lemma digits_of_uint (u : Decimal.uint) :
  all_digits (DecimalString.NilEmpty.string_of_uint u) = true.
Proof. induction u; simpl; try rewrite IHu; reflexivity. Qed.

Lemma digits_of_uint_nil_zero (u : Decimal.uint) :
  all_digits (DecimalString.NilZero.string_of_uint u) = true.
Proof.
  unfold DecimalString.NilZero.string_of_uint.
  destruct u; try reflexivity; apply (digits_of_uint (_ u)).
Qed.

Lemma digit_is_no_space (c : ascii) :
  Js.is_digit c = true -> Js.is_space c = false.
Proof.
  destruct c as [[] [] [] [] [] [] [] []]; vm_compute; congruence.
Qed.

Lemma digit_is_no_hyphen (c : ascii) :
  Js.is_digit c = true -> Ascii.eqb c "-" = false.
Proof.
  destruct c as [[] [] [] [] [] [] [] []]; vm_compute; congruence.
Qed.

Lemma trimEnd_digits (s : string) :
  all_digits s = true -> Js.trimEnd s = s.
Proof.
  induction s as [| c s IH]; simpl; intros H; [reflexivity |].
  apply andb_true_iff in H as [Hc Hs]. rewrite (IH Hs).
  destruct s; [rewrite (digit_is_no_space c Hc) |]; reflexivity.
Qed.

Lemma trim_digits (s : string) : all_digits s = true -> Js.trim s = s.
Proof.
  intros H. unfold Js.trim.
  destruct s as [| c s]; [reflexivity |].
  pose proof H as H'. simpl in H'. apply andb_true_iff in H' as [Hc _].
  cbn [Js.trimStart]. rewrite (digit_is_no_space c Hc).
  exact (trimEnd_digits _ H).
Qed.

Lemma match_ymd_digits (s : string) :
  all_digits s = true -> Js.match_ymd s = None.
Proof.
  intros H. unfold Js.match_ymd.
  do 10 (destruct s as [| ? s]; [reflexivity |]).
  destruct s; [| reflexivity].
  simpl in H. rewrite !andb_true_iff in H.
  destruct H as (_ & _ & _ & _ & H5 & _).
  rewrite (digit_is_no_hyphen _ H5), !andb_false_r. reflexivity.
Qed.

Lemma match_ymd_minus (r : string) : Js.match_ymd (String "-" r) = None.
Proof.
  unfold Js.match_ymd.
  do 9 (destruct r as [| ? r]; [reflexivity |]).
  destruct r; reflexivity.
Qed.

(** The decimal text of an integer never has the shape of a date. *)
Lemma dec_is_no_date (n : Z) : Js.test_date_re (Js.trim (Js.dec n)) = false.
Proof.
  unfold Js.test_date_re, Js.dec, DecimalString.NilZero.string_of_int.
  destruct (Z.to_int n) as [u | u].
  - rewrite (trim_digits _ (digits_of_uint_nil_zero u)).
    rewrite (match_ymd_digits _ (digits_of_uint_nil_zero u)). reflexivity.
  - unfold Js.trim. cbn [Js.trimStart].
    change (Js.is_space "-") with false. cbv iota.
    assert (E : Js.trimEnd (String "-" (DecimalString.NilZero.string_of_uint u))
                = String "-" (DecimalString.NilZero.string_of_uint u)).
    { cbn [Js.trimEnd].
      rewrite (trimEnd_digits _ (digits_of_uint_nil_zero u)).
      destruct (DecimalString.NilZero.string_of_uint u); reflexivity. }
    rewrite E, match_ymd_minus. reflexivity.
Qed.

(** X9. A whole number or a boolean in [next_followup_date] never
    reaches the store: its text has not the shape [YYYY-MM-DD], so the
    update handler answers 400 "next_followup_date must be YYYY-MM-DD
    or null" and sends no statement. *)
Theorem numbers_and_booleans_are_rejected (e : Env) (req : Request)
    (db : Db.State) :
  (exists n, next_followup_date req = Js.JNum n)
  \/ (exists b, next_followup_date req = Js.JBool b) ->
  put_followup e req db
  = (db, {| status := 400;
            body := ErrorBody
                      "next_followup_date must be YYYY-MM-DD or null" |}).
Proof.
  intros H.
  assert (Hbad : validate (host e) (next_followup_date req)
                 = Some {| status := 400;
                           body := ErrorBody
                                     "next_followup_date must be YYYY-MM-DD or null" |}).
  { destruct H as [[n ->] | [b ->]]; unfold validate;
      cbn [is_nullish Js.to_String].
    - rewrite dec_is_no_date. reflexivity.
    - destruct b; reflexivity. }
  unfold put_followup. rewrite Hbad. reflexivity.
Qed.

Lemma numbers_and_booleans_are_rejected_witness :
  put_followup (sample_env JsDate.utc_host no_failure)
    (staff_request (Js.JNum 20260615)) (sample_db None)
  = (sample_db None,
     {| status := 400;
        body := ErrorBody "next_followup_date must be YYYY-MM-DD or null" |}).
Proof.
  apply (numbers_and_booleans_are_rejected
           (sample_env JsDate.utc_host no_failure)
           (staff_request (Js.JNum 20260615)) (sample_db None)).
  left. exists 20260615%Z. reflexivity.
Defined.

(** X10. A string that, trimmed, has not the shape [YYYY-MM-DD] is
    answered 400 "next_followup_date must be YYYY-MM-DD or null"; one
    of that shape whose month is not 01..12 or whose day is not 01..31
    is answered 400 "next_followup_date is not a valid date"; in both
    cases the store is untouched and no statement is sent. *)
Theorem put_followup_rejects_malformed (e : Env) (req : Request)
    (db : Db.State) (s : string) :
  next_followup_date req = Js.JStr s ->
  (Js.match_ymd (Js.trim s) = None ->
   put_followup e req db
   = (db, {| status := 400;
             body := ErrorBody
                       "next_followup_date must be YYYY-MM-DD or null" |}))
  /\ (forall y m d,
        Js.match_ymd (Js.trim s) = Some (y, m, d) ->
        (m < 1 \/ 12 < m \/ d < 1 \/ 31 < d)%Z ->
        put_followup e req db
        = (db, {| status := 400;
                  body := ErrorBody "next_followup_date is not a valid date" |})).
Proof.
  intros Hs. split.
  - intros Hm. unfold put_followup. rewrite Hs, validate_string, Hm.
    reflexivity.
  - intros y m d Hm Hr. unfold put_followup.
    rewrite Hs, validate_string, Hm.
    assert (Hv : v8_day m d = false).
    { unfold v8_day. rewrite !andb_false_iff, !Z.leb_gt. lia. }
    rewrite Hv. reflexivity.
Qed.

Lemma put_followup_rejects_malformed_witness :
  put_followup (sample_env JsDate.utc_host no_failure)
    (staff_request (Js.JStr "2026-6-15")) (sample_db None)
  = (sample_db None,
     {| status := 400;
        body := ErrorBody "next_followup_date must be YYYY-MM-DD or null" |})
  /\ put_followup (sample_env JsDate.utc_host no_failure)
       (staff_request (Js.JStr "2026-00-10")) (sample_db None)
     = (sample_db None,
        {| status := 400;
           body := ErrorBody "next_followup_date is not a valid date" |}).
Proof.
  split.
  - apply (proj1 (put_followup_rejects_malformed
                    (sample_env JsDate.utc_host no_failure)
                    (staff_request (Js.JStr "2026-6-15")) (sample_db None)
                    "2026-6-15" eq_refl)).
    reflexivity.
  - apply (proj2 (put_followup_rejects_malformed
                    (sample_env JsDate.utc_host no_failure)
                    (staff_request (Js.JStr "2026-00-10")) (sample_db None)
                    "2026-00-10" eq_refl) 2026 0 10)%Z; [reflexivity | lia].
Defined.

(** X11. [formatCommentDate] answers [null] for [null], for the empty
    string and for a text of the shape [YYYY-MM-DD] whose month is not
    01..12 or whose day is not 01..31; for a day of the calendar, on a
    host at or east of UTC, it answers the day of month without
    leading zero, the short month name and the year, as in
    "15 Jun 2026". *)
Theorem formatCommentDate_cases (h : JsDate.Host) :
  formatCommentDate h None = None
  /\ formatCommentDate h (Some "") = None
  /\ (forall s y m d,
        Js.match_ymd s = Some (y, m, d) ->
        v8_day m d = false ->
        formatCommentDate h (Some s) = None)
  /\ (forall s y m d,
        Js.match_ymd s = Some (y, m, d) ->
        Db.real_date y m d = true -> (1 <= y)%Z ->
        at_or_east_of_utc h y m d ->
        formatCommentDate h (Some s) = Some (rendered y m d)).
Proof.
  split; [reflexivity |]. split; [reflexivity |]. split.
  - intros s y m d Hs Hv. unfold formatCommentDate.
    rewrite (match_ymd_length s _ Hs). cbn [Nat.eqb].
    destruct (date_text_head s _ Hs) as (c & r & E & _).
    destruct s as [| c' s']; [discriminate E |].
    unfold JsDate.Date_parse. rewrite (parse_utc_midnight_of_date _ _ Hs).
    unfold v8_day in Hv. rewrite Hv. reflexivity.
  - intros s y m d. apply formatCommentDate_of_date.
Qed.

End Checks.

(** ** What the follow-up handlers leave intact *)

Section Frame.
Import Http Server.

Ltac untouched := split; left; reflexivity.
Ltac date_written :=
  right; eexists; eexists; split; [eassumption || reflexivity | reflexivity].

Lemma put_followup_touches_only (e : Env) (req : Request) (db : Db.State) :
  touches_only (id req) db (fst (put_followup e req db)).
Proof.
  unfold touches_only, put_followup.
  destruct (validate _ _); [untouched |].
  unfold Db.select_followup.
  destruct (fails e (Db.SelectFollowup (id req))); [untouched |].
  destruct (Db.customers db !! id req) as [c |] eqn:Hc; [| untouched].
  unfold Db.update_followup.
  destruct (fails e (Db.UpdateFollowup _ _)); [untouched |].
  destruct (Db.date_param _) as [v |]; [| untouched].
  cbn [Db.log Db.customers Db.customer_comments Db.sent]. rewrite Hc.
  destruct (differs _ _).
  - unfold Db.insert_comment, Db.log.
    cbn [Db.customers Db.customer_comments Db.sent].
    destruct (fails e (Db.InsertComment _ _)).
    + cbn [fst Db.customers Db.customer_comments].
      split; [left; reflexivity | date_written].
    + rewrite lookup_insert_eq. cbn [fst Db.customers Db.customer_comments].
      split; [right; eauto | date_written].
  - cbn [fst Db.customers Db.customer_comments].
    split; [left; reflexivity | date_written].
Qed.

Lemma post_followup_done_touches_only (e : Env) (req : Request)
    (db : Db.State) :
  touches_only (id req) db (fst (post_followup_done e req db)).
Proof.
  unfold touches_only, post_followup_done, Db.update_followup_null.
  destruct (fails e (Db.UpdateFollowupNull (id req))); [untouched |].
  destruct (Db.customers db !! id req) as [c |] eqn:Hc; [| untouched].
  unfold Db.insert_comment, Db.log.
  cbn [Db.customers Db.customer_comments Db.sent].
  destruct (fails e (Db.InsertComment _ _)).
  - cbn [fst Db.customers Db.customer_comments].
    split; [left; reflexivity | date_written].
  - rewrite lookup_insert_eq. cbn [fst Db.customers Db.customer_comments].
    split; [right; eauto | date_written].
Qed.

(** X12. The comments are append-only under both follow-up handlers:
    whatever the request, the store and the failures, the comments
    after are the comments before, followed by at most one new comment
    of the customer in the path. *)
Theorem followup_handlers_only_append (e : Env) (req : Request)
    (db : Db.State) :
  (exists extra,
      Db.customer_comments (fst (put_followup e req db))
      = (Db.customer_comments db ++ extra)%list
      /\ (extra = [] \/ exists t, extra = [(id req, t)]))
  /\ (exists extra,
        Db.customer_comments (fst (post_followup_done e req db))
        = (Db.customer_comments db ++ extra)%list
        /\ (extra = [] \/ exists t, extra = [(id req, t)])).
Proof.
  split.
  - destruct (put_followup_touches_only e req db) as [[H | [t H]] _].
    + exists []. rewrite app_nil_r. auto.
    + exists [(id req, t)]. eauto.
  - destruct (post_followup_done_touches_only e req db) as [[H | [t H]] _].
    + exists []. rewrite app_nil_r. auto.
    + exists [(id req, t)]. eauto.
Qed.




Lemma post_followup_done_ok (e : Env) (req : Request) (db : Db.State)
    (c : Db.Customer) :
  Db.customers db !! id req = Some c ->
  (forall q, fails e q = false) ->
  post_followup_done e req db
  = ({| Db.customers := <[id req := Db.set_followup None c]> (Db.customers db);
        Db.customer_comments :=
          Db.customer_comments db ++ [(id req, "Follow-up marked as done.")];
        Db.sent := Db.sent db
                   ++ [Db.UpdateFollowupNull (id req);
                       Db.InsertComment (id req) "Follow-up marked as done."] |},
     ok (Db.set_followup None c)).
Proof.
  intros Hc Hf. unfold post_followup_done, Db.update_followup_null.
  rewrite Hf, Hc. unfold Db.insert_comment. rewrite Hf.
  cbn [Db.log Db.customers Db.customer_comments Db.sent].
  rewrite lookup_insert_eq. unfold Db.log.
  cbn [Db.customers Db.customer_comments Db.sent].
  rewrite <- app_assoc. reflexivity.
Qed.

(** X15. Marking done and then clearing: after a follow-up was marked
    done, an update to [null] (or without the field) finds no date to
    clear, so of the two requests only the first leaves a comment, and
    the date is [NULL] at the end. *)
Theorem done_then_clear_records_once (e : Env) (req : Request)
    (db : Db.State) (c : Db.Customer) :
  Db.customers db !! id req = Some c ->
  (forall q, fails e q = false) ->
  is_nullish (next_followup_date req) = true ->
  let after := fst (put_followup e req (fst (post_followup_done e req db))) in
  Db.customer_comments after
  = (Db.customer_comments db ++ [(id req, "Follow-up marked as done.")])%list
  /\ Db.customers after !! id req = Some (Db.set_followup None c).
Proof.
  intros Hc Hf Hn after. subst after.
  rewrite (post_followup_done_ok e req db c Hc Hf). cbn [fst].
  rewrite (put_followup_run e req _ (Db.set_followup None c) None).
  - unfold new_value. rewrite Hn.
    cbn [Db.set_followup Db.next_followup_date Db.date_to_js previous_date
           differs fst Db.customers Db.customer_comments].
    split; [reflexivity |]. apply lookup_insert_eq.
  - unfold validate. rewrite Hn. reflexivity.
  - cbn [Db.customers]. apply lookup_insert_eq.
  - apply Hf.
  - apply Hf.
  - unfold new_value. rewrite Hn. reflexivity.
Qed.

Lemma done_then_clear_records_once_witness :
  Db.customer_comments
    (fst (put_followup (sample_env JsDate.utc_host no_failure)
            (staff_request Js.JNull)
            (fst (post_followup_done (sample_env JsDate.utc_host no_failure)
                    (staff_request Js.JNull) (sample_db (Some june_15))))))
  = [("c1", "Follow-up marked as done.")].
Proof.
  exact (proj1 (done_then_clear_records_once
                  (sample_env JsDate.utc_host no_failure)
                  (staff_request Js.JNull) (sample_db (Some june_15))
                  (sample_customer (Some june_15)) eq_refl
                  (fun _ => eq_refl) eq_refl)).
Defined.

(** The row in a 200 answer of the update handler is the row of the
    customer as it stands in the store after the request, and its date
    is the date the server read from the trimmed text. *)
Lemma put_followup_ok_row (e : Env) (req : Request)
    (db db' : Db.State) (res : Response) :
  put_followup e req db = (db', res) ->
  status res = 200%Z ->
  exists row,
    body res = CustomerBody row
    /\ Db.customers db' !! id req = Some row
    /\ Db.date_param (new_value (next_followup_date req))
       = Some (Db.next_followup_date row).
Proof.
  unfold put_followup.
  destruct (validate _ _) as [r |] eqn:Hv.
  { destruct (put_followup_rejected e req db r Hv) as [_ H400].
    intros H Hs. inversion H; subst. rewrite H400 in Hs. discriminate Hs. }
  unfold Db.select_followup.
  destruct (fails e (Db.SelectFollowup (id req)));
    [intros H Hs; inversion H; subst; discriminate Hs |].
  destruct (Db.customers db !! id req) as [c |] eqn:Hc;
    [| intros H Hs; inversion H; subst; discriminate Hs].
  unfold Db.update_followup.
  destruct (fails e (Db.UpdateFollowup _ _));
    [intros H Hs; inversion H; subst; discriminate Hs |].
  destruct (Db.date_param _) as [v |] eqn:Hp;
    [| intros H Hs; inversion H; subst; discriminate Hs].
  cbn [Db.log Db.customers Db.customer_comments Db.sent]. rewrite Hc.
  destruct (differs _ _).
  - unfold Db.insert_comment, Db.log.
    cbn [Db.customers Db.customer_comments Db.sent].
    destruct (fails e (Db.InsertComment _ _));
      [intros H Hs; inversion H; subst; discriminate Hs |].
    rewrite lookup_insert_eq. intros H _. inversion H; subst.
    exists (Db.set_followup v c). cbn [body ok Db.customers].
    rewrite lookup_insert_eq. repeat split.
  - intros H _. inversion H; subst.
    exists (Db.set_followup v c). cbn [body ok Db.customers].
    rewrite lookup_insert_eq. repeat split.
Qed.

Lemma date_in_real (s : string) (dt : Db.SqlDate) :
  Db.date_in s = Some dt ->
  Db.real_date (Db.year dt) (Db.month dt) (Db.day dt) = true.
Proof.
  unfold Db.date_in. destruct (Js.match_ymd s) as [[[y m] d] |]; [| discriminate].
  destruct ((1 <=? y)%Z && Db.real_date y m d) eqn:E; [| discriminate].
  intros H. inversion H; subst. cbn [Db.year Db.month Db.day].
  apply andb_true_iff in E as [_ E]. exact E.
Qed.

(** Midnight UTC of a day prints as that day at [T00:00:00.000Z]. *)
Lemma toISOString_of_midnight (y m d : Z) :
  Db.real_date y m d = true ->
  Json.toISOString (JsDate.MakeDay y (m - 1) d * JsDate.msPerDay)
  = Json.iso_date y m d ++ "T00:00:00.000Z".
Proof.
  intros Hreal.
  assert (Hm : (1 <= m <= 12)%Z).
  { pose proof (real_date_v8_day y m d Hreal) as Hv.
    apply andb_true_iff in Hv as [Hv _]. apply andb_true_iff in Hv as [Hv _].
    apply andb_true_iff in Hv as [H1 H2]. lia. }
  rewrite (MakeDay_of_month y m d Hm).
  set (D := JsDate.days_from_civil y m d).
  unfold Json.toISOString, Json.iso_day.
  replace (JsDate.Day (D * JsDate.msPerDay)) with D
    by (unfold JsDate.Day, JsDate.msPerDay; Z.div_mod_to_equations; lia).
  unfold D. rewrite (civil_from_days_from_civil y m d Hreal). fold D.
  replace (JsDate.HourFromTime (D * JsDate.msPerDay)) with 0%Z
    by (unfold JsDate.HourFromTime, JsDate.msPerDay;
        Z.div_mod_to_equations; lia).
  replace (JsDate.MinFromTime (D * JsDate.msPerDay)) with 0%Z
    by (unfold JsDate.MinFromTime, JsDate.msPerDay;
        Z.div_mod_to_equations; lia).
  replace (JsDate.SecFromTime (D * JsDate.msPerDay)) with 0%Z
    by (unfold JsDate.SecFromTime, JsDate.msPerDay;
        Z.div_mod_to_equations; lia).
  replace ((D * JsDate.msPerDay) mod 1000)%Z with 0%Z
    by (unfold JsDate.msPerDay; Z.div_mod_to_equations; lia).
  reflexivity.
Qed.

(** X16. What the update handler answers with 200. The row handed to
    [res.json] is the customer as stored after the request, with the
    date the server read from the trimmed text. On the wire that date
    is the ISO timestamp of local midnight of the stored day: [null]
    for no date; the stored day at [T00:00:00.000Z] on a host whose
    local time is UTC; and on a host east of UTC a timestamp that
    names the day before the stored one. *)
Theorem put_followup_answers_local_midnight (e : Env) (req : Request)
    (db db' : Db.State) (res : Response) :
  put_followup e req db = (db', res) ->
  status res = 200%Z ->
  exists row,
    body res = CustomerBody row
    /\ Db.customers db' !! id req = Some row
    /\ Db.date_param (new_value (next_followup_date req))
       = Some (Db.next_followup_date row)
    /\ match Db.next_followup_date row with
       | None => Json.followup_date (host e) row = None
       | Some dt =>
           let D := JsDate.MakeDay (Db.year dt) (Db.month dt - 1) (Db.day dt) in
           let off := JsDate.LocalTZA (host e) (D * JsDate.msPerDay) false in
           (off = 0%Z ->
            Json.followup_date (host e) row
            = Some (Json.iso_date (Db.year dt) (Db.month dt) (Db.day dt)
                      ++ "T00:00:00.000Z"))
           /\ ((0 < off <= JsDate.msPerDay)%Z ->
               exists rest,
                 Json.followup_date (host e) row
                 = Some (Json.iso_day (D - 1) ++ rest))
       end.
Proof.
  intros Hrun Hstatus.
  destruct (put_followup_ok_row e req db db' res Hrun Hstatus)
    as (row & Hbody & Hrow & Hdate).
  exists row. split; [exact Hbody |]. split; [exact Hrow |].
  split; [exact Hdate |].
  unfold Json.followup_date.
  destruct (Db.next_followup_date row) as [dt |] eqn:Edt; [| reflexivity].
  assert (Hreal : Db.real_date (Db.year dt) (Db.month dt) (Db.day dt) = true).
  { unfold Db.date_param in Hdate.
    destruct (new_value (next_followup_date req)) as [s |]; [| discriminate].
    destruct (Db.date_in s) as [dt' |] eqn:Ein; [| discriminate].
    cbn [option_map] in Hdate. inversion Hdate; subst dt'.
    exact (date_in_real s dt Ein). }
  cbn [Db.date_to_js option_map]. unfold JsDate.Date_local, JsDate.UTC.
  set (D := JsDate.MakeDay (Db.year dt) (Db.month dt - 1) (Db.day dt)).
  set (off := JsDate.LocalTZA (host e) (D * JsDate.msPerDay) false).
  cbv zeta. split.
  - intros Hoff. rewrite Hoff, Z.sub_0_r. unfold D.
    rewrite (toISOString_of_midnight _ _ _ Hreal). reflexivity.
  - intros Hoff. unfold Json.toISOString.
    replace (JsDate.Day (D * JsDate.msPerDay - off)) with (D - 1)%Z
      by (unfold JsDate.Day, JsDate.msPerDay in *;
          Z.div_mod_to_equations; lia).
    eexists. reflexivity.
Qed.

Lemma put_followup_answers_local_midnight_witness :
  exists row,
    snd (put_followup (sample_env utc_plus_530_host no_failure)
           (staff_request (Js.JStr "2026-06-15")) (sample_db None))
    = ok row
    /\ Db.next_followup_date row = Some june_15
    /\ Json.followup_date utc_plus_530_host row
       = Some "2026-06-14T18:30:00.000Z".
Proof.
  destruct (put_followup_answers_local_midnight
              (sample_env utc_plus_530_host no_failure)
              (staff_request (Js.JStr "2026-06-15")) (sample_db None)
              _ _ eq_refl eq_refl) as (row & Hbody & _ & Hdate & _).
  exists row.
  assert (E : Db.next_followup_date row = Some june_15).
  { change (Some (Some june_15) = Some (Db.next_followup_date row)) in Hdate.
    congruence. }
  split; [| split; [exact E |]].
  - revert Hbody. generalize row. vm_compute. intros r H. inversion H.
    reflexivity.
  - unfold Json.followup_date. rewrite E. vm_compute. reflexivity.
Defined.

End Frame.

(** * Properties of the other routes *)

(** ** Login *)

Section Login.
Import Api AuthRoutes.

Lemma truthy_string (s : string) :
  s <> "" -> JsText.truthy (Js.JStr s) = true.
Proof.
  intros Hs. cbn [JsText.truthy].
  destruct (String.eqb_spec s ""); [congruence | reflexivity].
Qed.

Lemma lower_idem (c : ascii) : JsText.lower (JsText.lower c) = JsText.lower c.
Proof.
  destruct c as [[] [] [] [] [] [] [] []]; vm_compute; reflexivity.
Qed.

Lemma toLowerCase_idem (s : string) :
  JsText.toLowerCase (JsText.toLowerCase s) = JsText.toLowerCase s.
Proof.
  induction s as [| c s IH]; cbn [JsText.toLowerCase]; [reflexivity |].
  rewrite lower_idem, IH. reflexivity.
Qed.

Lemma local_account_row (w : World) (key : string) (u : UserRow) :
  local_account w key = Some u <->
  users w !! key = Some u /\ auth_provider u = Some "local".
Proof.
  unfold local_account. split.
  - destruct (users w !! key) as [u' |]; [| discriminate].
    destruct (auth_provider u') as [p |] eqn:Ep; [| discriminate].
    destruct (String.eqb_spec p "local") as [-> |]; [| discriminate].
    intros H. inversion H; subst. split; [reflexivity | exact Ep].
  - intros [-> ->]. reflexivity.
Qed.

(** What [login] does with a non-empty string as email and a truthy
    password when the store answers. *)
Lemma login_with_email (x : Ctx) (body : gmap string Js.value) (w : World)
    (e : string) :
  JsText.field body "email" = Js.JStr e ->
  e <> "" ->
  JsText.truthy (JsText.field body "password") = true ->
  refuses x (SelectLocalUser (login_key e)) = false ->
  login x body w
  = match local_account w (login_key e) with
    | Some u =>
        match compare x (JsText.field body "password") (password_hash u) with
        | None => (ask (SelectLocalUser (login_key e)) w,
                   failure 500 "Login failed")
        | Some false => (ask (SelectLocalUser (login_key e)) w,
                         failure 401 "Invalid email or password")
        | Some true =>
            match Tokens.ensureJwtSecret (Server.JWT_SECRET (env x)) with
            | Some _ => (ask (SelectLocalUser (login_key e)) w,
                         failure 500 "Login failed")
            | None =>
                (ask (SelectLocalUser (login_key e)) w,
                 {| code := 200;
                    content :=
                      Session
                        (Jwt.sign (Server.codec (env x)) (Js.JStr (uid u))
                           (Js.JStr (role u))
                           (Http.customerId (identity_of_row u))
                           (default "" (Server.JWT_SECRET (env x)))
                           Tokens.ACCESS_TOKEN_EXPIRY (Server.now_ms (env x)))
                        (role u) (customer_id u) |})
            end
        end
    | None => (ask (SelectLocalUser (login_key e)) w,
               failure 401 "Invalid email or password")
    end.
Proof.
  intros He Hne Hp Hr. unfold login, select_local_user.
  rewrite He, Hp, (truthy_string e Hne).
  cbn [negb orb]. fold (login_key e). rewrite Hr.
  destruct (local_account w (login_key e)) as [u |]; [| reflexivity].
  destruct (compare x _ _) as [[|] |]; try reflexivity.
  unfold Tokens.createAccessToken.
  destruct (Tokens.ensureJwtSecret (Server.JWT_SECRET (env x)));
    [reflexivity |].
  cbn [Tokens.userId Tokens.role Tokens.customerId identity_of_row
       Http.customerId].
  destruct (customer_id u); reflexivity.
Qed.

(** X17. [login] hands out a session only for a non-empty email and
    password, both strings, that match a local account stored under
    the trimmed, lower-cased email; the role and the customer id in
    the reply are those of that account. *)
Theorem login_grants_only_on_match (x : Ctx) (body : gmap string Js.value)
    (w : World) (tok r : string) (c : option string) :
  content (snd (login x body w)) = Session tok r c ->
  exists e p u h,
    JsText.field body "email" = Js.JStr e
    /\ JsText.field body "password" = Js.JStr p
    /\ e <> "" /\ p <> ""
    /\ users w !! login_key e = Some u
    /\ auth_provider u = Some "local"
    /\ password_hash u = Some h
    /\ bcrypt_compare x p h = true
    /\ r = role u /\ c = customer_id u
    /\ code (snd (login x body w)) = 200%Z.
Proof.
  unfold login, select_local_user.
  destruct (negb (JsText.truthy (JsText.field body "email"))
            || negb (JsText.truthy (JsText.field body "password"))) eqn:Ht;
    [cbn; discriminate |].
  apply orb_false_iff in Ht as [Hte Htp].
  destruct (JsText.field body "email") as [| | b | n | e] eqn:He;
    try (cbn; discriminate).
  assert (Hne : e <> "").
  { intros ->. discriminate Hte. }
  fold (login_key e). destruct (refuses x _); [cbn; discriminate |].
  destruct (local_account w (login_key e)) as [u |] eqn:Hu;
    [| cbn; discriminate].
  apply local_account_row in Hu as [Hu Hl].
  unfold compare.
  destruct (JsText.field body "password") as [| | b | n | p] eqn:Hp;
    try (cbn; discriminate).
  assert (Hnp : p <> "").
  { intros ->. discriminate Htp. }
  destruct (password_hash u) as [h |] eqn:Hh; [| cbn; discriminate].
  destruct (bcrypt_compare x p h) eqn:Hb; [| cbn; discriminate].
  destruct (Tokens.createAccessToken _ _ _ _); [cbn; discriminate |].
  cbn [snd content code]. intros H. inversion H; subst.
  exists e, p, u, h. repeat split; assumption.
Qed.

Lemma login_grants_only_on_match_witness :
  exists e p u h,
    JsText.field (credentials " Asha@Example.com" "pw") "email" = Js.JStr e
    /\ JsText.field (credentials " Asha@Example.com" "pw") "password" = Js.JStr p
    /\ e <> "" /\ p <> ""
    /\ users sample_world !! login_key e = Some u
    /\ auth_provider u = Some "local"
    /\ password_hash u = Some h
    /\ bcrypt_compare sample_ctx p h = true
    /\ "staff" = role u /\ None = customer_id u
    /\ code (snd (login sample_ctx (credentials " Asha@Example.com" "pw")
                    sample_world)) = 200%Z.
Proof.
  refine (login_grants_only_on_match sample_ctx
            (credentials " Asha@Example.com" "pw") sample_world
            (Jwt.sign ReferenceCodec.codec (Js.JStr "u1") (Js.JStr "staff")
               Js.JNull "k" Tokens.ACCESS_TOKEN_EXPIRY 2000)
            "staff" None _).
  vm_compute. reflexivity.
Defined.

(** X18. What the refusals of [login] tell. With a non-empty string
    as email, a truthy password and the store answering: no local
    account under the email gets 401 "Invalid email or password"; so
    does a local account whose hash the password, a string, does not
    match; but a local account gets 500 "Login failed" when the
    password is no string or the account has no hash. A request with a
    number as password thus tells an existing local account (500) from
    an unknown email (401). *)
Theorem login_tells_accounts_apart (x : Ctx) (body : gmap string Js.value)
    (w : World) (e : string) :
  JsText.field body "email" = Js.JStr e ->
  e <> "" ->
  JsText.truthy (JsText.field body "password") = true ->
  refuses x (SelectLocalUser (login_key e)) = false ->
  (local_account w (login_key e) = None ->
   login x body w
   = (ask (SelectLocalUser (login_key e)) w,
      failure 401 "Invalid email or password"))
  /\ (forall u p h,
        local_account w (login_key e) = Some u ->
        JsText.field body "password" = Js.JStr p ->
        password_hash u = Some h ->
        bcrypt_compare x p h = false ->
        login x body w
        = (ask (SelectLocalUser (login_key e)) w,
           failure 401 "Invalid email or password"))
  /\ (forall u,
        local_account w (login_key e) = Some u ->
        (forall p, JsText.field body "password" <> Js.JStr p)
        \/ password_hash u = None ->
        login x body w
        = (ask (SelectLocalUser (login_key e)) w, failure 500 "Login failed")).
Proof.
  intros He Hne Hp Hr.
  rewrite (login_with_email x body w e He Hne Hp Hr).
  split; [| split].
  - intros ->. reflexivity.
  - intros u p h -> Hpw Hh Hb. unfold compare. rewrite Hpw, Hh, Hb.
    reflexivity.
  - intros u -> Hbad. unfold compare.
    destruct (JsText.field body "password") as [| | b | n | p];
      try reflexivity.
    destruct Hbad as [Hno | ->]; [| reflexivity].
    exfalso. exact (Hno p eq_refl).
Qed.

Lemma login_tells_accounts_apart_witness :
  login sample_ctx
    {[ "email" := Js.JStr "asha@example.com"; "password" := Js.JNum 1 ]}
    sample_world
  = (ask (SelectLocalUser "asha@example.com") sample_world,
     failure 500 "Login failed")
  /\ login sample_ctx
       {[ "email" := Js.JStr "nobody@example.com"; "password" := Js.JNum 1 ]}
       sample_world
     = (ask (SelectLocalUser "nobody@example.com") sample_world,
        failure 401 "Invalid email or password").
Proof.
  split.
  - refine (proj2 (proj2 (login_tells_accounts_apart sample_ctx
                            {[ "email" := Js.JStr "asha@example.com";
                               "password" := Js.JNum 1 ]}
                            sample_world "asha@example.com"
                            eq_refl ltac:(discriminate) eq_refl eq_refl))
              sample_user eq_refl _).
    left. intros p. vm_compute. discriminate.
  - exact (proj1 (login_tells_accounts_apart sample_ctx
                    {[ "email" := Js.JStr "nobody@example.com";
                       "password" := Js.JNum 1 ]}
                    sample_world "nobody@example.com"
                    eq_refl ltac:(discriminate) eq_refl eq_refl) eq_refl).
Defined.

(** X19. Login and [authenticate] fit together. With a signing secret
    configured, matching credentials are answered 200 with the role and
    customer id of the account and a token; on any request that carries
    that token as bearer token, at any time up to seven days less one
    second after the login, [authenticate] calls [next()] with
    [req.user] set to the id, role and customer id of that account
    ([null] for an account without customer) and the rest of the
    request as it came. *)
Theorem login_then_authenticate (x : Ctx) (body : gmap string Js.value)
    (w : World) (e p h S : string) (u : UserRow) :
  JsText.field body "email" = Js.JStr e ->
  JsText.field body "password" = Js.JStr p ->
  e <> "" -> p <> "" ->
  refuses x (SelectLocalUser (login_key e)) = false ->
  users w !! login_key e = Some u ->
  auth_provider u = Some "local" ->
  password_hash u = Some h ->
  bcrypt_compare x p h = true ->
  Server.JWT_SECRET (env x) = Some S -> S <> "" ->
  exists tok,
    login x body w
    = (ask (SelectLocalUser (login_key e)) w,
       {| code := 200; content := Session tok (role u) (customer_id u) |})
    /\ forall t_ms req,
         (t_ms <= Server.now_ms (env x)
                  + (Tokens.ACCESS_TOKEN_EXPIRY - 1) * 1000)%Z ->
         exists req',
           Middleware.authenticate (Server.codec (env x)) (Some S) t_ms
             (with_bearer tok req)
           = Http.Next req'
           /\ Http.user req'
              = Some {| Http.userId := Js.JStr (uid u);
                        Http.role := Js.JStr (role u);
                        Http.customerId := match customer_id u with
                                           | Some c => Js.JStr c
                                           | None => Js.JNull
                                           end |}
           /\ Http.authorization req' = Some ("Bearer " ++ tok)
           /\ Http.id req' = Http.id req
           /\ Http.next_followup_date req' = Http.next_followup_date req.
Proof.
  intros He Hp Hne Hnp Hr Hu Hl Hh Hb HS HSne.
  assert (Hacc : local_account w (login_key e) = Some u).
  { apply local_account_row. split; assumption. }
  rewrite (login_with_email x body w e He Hne
             ltac:(rewrite Hp; exact (truthy_string p Hnp)) Hr).
  rewrite Hacc, Hp. unfold compare. rewrite Hh, Hb, HS.
  rewrite (ensureJwtSecret_passes S HSne). cbn [from_option id].
  eexists. split; [reflexivity |].
  intros t_ms req Hlt. rewrite authenticate_with_bearer.
  unfold Tokens.verifyAccessToken. rewrite (ensureJwtSecret_passes S HSne).
  cbn [from_option id]. rewrite verify_signed.
  pose proof (before_expiry (Server.now_ms (env x)) t_ms Hlt) as Hsec.
  destruct (Z.geb_spec (Jwt.clockTimestamp t_ms)
              (Jwt.clockTimestamp (Server.now_ms (env x))
               + Tokens.ACCESS_TOKEN_EXPIRY)); [lia |].
  eexists. split; [reflexivity |].
  cbn [Http.user Http.authorization Http.id Http.next_followup_date
       Http.set_user with_bearer Jwt.userId Jwt.role Jwt.customerId
       Jwt.claims_at identity_of_row Http.customerId].
  repeat split. destruct (customer_id u); reflexivity.
Qed.

Lemma login_then_authenticate_witness :
  exists tok req',
    login sample_ctx (credentials " Asha@Example.com" "pw") sample_world
    = (ask (SelectLocalUser "asha@example.com") sample_world,
       {| code := 200; content := Session tok "staff" None |})
    /\ Middleware.authenticate ReferenceCodec.codec (Some "k") 604801000
         (with_bearer tok (bare_request None))
       = Http.Next req'
    /\ Http.user req'
       = Some {| Http.userId := Js.JStr "u1"; Http.role := Js.JStr "staff";
                 Http.customerId := Js.JNull |}.
Proof.
  destruct (login_then_authenticate sample_ctx
              (credentials " Asha@Example.com" "pw") sample_world
              " Asha@Example.com" "pw" "hash-of-pw" "k" sample_user
              eq_refl eq_refl ltac:(discriminate) ltac:(discriminate)
              eq_refl eq_refl eq_refl eq_refl eq_refl eq_refl
              ltac:(discriminate))
    as (tok & Hlogin & Hauth).
  destruct (Hauth 604801000%Z (bare_request None))
    as (req' & Hnext & Huser & _).
  - vm_compute. discriminate.
  - exists tok, req'. split; [exact Hlogin |]. split; [exact Hnext |].
    exact Huser.
Defined.

(** X20. Emails are compared trimmed and lower-cased: two non-empty
    emails that agree up to white space around them and up to case get
    the same reply and send the same statement, whatever the rest of
    the body. *)
Theorem login_normalises_email (x : Ctx) (body : gmap string Js.value)
    (w : World) (e1 e2 : string) :
  e1 <> "" -> e2 <> "" ->
  login_key e1 = login_key e2 ->
  login x (<["email" := Js.JStr e1]> body) w
  = login x (<["email" := Js.JStr e2]> body) w.
Proof.
  intros H1 H2 Hk. unfold login, JsText.field.
  rewrite !lookup_insert_eq.
  rewrite !(lookup_insert_ne body "email" "password") by discriminate.
  cbn [from_option id]. rewrite (truthy_string e1 H1), (truthy_string e2 H2).
  fold (login_key e1). fold (login_key e2). rewrite Hk. reflexivity.
Qed.

Lemma login_normalises_email_witness :
  login sample_ctx (<["email" := Js.JStr "  ASHA@Example.COM "]>
                      (credentials "" "pw")) sample_world
  = login sample_ctx (<["email" := Js.JStr "asha@example.com"]>
                        (credentials "" "pw")) sample_world.
Proof.
  apply (login_normalises_email sample_ctx (credentials "" "pw") sample_world
           "  ASHA@Example.COM " "asha@example.com");
    [discriminate | discriminate | vm_compute; reflexivity].
Defined.

(** X21. An account whose stored email has a capital letter cannot
    log in: the key looked up is always lower case, so every login
    request is answered as if that account were not there. *)
Theorem login_ignores_mixed_case_accounts (x : Ctx)
    (body : gmap string Js.value) (w : World) (stored : string) :
  JsText.toLowerCase stored <> stored ->
  snd (login x body w) = snd (login x body (without_user stored w)).
Proof.
  intros Hcase. unfold login, select_local_user.
  destruct (negb (JsText.truthy (JsText.field body "email"))
            || negb (JsText.truthy (JsText.field body "password")));
    [reflexivity |].
  destruct (JsText.field body "email") as [| | b | n | e]; try reflexivity.
  fold (login_key e). destruct (refuses x _); [reflexivity |].
  assert (Hsame : local_account (without_user stored w) (login_key e)
                  = local_account w (login_key e)).
  { unfold local_account. cbn [users without_user].
    rewrite lookup_delete_ne; [reflexivity |].
    intros E. apply Hcase. rewrite E. unfold login_key.
    apply toLowerCase_idem. }
  rewrite Hsame.
  destruct (local_account w (login_key e)) as [u |]; [| reflexivity].
  destruct (compare x _ _) as [[|] |]; try reflexivity.
  destruct (Tokens.createAccessToken _ _ _ _); reflexivity.
Qed.

Lemma login_ignores_mixed_case_accounts_witness :
  snd (login sample_ctx (credentials "Asha@Example.com" "pw")
         {| db := sample_db None;
            users := {[ "Asha@Example.com" := sample_user ]};
            asked := [] |})
  = failure 401 "Invalid email or password".
Proof.
  rewrite (login_ignores_mixed_case_accounts sample_ctx
             (credentials "Asha@Example.com" "pw")
             {| db := sample_db None;
                users := {[ "Asha@Example.com" := sample_user ]};
                asked := [] |}
             "Asha@Example.com" ltac:(discriminate)).
  vm_compute. reflexivity.
Defined.

(** X22. [login] reads and never writes: the tables are as before
    whatever the body; at most one statement is sent, the lookup of the
    trimmed, lower-cased email, and that only when the email is a
    non-empty string and the password is truthy; and the status is one
    of 200, 400, 401 and 500. *)
Theorem login_reads_only (x : Ctx) (body : gmap string Js.value) (w : World) :
  db (fst (login x body w)) = db w
  /\ users (fst (login x body w)) = users w
  /\ (asked (fst (login x body w)) = asked w
      \/ exists e,
           JsText.field body "email" = Js.JStr e
           /\ e <> ""
           /\ JsText.truthy (JsText.field body "password") = true
           /\ asked (fst (login x body w))
              = (asked w ++ [SelectLocalUser (login_key e)])%list)
  /\ In (code (snd (login x body w))) [200; 400; 401; 500]%Z.
Proof.
  unfold login, select_local_user.
  destruct (JsText.truthy (JsText.field body "password")) eqn:Htp;
    [| rewrite orb_true_r; cbn; tauto].
  rewrite orb_false_r.
  destruct (JsText.field body "email") as [| | b | n | e];
    try (cbn; tauto);
    try (destruct (negb (JsText.truthy _)); cbn; tauto).
  destruct (negb (JsText.truthy (Js.JStr e))) eqn:Hte; [cbn; tauto |].
  assert (Hne : e <> "").
  { intros ->. discriminate Hte. }
  fold (login_key e).
  assert (Hasked : forall r : Reply,
             In (code r) [200; 400; 401; 500]%Z ->
             db (fst (ask (SelectLocalUser (login_key e)) w, r)) = db w
             /\ users (fst (ask (SelectLocalUser (login_key e)) w, r)) = users w
             /\ (asked (fst (ask (SelectLocalUser (login_key e)) w, r)) = asked w
                 \/ exists e0,
                      Js.JStr e = Js.JStr e0
                      /\ e0 <> ""
                      /\ true = true
                      /\ asked (fst (ask (SelectLocalUser (login_key e)) w, r))
                         = (asked w ++ [SelectLocalUser (login_key e0)])%list)
             /\ In (code (snd (ask (SelectLocalUser (login_key e)) w, r)))
                  [200; 400; 401; 500]%Z).
  { intros r Hr. repeat split; try exact Hr.
    right. exists e. repeat split. exact Hne. }
  destruct (refuses x _); [apply Hasked; cbn; tauto |].
  destruct (local_account w (login_key e)) as [u |];
    [| apply Hasked; cbn; tauto].
  destruct (compare x _ _) as [[|] |]; try (apply Hasked; cbn; tauto).
  destruct (Tokens.createAccessToken _ _ _ _); apply Hasked; cbn; tauto.
Qed.

End Login.

(** ** Who reaches the customer and comment routes *)

Section Access.
Import Api CustomerRoutes.

(** A route of [authenticate] and one more guard, when that guard
    lets through the allowed identities and answers the others 403. *)
Lemma guarded_cases {R : Type} (x : Ctx) (g : Http.Request -> Http.Outcome)
    (allowed : Http.User -> Http.Request -> Prop)
    (h : Http.Request -> World -> World * R) :
  (forall u req,
      (allowed u req
       /\ g (Http.set_user u req) = Http.Next (Http.set_user u req))
      \/ (exists res,
            g (Http.set_user u req) = Http.Send res
            /\ Http.status res = 403%Z)) ->
  reached_only_when x allowed
    (guarded
       [Middleware.authenticate (Server.codec (env x))
          (Server.JWT_SECRET (env x)) (Server.now_ms (env x)); g] h)
    h.
Proof.
  intros Hg req w. unfold guarded. cbn [pass_guards].
  destruct (authenticate_cases (env x) req)
    as [(payload & Hv & Ha) | (res & Ha & Hs)]; rewrite Ha.
  - destruct (Hg (identity_of_claims payload) req)
      as [[Hallowed Hnext] | (res & Hsend & Hs)].
    + left. exists payload. rewrite Hnext.
      destruct (h _ w).
      split; [exact Hv | split; [exact Hallowed | reflexivity]].
    + right. exists res. rewrite Hsend. split; [reflexivity | right; exact Hs].
  - right. exists res. split; [reflexivity | left; exact Hs].
Qed.

Lemma requireAdmin_verdict (u : Http.User) (req : Http.Request) :
  (is_admin u
   /\ Middleware.requireAdmin (Http.set_user u req)
      = Http.Next (Http.set_user u req))
  \/ (exists res,
        Middleware.requireAdmin (Http.set_user u req) = Http.Send res
        /\ Http.status res = 403%Z).
Proof.
  unfold Middleware.requireAdmin, is_admin. cbn [Http.user Http.set_user].
  destruct (Js.strict_eq (Http.role u) (Js.JStr "admin")) eqn:E; cbn [negb].
  - left. split; [apply strict_eq_true; exact E | reflexivity].
  - right. eexists. split; reflexivity.
Qed.

Lemma requireStaffOrAdmin_verdict (u : Http.User) (req : Http.Request) :
  (elevated u
   /\ Middleware.requireStaffOrAdmin (Http.set_user u req)
      = Http.Next (Http.set_user u req))
  \/ (exists res,
        Middleware.requireStaffOrAdmin (Http.set_user u req) = Http.Send res
        /\ Http.status res = 403%Z).
Proof.
  unfold Middleware.requireStaffOrAdmin, elevated.
  cbn [Http.user Http.set_user].
  destruct (Js.strict_eq (Http.role u) (Js.JStr "admin")) eqn:E1;
    [| destruct (Js.strict_eq (Http.role u) (Js.JStr "staff")) eqn:E2];
    cbn [negb andb].
  - left. split; [left; apply strict_eq_true; exact E1 | reflexivity].
  - left. split; [right; apply strict_eq_true; exact E2 | reflexivity].
  - right. eexists. split; reflexivity.
Qed.

Lemma requireCustomerSelf_cases (u : Http.User) (req : Http.Request) :
  ((elevated u \/ owns u (Http.id req))
   /\ Middleware.requireCustomerSelf (Http.set_user u req)
      = Http.Next (Http.set_user u req))
  \/ (exists res,
        Middleware.requireCustomerSelf (Http.set_user u req) = Http.Send res
        /\ Http.status res = 403%Z).
Proof.
  unfold Middleware.requireCustomerSelf, elevated, owns.
  cbn [Http.user Http.set_user Http.id].
  destruct (Js.strict_eq (Http.role u) (Js.JStr "admin")) eqn:E1;
    [| destruct (Js.strict_eq (Http.role u) (Js.JStr "staff")) eqn:E2];
    cbn [orb].
  - left. split; [left; left; apply strict_eq_true; exact E1 | reflexivity].
  - left. split; [left; right; apply strict_eq_true; exact E2 | reflexivity].
  - destruct (Js.strict_eq (Http.role u) (Js.JStr "customer")) eqn:E3;
      [destruct (Js.strict_eq (Http.customerId u) (Js.JStr (Http.id req)))
         eqn:E4 |]; cbn [andb].
    + left. split; [| reflexivity].
      right. split; apply strict_eq_true; assumption.
    + right. eexists. split; reflexivity.
    + right. eexists. split; reflexivity.
Qed.

(** X23. The customer and comment routes do nothing for a caller
    without a verified token of the right kind: creating a customer
    takes an admin, patching one an admin or staff, reading or adding
    comments an admin, staff or the customer of the path. Every other
    request is answered 401 or 403, with no statement sent and the
    tables untouched. *)
Theorem customer_routes_reached_only_when_allowed (x : Ctx)
    (body : gmap string Js.value) :
  reached_only_when x (fun u _ => is_admin u)
    (route_create_customer x body) (fun _ => create_customer x body)
  /\ reached_only_when x (fun u _ => elevated u)
       (route_patch_customer x body) (patch_customer x body)
  /\ reached_only_when x (fun u req => elevated u \/ owns u (Http.id req))
       (route_get_comments x) (get_comments x)
  /\ reached_only_when x (fun u req => elevated u \/ owns u (Http.id req))
       (route_post_comment x body) (post_comment x body).
Proof.
  repeat split; apply guarded_cases; intros u req.
  - apply requireAdmin_verdict.
  - apply requireStaffOrAdmin_verdict.
  - apply requireCustomerSelf_cases.
  - apply requireCustomerSelf_cases.
Qed.

End Access.

(** ** Comments *)

Section Comments.
Import Api CustomerRoutes.




End Comments.

(** ** Patching and creating customers *)

Section Customers.
Import Api CustomerRoutes.



(** X26. [PATCH] does not check the follow-up date itself and takes
    [null] as a value. With [next_followup_date] alone in the body, [null] or a
    value whose text the server reads as a date, the customer of the
    path gets that date, the cleared one for [null], and is returned
    with status 200. *)
Theorem patch_sets_the_date (x : Ctx) (body : gmap string Js.value)
    (req : Http.Request) (w : World) (c : Db.Customer)
    (d : option Db.SqlDate) :
  JsText.field body "status" = Js.JUndefined ->
  JsText.field body "next_followup_date" <> Js.JUndefined ->
  date_column x (JsText.field body "next_followup_date") = Some d ->
  Db.customers (db w) !! Http.id req = Some c ->
  (forall q, refuses x q = false) ->
  snd (patch_customer x body req w)
  = {| code := 200;
       content := CustomerRow (Http.id req) (Db.set_followup d c) |}
  /\ Db.customers (db (fst (patch_customer x body req w)))
     = <[Http.id req := Db.set_followup d c]> (Db.customers (db w)).
Proof.
  intros Hs Hn Hd Hc Hr. unfold patch_customer.
  rewrite Hs. unfold patch_statement, patch_field. rewrite Hd, Hc.
  destruct (JsText.field body "next_followup_date") eqn:E;
    [congruence | | | |];
    cbn [set_field app]; rewrite Hr; split; reflexivity.
Qed.

Lemma patch_sets_the_date_witness :
  snd (patch_customer sample_ctx
         {[ "next_followup_date" := Js.JStr "2026-06-15" ]}
         (staff_request Js.JUndefined) sample_world)
  = {| code := 200;
       content := CustomerRow "c1" (sample_customer (Some june_15)) |}
  /\ snd (patch_customer sample_ctx {[ "next_followup_date" := Js.JNull ]}
            (staff_request Js.JUndefined)
            {| db := sample_db (Some june_15); users := ∅; asked := [] |})
     = {| code := 200; content := CustomerRow "c1" (sample_customer None) |}.
Proof.
  split.
  - exact (proj1 (patch_sets_the_date sample_ctx
                    {[ "next_followup_date" := Js.JStr "2026-06-15" ]}
                    (staff_request Js.JUndefined) sample_world
                    (sample_customer None) (Some june_15)
                    eq_refl ltac:(discriminate) eq_refl eq_refl
                    (fun _ => eq_refl))).
  - exact (proj1 (patch_sets_the_date sample_ctx
                    {[ "next_followup_date" := Js.JNull ]}
                    (staff_request Js.JUndefined)
                    {| db := sample_db (Some june_15); users := ∅;
                       asked := [] |}
                    (sample_customer (Some june_15)) None
                    eq_refl ltac:(discriminate) eq_refl eq_refl
                    (fun _ => eq_refl))).
Defined.

Lemma or_null_falsy (v : Js.value) :
  JsText.truthy v = false -> or_null v = Js.JNull.
Proof. intros H. unfold or_null. rewrite H. reflexivity. Qed.

(** X27. [POST /customers] with a name and a phone number (each a
    string, a boolean, or a whole number that a double holds exactly)
    and nothing else that is truthy makes a customer in status "new"
    with no city and no follow-up date: an empty string, 0 or [false]
    as city, status or date count as not given. The row is stored under
    the fresh id and returned with status 201. *)
Theorem create_customer_defaults (x : Ctx) (body : gmap string Js.value)
    (w : World) :
  JsText.truthy (JsText.field body "name") = true ->
  JsText.truthy (JsText.field body "phone") = true ->
  exact_text (JsText.field body "name") = true ->
  exact_text (JsText.field body "phone") = true ->
  JsText.truthy (JsText.field body "city") = false ->
  JsText.truthy (JsText.field body "status") = false ->
  JsText.truthy (JsText.field body "next_followup_date") = false ->
  (forall q, refuses x q = false) ->
  Db.customers (db w) !! next_uuid x = None ->
  let row := new_customer (Js.to_String (JsText.field body "name"))
               (Js.to_String (JsText.field body "phone")) in
  snd (create_customer x body w)
  = {| code := 201; content := CustomerRow (next_uuid x) row |}
  /\ Db.customers (db (fst (create_customer x body w)))
     = <[next_uuid x := row]> (Db.customers (db w)).
Proof.
  intros Hn Hp _ _ Hc Hs Hd Hr Hfree row. unfold create_customer.
  rewrite Hn, Hp, (or_null_falsy _ Hc), (or_null_falsy _ Hs),
    (or_null_falsy _ Hd), Hr, Hfree.
  cbn [negb orb date_column text_column]. split; reflexivity.
Qed.

Lemma create_customer_defaults_witness :
  snd (create_customer sample_ctx
         {[ "name" := Js.JStr "Ravi"; "phone" := Js.JStr "111";
            "city" := Js.JStr ""; "status" := Js.JStr "" ]}
         sample_world)
  = {| code := 201; content := CustomerRow "c2" (new_customer "Ravi" "111") |}.
Proof.
  exact (proj1 (create_customer_defaults sample_ctx
                  {[ "name" := Js.JStr "Ravi"; "phone" := Js.JStr "111";
                     "city" := Js.JStr ""; "status" := Js.JStr "" ]}
                  sample_world eq_refl eq_refl eq_refl eq_refl eq_refl eq_refl
                  eq_refl (fun _ => eq_refl) eq_refl)).
Defined.

End Customers.

(** ** The seed route *)

Section SeedGate.
Import Api Seed.

(** X28. The seed route is closed unless [SEED_SECRET] is set to a
    non-empty value and the request carries exactly that value, in the
    header [x-seed-secret] or, when that header is absent or empty, in
    the query parameter [secret]. A request that is turned away gets
    the very reply of a route that does not exist, so the route does
    not show. *)
Theorem seed_gate_opens_only_with_the_secret
    (SEED_SECRET header query_secret : option string) :
  (seed_gate SEED_SECRET header query_secret = None
   \/ seed_gate SEED_SECRET header query_secret = Some unknown_route)
  /\ (seed_gate SEED_SECRET header query_secret = None
      <-> exists s,
            SEED_SECRET = Some s /\ s <> ""
            /\ provided header query_secret = Some s).
Proof.
  unfold seed_gate, unknown_route.
  destruct SEED_SECRET as [[| c s] |].
  - split; [right; reflexivity |]. split; [discriminate |].
    intros (s & E & Hs & _). inversion E; subst. congruence.
  - destruct (provided header query_secret) as [p |].
    + destruct (String.eqb_spec p (String c s)) as [-> | Hne].
      * split; [left; reflexivity |]. split; [| reflexivity].
        intros _. exists (String c s). repeat split. discriminate.
      * split; [right; reflexivity |]. split; [discriminate |].
        intros (s' & E & _ & Hp). inversion E; subst. congruence.
    + split; [right; reflexivity |]. split; [discriminate |].
      intros (s' & _ & _ & Hp). discriminate Hp.
  - split; [right; reflexivity |]. split; [discriminate |].
    intros (s & E & _). discriminate E.
Qed.

End SeedGate.

(** ** The allowed origins *)

Section Origins.
Import Cors.

Lemma split_no_comma (s : string) :
  no_comma s = true -> JsText.split "," s = [s].
Proof.
  induction s as [| c s IH]; cbn [no_comma JsText.split]; [reflexivity |].
  intros H. apply andb_true_iff in H as [Hc Hs].
  apply negb_true_iff in Hc. rewrite Hc, (IH Hs). reflexivity.
Qed.

Lemma split_comma (s rest : string) :
  no_comma s = true ->
  JsText.split "," (s ++ String "," rest) = s :: JsText.split "," rest.
Proof.
  induction s as [| c s IH]; simpl.
  - intros _. reflexivity.
  - intros H. apply andb_true_iff in H as [Hc Hs].
    apply negb_true_iff in Hc. rewrite Hc, (IH Hs). reflexivity.
Qed.

Lemma split_concat (xs : list string) :
  Forall (fun s => no_comma s = true) xs ->
  xs <> [] ->
  JsText.split "," (String.concat "," xs) = xs.
Proof.
  induction 1 as [| s xs Hs Hxs IH]; [congruence |]. intros _.
  destruct xs as [| t xs].
  - cbn [String.concat]. exact (split_no_comma s Hs).
  - change (String.concat "," (s :: t :: xs))
      with (s ++ String "," (String.concat "," (t :: xs))).
    rewrite (split_comma s _ Hs), IH by discriminate. reflexivity.
Qed.

Lemma no_comma_app (s t : string) :
  no_comma (s ++ t) = no_comma s && no_comma t.
Proof.
  induction s as [| c s IH]; simpl; [reflexivity |].
  rewrite IH, andb_assoc. reflexivity.
Qed.

Lemma space_is_no_comma (c : ascii) :
  Js.is_space c = true -> Ascii.eqb c "," = false.
Proof.
  destruct (Ascii.eqb_spec c ",") as [-> |]; [| reflexivity].
  vm_compute. discriminate.
Qed.

Lemma all_space_no_comma (s : string) :
  Js.all_space s = true -> no_comma s = true.
Proof.
  induction s as [| c s IH]; cbn [Js.all_space no_comma]; [reflexivity |].
  intros H. apply andb_true_iff in H as [Hc Hs].
  rewrite (space_is_no_comma c Hc), (IH Hs). reflexivity.
Qed.

Lemma no_comma_slashes (n : nat) : no_comma (slashes n) = true.
Proof. induction n as [| n IH]; [reflexivity | exact IH]. Qed.

Lemma trimStart_first (s : string) :
  first_is (fun c => negb (Js.is_space c)) s = true -> Js.trimStart s = s.
Proof.
  destruct s as [| c s]; cbn [first_is Js.trimStart]; [discriminate |].
  intros H. apply negb_true_iff in H. rewrite H. reflexivity.
Qed.

Lemma first_is_app (P : ascii -> bool) (s t : string) :
  first_is P s = true -> first_is P (s ++ t) = true.
Proof. destruct s; [discriminate | exact (fun H => H)]. Qed.

Lemma last_is_not_empty (P : ascii -> bool) (s : string) :
  last_is P s = true -> s <> "".
Proof. destruct s; [discriminate | discriminate]. Qed.

Lemma trimEnd_last (s : string) :
  last_is (fun c => negb (Js.is_space c)) s = true -> Js.trimEnd s = s.
Proof.
  induction s as [| c s IH]; [discriminate |].
  cbn [last_is Js.trimEnd]. destruct s as [| c' s].
  - intros H. apply negb_true_iff in H. cbn [Js.trimEnd]. rewrite H.
    reflexivity.
  - intros H. rewrite (IH H). reflexivity.
Qed.

Lemma last_is_weaken (P Q : ascii -> bool) (s : string) :
  (forall c, P c = true -> Q c = true) ->
  last_is P s = true -> last_is Q s = true.
Proof.
  intros HPQ. induction s as [| c s IH]; [discriminate |].
  cbn [last_is]. destruct s; [apply HPQ | exact IH].
Qed.

Lemma last_is_app (P : ascii -> bool) (s t : string) :
  t <> "" -> last_is P (s ++ t) = last_is P t.
Proof.
  intros Ht. induction s as [| c s IH]; [reflexivity |].
  simpl. destruct (s ++ t) eqn:E; [| exact IH].
  exfalso. destruct s; simpl in E; [apply Ht; exact E | discriminate E].
Qed.

Lemma last_is_slashes (n : nat) :
  last_is (fun c => negb (Js.is_space c)) (slashes (S n)) = true.
Proof.
  induction n as [| n IH]; [reflexivity |].
  change (slashes (S (S n))) with (String "/" (slashes (S n))).
  cbn [last_is]. exact IH.
Qed.

Lemma strip_slashes (n : nat) : JsText.strip_trailing_slashes (slashes n) = "".
Proof.
  induction n as [| n IH]; [reflexivity |].
  cbn [slashes JsText.strip_trailing_slashes]. rewrite IH. reflexivity.
Qed.

Lemma strip_app_slashes (s : string) (n : nat) :
  last_is (fun c => negb (Js.is_space c) && negb (Ascii.eqb c "/")) s = true ->
  JsText.strip_trailing_slashes (s ++ slashes n) = s.
Proof.
  induction s as [| c s IH]; [discriminate |].
  simpl.
  destruct s as [| c' s].
  - intros H. apply andb_true_iff in H as [_ H]. apply negb_true_iff in H.
    change ("" ++ slashes n) with (slashes n).
    rewrite strip_slashes, H. reflexivity.
  - intros H. rewrite (IH H). reflexivity.
Qed.

Lemma append_assoc (s t u : string) : (s ++ t) ++ u = s ++ t ++ u.
Proof.
  induction s as [| c s IH]; [reflexivity |].
  change (String c ((s ++ t) ++ u) = String c (s ++ t ++ u)). rewrite IH.
  reflexivity.
Qed.

Lemma append_empty_r (s : string) : s ++ "" = s.
Proof.
  induction s as [| c s IH]; [reflexivity |].
  change (String c (s ++ "") = String c s). rewrite IH. reflexivity.
Qed.

(** What [allowedOrigins] makes of one piece of [FRONTEND_URL]. *)
Lemma normalised (e : Entry) :
  well_written e = true ->
  JsText.strip_trailing_slashes (Js.trim (written e)) = origin_text e
  /\ origin_text e <> ""
  /\ no_comma (written e) = true.
Proof.
  unfold well_written, written. intros H.
  apply andb_true_iff in H as [H Hlast].
  apply andb_true_iff in H as [H Hfirst].
  apply andb_true_iff in H as [H Hcomma].
  apply andb_true_iff in H as [Hl Hr].
  split; [| split].
  - replace (left_pad e ++ origin_text e ++ slashes (trailing e) ++ right_pad e)
      with (left_pad e ++ (origin_text e ++ slashes (trailing e)) ++ right_pad e)
      by (rewrite append_assoc; reflexivity).
    rewrite (trim_pad _ _ _ Hl Hr). unfold Js.trim.
    rewrite (trimStart_first _ (first_is_app _ _ _ Hfirst)).
    rewrite trimEnd_last.
    + apply strip_app_slashes. exact Hlast.
    + destruct (trailing e) as [| n].
      * cbn [slashes]. rewrite append_empty_r.
        revert Hlast. apply last_is_weaken.
        intros c Hc. apply andb_true_iff in Hc as [Hc _]. exact Hc.
      * rewrite last_is_app by discriminate. apply last_is_slashes.
  - exact (last_is_not_empty _ _ Hlast).
  - rewrite !no_comma_app, (all_space_no_comma _ Hl),
      (all_space_no_comma _ Hr), Hcomma, no_comma_slashes. reflexivity.
Qed.

Lemma allowedOrigins_of_pieces (es : list Entry) :
  Forall (fun e => well_written e = true) es ->
  filter (fun o => o <> "")
    (map (fun o => JsText.strip_trailing_slashes (Js.trim o)) (map written es))
  = map origin_text es.
Proof.
  induction 1 as [| e es He Hes IH]; [reflexivity |].
  destruct (normalised e He) as (Hn & Hne & _).
  cbn [map]. rewrite Hn, filter_cons_True by exact Hne. rewrite IH.
  reflexivity.
Qed.

(** X29. [FRONTEND_URL] is read as a list: origins separated by
    commas, each with white space around it and slashes after it
    dropped. For such a setting [allowedOrigins] is the list of the
    origins as they are without those, in order, and a request from
    any of them is allowed, whatever its host name. *)
Theorem configured_origins_are_allowed (hostname : string -> option string)
    (es : list Entry) :
  Forall (fun e => well_written e = true) es ->
  let FRONTEND_URL := Some (String.concat "," (map written es)) in
  allowedOrigins FRONTEND_URL = map origin_text es
  /\ forall e, In e es ->
       origin hostname FRONTEND_URL (Some (origin_text e)) = true.
Proof.
  intros Hes FRONTEND_URL.
  assert (Hall : allowedOrigins FRONTEND_URL = map origin_text es).
  { unfold allowedOrigins, FRONTEND_URL.
    assert (E : forall u : string,
               match u with "" => "" | String _ _ => u end = u)
      by (intros [| ? ?]; reflexivity).
    rewrite E.
    assert (Hc : Forall (fun s => no_comma s = true) (map written es)).
    { clear E. induction Hes as [| e es He Hes IH]; constructor; [| exact IH].
      exact (proj2 (proj2 (normalised e He))). }
    destruct es as [| e es]; [reflexivity |].
    rewrite (split_concat _ Hc) by discriminate.
    exact (allowedOrigins_of_pieces _ Hes). }
  split; [exact Hall |].
  intros e He. unfold origin. fold FRONTEND_URL. rewrite Hall.
  assert (Hin : JsText.includes (map origin_text es) (origin_text e) = true).
  { unfold JsText.includes. apply existsb_exists. exists (origin_text e).
    split; [apply in_map; exact He | apply String.eqb_refl]. }
  rewrite Hin. destruct (origin_text e); reflexivity.
Qed.

Lemma configured_origins_are_allowed_witness :
  allowedOrigins (Some "https://app.example.com/, http://localhost:5173 ")
  = ["https://app.example.com"; "http://localhost:5173"].
Proof.
  exact (proj1 (configured_origins_are_allowed (fun _ => None)
                  [{| left_pad := ""; origin_text := "https://app.example.com";
                      trailing := 1; right_pad := "" |};
                   {| left_pad := " "; origin_text := "http://localhost:5173";
                      trailing := 0; right_pad := " " |}]
                  ltac:(repeat constructor))).
Defined.

End Origins.
